(** * Gastro-Kalkulation: the recipe cost cascade of [gastro_calc.py]

    A shallow embedding of the calculation core of [gastro_calc.py]
    (the three [calc_*] functions and the methods [calculate_recipe_cost]
    and [calculate_product] of [GastroCalculator]) and the properties the
    specification states about it.

    Modelling choices.
    - A Python [float] is a binary64 number: the kernel's primitive
      [float], with the IEEE operations Python applies to it.  Python
      raises where IEEE returns a special value (division by zero,
      [round] of an infinity or a NaN); those are written out.
    - A Python exception is a value of [exn]; a call returns a [result]
      together with the calculator it leaves behind, because an
      exception does not undo the cache entries written before it.
    - The SQLite connection is a [database] of five tables.  The methods
      only run [SELECT] statements; each is a read of [conn] that is
      also recorded in [queries], the trace of statements executed
      through this calculator (most recent first).
    - An identifier is a Python [int]; the tables hold SQLite INTEGERs
      (64 bits, signed).  Binding a method argument that does not fit
      raises [OverflowError] before the statement runs. *)

From Stdlib Require Import Floats.
From Stdlib Require Import ZArith List Bool Lia.
From stdpp Require Import gmap strings.

Set Warnings "-inexact-float".

Local Open Scope Z_scope.

(** ** Python values *)

(** The exceptions the core can raise.  [FuelExhausted] is not a Python
    exception: it marks the exhaustion of the recursion fuel of
    [calculate_recipe_cost_fuel], which [calculate_recipe_cost] never
    reaches (lemma [fuel_never_exhausted]). *)
Inductive exn : Type :=
| RecursionError (recipe_id : Z)
    (* "Max Verschachtelungstiefe überschritten bei Recipe {recipe_id}" *)
| ValueError_recipe (recipe_id : Z)      (* "Recipe {recipe_id} nicht gefunden" *)
| ValueError_product (product_id : Z)    (* "Product {product_id} nicht gefunden" *)
| TypeError_NoneType                     (* 'NoneType' object is not subscriptable *)
| ZeroDivisionError                      (* float division by zero *)
| OverflowError                          (* cannot convert float infinity to integer *)
| OverflowError_bind                     (* Python int too large to convert to SQLite INTEGER *)
| ValueError_nan                         (* cannot convert float NaN to integer *)
| FuelExhausted.

Inductive result (A : Type) : Type :=
| Ok (a : A)
| Raise (e : exn).
Arguments Ok {A} a.
Arguments Raise {A} e.

Definition is_ok {A} (r : result A) : bool :=
  match r with Ok _ => true | Raise _ => false end.

Module Py.

(** [x / y] on floats: Python raises on a zero divisor (of either sign)
    and otherwise returns the IEEE quotient. *)
Definition truediv (x y : float) : result float :=
  if PrimFloat.eqb y 0 then Raise ZeroDivisionError else Ok (x / y)%float.

(** The integer nearest to [m * 2^e], ties to the even one ([0 <= m]). *)
Definition round_half_even (m e : Z) : Z :=
  if 0 <=? e then m * 2 ^ e
  else
    let d := 2 ^ (- e) in
    let q := m / d in
    let r := m mod d in
    match 2 * r ?= d with
    | Lt => q
    | Gt => q + 1
    | Eq => if Z.even q then q else q + 1
    end.

(** [round(x)] with one argument: a Python [int], by round-half-even. *)
Definition round (x : float) : result Z :=
  match Prim2SF x with
  | S754_nan => Raise ValueError_nan
  | S754_infinity _ => Raise OverflowError
  | S754_zero _ => Ok 0
  | S754_finite s m e => Ok (cond_Zopp s (round_half_even (Zpos m) e))
  end.

(** [float(k)]: the binary64 number nearest to the integer [k]. *)
Definition float_of_int (k : Z) : float :=
  SF2Prim (binary_normalize prec emax k 0 false).

(** [a / b] on Python ints: the float nearest to the quotient.  Every
    [a] the core divides is the [round] of a float, hence itself a
    binary64 number, and [b] is the literal 20, so the conversions are
    exact and the IEEE division is the correctly rounded quotient. *)
Definition int_truediv (a b : Z) : result float :=
  if b =? 0 then Raise ZeroDivisionError
  else Ok (float_of_int a / float_of_int b)%float.

(** Truth value of a nullable integer column: [None] and [0] are
    falsy.  Returns the integer when it is truthy. *)
Definition truthy (v : option Z) : option Z :=
  match v with
  | Some z => if z =? 0 then None else Some z
  | None => None
  end.

End Py.

(** ** The tables (schema of [setup_database]) *)

Record ingredient := {
  ing_name : string;
  ing_unit : string;
  ing_price_per_unit : float;
  ing_supplier : option string
}.

Record packaging_type := {
  pk_name : string;
  pk_size_l : float;
  pk_price_jar : float;
  pk_price_lid : float;
  pk_price_label : float
}.

Record recipe := {
  rc_name : string;
  rc_batch_size_l : float;
  rc_energy_cost_chf : float;
  rc_yield_pct : float;
  rc_level : option Z
}.

Record recipe_item := {
  it_recipe_id : Z;
  it_ingredient_id : option Z;
  it_sub_recipe_id : option Z;
  it_amount : float
}.

Record product := {
  pr_recipe_id : Z;
  pr_packaging_id : Z;
  pr_markup_factor : float
}.

(** Rows with an [INTEGER PRIMARY KEY] are keyed by it; [recipe_items] is
    only ever read by [recipe_id], so it is kept as the list of its rows
    in rowid order. *)
Record database := {
  ingredients : gmap Z ingredient;
  packaging_types : gmap Z packaging_type;
  recipes : gmap Z recipe;
  recipe_items : list recipe_item;
  products : gmap Z product
}.

(** ** The result dictionaries *)

(** An entry of [details['ingredients']]. *)
Record ingredient_line := {
  il_name : string;
  il_amount : float;
  il_unit : string;
  il_price_per_unit : float;
  il_cost : float
}.

(** An entry of [details['sub_recipes']]. *)
Record sub_recipe_line := {
  sl_recipe_id : Z;
  sl_name : string;
  sl_amount_l : float;
  sl_cost_per_liter : float;
  sl_cost : float
}.

(** The [details] dictionary as [calculate_recipe_cost] returns it. *)
Record details := {
  d_name : string;
  d_batch_size : float;
  d_yield_pct : float;
  d_level : option Z;
  d_ingredients : list ingredient_line;
  d_sub_recipes : list sub_recipe_line;
  d_energy_cost : float;
  d_total_material_cost : float;
  d_total_cost : float;
  d_net_output_l : float;
  d_cost_per_liter : float
}.

(** The dictionary [calculate_product] returns. *)
Record product_calculation := {
  pc_product_id : Z;
  pc_recipe_name : string;
  pc_packaging_name : string;
  pc_size_l : float;
  pc_recipe_cost_per_liter : float;
  pc_packaging_cost : float;
  pc_cost_per_unit : float;
  pc_markup_factor : float;
  pc_target_price : float;
  pc_brutto_margin_pct : float;
  pc_recipe_details : details
}.

(** ** The calculator object *)

Inductive query : Type :=
| SelectRecipe (id : Z)
| SelectRecipeItems (recipe_id : Z)
| SelectIngredient (id : Z)
| SelectProduct (id : Z)
| SelectPackaging (id : Z).

Record GastroCalculator := {
  conn : database;
  recipe_cache : gmap Z (float * details);
  queries : list query
}.

(** [GastroCalculator(db_path)]: a fresh connection and an empty cache. *)
Definition new_calculator (db : database) : GastroCalculator :=
  {| conn := db; recipe_cache := ∅; queries := [] |}.

(** A method body: from the calculator before the call to the value
    returned or the exception raised, and the calculator after it. *)
Definition M (A : Type) : Type := GastroCalculator -> result A * GastroCalculator.

Definition ret {A} (a : A) : M A := fun self => (Ok a, self).
Definition raise {A} (e : exn) : M A := fun self => (Raise e, self).
Definition bind {A B} (m : M A) (k : A -> M B) : M B :=
  fun self =>
    match m self with
    | (Ok a, self') => k a self'
    | (Raise e, self') => (Raise e, self')
    end.
Definition lift {A} (r : result A) : M A := fun self => (r, self).

Notation "'let!' x ':=' m 'in' k" := (bind m (fun x => k))
  (at level 10, x pattern, m at level 100, k at level 200).

(** The calculator after the statement [q] was executed through it. *)
Definition executed (q : query) (self : GastroCalculator) : GastroCalculator :=
  {| conn := conn self;
     recipe_cache := recipe_cache self;
     queries := q :: queries self |}.

(** [cursor.execute("SELECT ...")] followed by a fetch: the rows are read
    off the connection, which a [SELECT] leaves as it is. *)
Definition run_query {A} (q : query) (read : database -> A) : M A :=
  fun self => (Ok (read (conn self)), executed q self).

(** [SELECT * FROM recipe_items WHERE recipe_id = ?]. *)
Definition items_of (db : database) (recipe_id : Z) : list recipe_item :=
  List.filter (fun it => it_recipe_id it =? recipe_id) (recipe_items db).

(** An [int] that fits a SQLite INTEGER: 64 bits, signed. *)
Definition sqlite_integer (z : Z) : bool := (- 2 ^ 63 <=? z) && (z <? 2 ^ 63).

(** [cursor.execute(sql, (id,)).fetchone()] on the primary key of
    [table], for an [id] that may come from the caller of the method.
    Binding an [int] that does not fit a SQLite INTEGER raises
    [OverflowError], and the statement is not executed.  The key column
    is an INTEGER: a row is only ever found under an [id] that fits. *)
Definition fetchone_by_id {R} (q : query) (table : database -> gmap Z R) (id : Z)
  : M (option R) :=
  fun self =>
    match table (conn self) !! id with
    | Some row => (Ok (Some row), executed q self)
    | None =>
        if sqlite_integer id then (Ok None, executed q self)
        else (Raise OverflowError_bind, self)
    end.

(** The five statements of the core: [fetchone()] on a primary key, and
    the [fetchall()] of a recipe's items.  The recipe and the product
    are looked up under the method's argument; the items are selected
    under a [recipe_id] that was bound before, and an ingredient and a
    packaging under an INTEGER read from a row. *)
Definition select_recipe (id : Z) : M (option recipe) :=
  fetchone_by_id (SelectRecipe id) recipes id.
Definition select_recipe_items (recipe_id : Z) : M (list recipe_item) :=
  run_query (SelectRecipeItems recipe_id) (fun db => items_of db recipe_id).
Definition select_ingredient (id : Z) : M (option ingredient) :=
  run_query (SelectIngredient id) (fun db => ingredients db !! id).
Definition select_product (id : Z) : M (option product) :=
  fetchone_by_id (SelectProduct id) products id.
Definition select_packaging (id : Z) : M (option packaging_type) :=
  run_query (SelectPackaging id) (fun db => packaging_types db !! id).

(** [recipe_id in self._recipe_cache] and the read of the entry. *)
Definition cache_get (recipe_id : Z) : M (option (float * details)) :=
  fun self => (Ok (recipe_cache self !! recipe_id), self).

(** The calculator after [self._recipe_cache[recipe_id] = v]. *)
Definition cached (recipe_id : Z) (v : float * details) (self : GastroCalculator)
  : GastroCalculator :=
  {| conn := conn self;
     recipe_cache := <[recipe_id := v]> (recipe_cache self);
     queries := queries self |}.

(** [self._recipe_cache[recipe_id] = v]. *)
Definition cache_set (recipe_id : Z) (v : float * details) : M unit :=
  fun self => (Ok tt, cached recipe_id v self).

(** [row[column]] on the result of [fetchone()]: a [TypeError] on [None]. *)
Definition subscript {R} (row : option R) : M R :=
  match row with
  | Some r => ret r
  | None => raise TypeError_NoneType
  end.

(** ** Core calculation functions *)

Definition calc_cost_per_liter (ingredients_cost energy_cost
                                batch_size_l yield_pct : float) : result float :=
  if (batch_size_l <=? 0)%float || (yield_pct <=? 0)%float then Ok 0%float
  else
    let net_output := (batch_size_l * (yield_pct / 100))%float in
    Py.truediv (ingredients_cost + energy_cost)%float net_output.

Definition calc_cost_per_unit (cost_per_liter size_l
                               price_jar price_lid price_label : float) : float :=
  ((cost_per_liter * size_l) + price_jar + price_lid + price_label)%float.

Definition calc_target_price (cost_per_unit markup_factor : float) : result float :=
  let base := (cost_per_unit * markup_factor)%float in
  match Py.round (base * 20)%float with
  | Ok k => Py.int_truediv k 20
  | Raise e => Raise e
  end.

(** ** Recursive recipe calculation *)

(** The locals the item loop updates: [total_material_cost] and the two
    lists of [details]. *)
Record loop_state := {
  total_material_cost : float;
  ingredient_lines : list ingredient_line;
  sub_recipe_lines : list sub_recipe_line
}.

Definition loop_init : loop_state :=
  {| total_material_cost := 0%float; ingredient_lines := []; sub_recipe_lines := [] |}.

Definition add_ingredient (a : loop_state) (amount : float) (ing : ingredient)
  : loop_state :=
  let cost := (amount * ing_price_per_unit ing)%float in
  {| total_material_cost := (total_material_cost a + cost)%float;
     ingredient_lines :=
       ingredient_lines a ++
       [{| il_name := ing_name ing; il_amount := amount; il_unit := ing_unit ing;
           il_price_per_unit := ing_price_per_unit ing; il_cost := cost |}];
     sub_recipe_lines := sub_recipe_lines a |}.

Definition add_sub_recipe (a : loop_state) (amount : float) (sub_recipe_id : Z)
    (sub_cost_per_liter : float) (sub_details : details) : loop_state :=
  let cost := (amount * sub_cost_per_liter)%float in
  {| total_material_cost := (total_material_cost a + cost)%float;
     ingredient_lines := ingredient_lines a;
     sub_recipe_lines :=
       sub_recipe_lines a ++
       [{| sl_recipe_id := sub_recipe_id; sl_name := d_name sub_details;
           sl_amount_l := amount; sl_cost_per_liter := sub_cost_per_liter;
           sl_cost := cost |}] |}.

(** The body of [for item in items], with the recursive method as
    [self_calculate_recipe_cost]. *)
Definition item_step (self_calculate_recipe_cost : Z -> Z -> M (float * details))
    (depth : Z) (a : loop_state) (item : recipe_item) : M loop_state :=
  let amount := it_amount item in
  match Py.truthy (it_ingredient_id item) with
  | Some ingredient_id =>
      let! ing := select_ingredient ingredient_id in
      let! ing := subscript ing in
      ret (add_ingredient a amount ing)
  | None =>
      match Py.truthy (it_sub_recipe_id item) with
      | Some sub_recipe_id =>
          let! (sub_cost_per_liter, sub_details) :=
            self_calculate_recipe_cost sub_recipe_id (depth + 1) in
          ret (add_sub_recipe a amount sub_recipe_id sub_cost_per_liter sub_details)
      | None => ret a
      end
  end.

Fixpoint for_each {A B} (body : B -> A -> M B) (l : list A) (b : B) : M B :=
  match l with
  | [] => ret b
  | x :: l' => let! b' := body b x in for_each body l' b'
  end.

Definition make_details (r : recipe) (a : loop_state) (cost_per_liter : float)
  : details :=
  {| d_name := rc_name r;
     d_batch_size := rc_batch_size_l r;
     d_yield_pct := rc_yield_pct r;
     d_level := rc_level r;
     d_ingredients := ingredient_lines a;
     d_sub_recipes := sub_recipe_lines a;
     d_energy_cost := rc_energy_cost_chf r;
     d_total_material_cost := total_material_cost a;
     d_total_cost := (total_material_cost a + rc_energy_cost_chf r)%float;
     d_net_output_l := (rc_batch_size_l r * (rc_yield_pct r / 100))%float;
     d_cost_per_liter := cost_per_liter |}.

(** The body of [calculate_recipe_cost], with the method it calls on its
    sub-recipes as [self_calculate_recipe_cost].  The depth test comes
    first, then the cache, as in the method. *)
Definition calculate_recipe_cost_body
    (self_calculate_recipe_cost : Z -> Z -> M (float * details))
    (recipe_id depth : Z) : M (float * details) :=
  if 3 <? depth then raise (RecursionError recipe_id)
  else
    let! cached := cache_get recipe_id in
    match cached with
    | Some v => ret v
    | None =>
        let! recipe := select_recipe recipe_id in
        match recipe with
        | None => raise (ValueError_recipe recipe_id)
        | Some recipe =>
            let! items := select_recipe_items recipe_id in
            let! a := for_each (item_step self_calculate_recipe_cost depth)
                               items loop_init in
            let! cost_per_liter :=
              lift (calc_cost_per_liter (total_material_cost a)
                      (rc_energy_cost_chf recipe)
                      (rc_batch_size_l recipe) (rc_yield_pct recipe)) in
            let details := make_details recipe a cost_per_liter in
            let! _ := cache_set recipe_id (cost_per_liter, details) in
            ret (cost_per_liter, details)
        end
    end.

(** The method, by recursion on a fuel that bounds how many calls may
    nest below this one. *)
Fixpoint calculate_recipe_cost_fuel (fuel : nat) : Z -> Z -> M (float * details) :=
  calculate_recipe_cost_body
    match fuel with
    | O => fun _ _ => raise FuelExhausted
    | S fuel' => calculate_recipe_cost_fuel fuel'
    end.

(** A call at [depth] has at most [4 - depth] calls nested below it:
    the one at depth 4 raises before it calls anything. *)
Definition calculate_recipe_cost (recipe_id depth : Z) : M (float * details) :=
  calculate_recipe_cost_fuel (Z.to_nat (4 - depth)) recipe_id depth.

Definition calculate_product (product_id : Z) : M product_calculation :=
  let! product := select_product product_id in
  match product with
  | None => raise (ValueError_product product_id)
  | Some product =>
      let! (cost_per_liter, recipe_details) :=
        calculate_recipe_cost (pr_recipe_id product) 0 in
      let! packaging := select_packaging (pr_packaging_id product) in
      let! packaging := subscript packaging in
      let cost_per_unit :=
        calc_cost_per_unit cost_per_liter (pk_size_l packaging)
          (pk_price_jar packaging) (pk_price_lid packaging)
          (pk_price_label packaging) in
      let! target_price :=
        lift (calc_target_price cost_per_unit (pr_markup_factor product)) in
      let! ratio :=
        lift (Py.truediv (target_price - cost_per_unit)%float target_price) in
      let brutto_margin_pct := (ratio * 100)%float in
      ret {| pc_product_id := product_id;
             pc_recipe_name := d_name recipe_details;
             pc_packaging_name := pk_name packaging;
             pc_size_l := pk_size_l packaging;
             pc_recipe_cost_per_liter := cost_per_liter;
             pc_packaging_cost :=
               (pk_price_jar packaging + pk_price_lid packaging
                + pk_price_label packaging)%float;
             pc_cost_per_unit := cost_per_unit;
             pc_markup_factor := pr_markup_factor product;
             pc_target_price := target_price;
             pc_brutto_margin_pct := brutto_margin_pct;
             pc_recipe_details := recipe_details |}
  end.

(** ** The test data of [setup_database] *)

Module Seed.
Local Open Scope float_scope.
Local Open Scope string_scope.

Definition ing (name unit : string) (price : float) (supplier : string)
  : ingredient :=
  {| ing_name := name; ing_unit := unit; ing_price_per_unit := price;
     ing_supplier := Some supplier |}.

Definition item (recipe_id : Z) (ingredient_id sub_recipe_id : option Z)
    (amount : float) : recipe_item :=
  {| it_recipe_id := recipe_id; it_ingredient_id := ingredient_id;
     it_sub_recipe_id := sub_recipe_id; it_amount := amount |}.

Definition db : database :=
  {| ingredients := list_to_map
       [ (1%Z, ing "Kalbsknochen" "kg" 1.50 "Transgourmet");
         (2%Z, ing "Mirepoix-Gemüse" "kg" 3.33 "Prodega");
         (3%Z, ing "Weisswein" "l" 7.00 "Rahm");
         (4%Z, ing "Tomatenpüree" "kg" 4.50 "Transgourmet");
         (5%Z, ing "Cognac" "l" 45.00 "Rahm");
         (6%Z, ing "Schalotten" "kg" 8.00 "Prodega");
         (7%Z, ing "Morcheln getrocknet" "kg" 380.00 "Delikatessen AG");
         (8%Z, ing "Portwein" "l" 22.00 "Rahm") ];
     packaging_types := list_to_map
       [ (1%Z, {| pk_name := "Weck-Glas 110ml"; pk_size_l := 0.110;
                  pk_price_jar := 1.05; pk_price_lid := 0.00; pk_price_label := 0.60 |});
         (2%Z, {| pk_name := "Weck-Glas 245ml"; pk_size_l := 0.245;
                  pk_price_jar := 1.38; pk_price_lid := 0.00; pk_price_label := 0.60 |});
         (3%Z, {| pk_name := "Weck-Glas 435ml"; pk_size_l := 0.435;
                  pk_price_jar := 1.58; pk_price_lid := 0.00; pk_price_label := 0.60 |});
         (4%Z, {| pk_name := "Weck-Glas 795ml"; pk_size_l := 0.795;
                  pk_price_jar := 2.57; pk_price_lid := 0.00; pk_price_label := 0.60 |}) ];
     recipes := list_to_map
       [ (1%Z, {| rc_name := "Grundfond Kalb"; rc_batch_size_l := 100.0;
                  rc_energy_cost_chf := 8.00; rc_yield_pct := 60.0;
                  rc_level := Some 1%Z |});
         (2%Z, {| rc_name := "Demi-Glace Classique"; rc_batch_size_l := 50.0;
                  rc_energy_cost_chf := 4.80; rc_yield_pct := 45.0;
                  rc_level := Some 2%Z |});
         (3%Z, {| rc_name := "Sauce Périgueux"; rc_batch_size_l := 10.0;
                  rc_energy_cost_chf := 1.60; rc_yield_pct := 90.0;
                  rc_level := Some 3%Z |}) ];
     recipe_items :=
       [ item 1 (Some 1%Z) None 100.0;
         item 1 (Some 2%Z) None 30.0;
         item 1 (Some 3%Z) None 20.0;
         item 2 None (Some 1%Z) 50.0;
         item 2 (Some 4%Z) None 5.0;
         item 2 (Some 5%Z) None 0.5;
         item 3 None (Some 2%Z) 10.0;
         item 3 (Some 6%Z) None 0.5;
         item 3 (Some 7%Z) None 0.1;
         item 3 (Some 8%Z) None 1.5 ];
     products := list_to_map
       [ (1%Z, {| pr_recipe_id := 1; pr_packaging_id := 2; pr_markup_factor := 3.8 |});
         (2%Z, {| pr_recipe_id := 2; pr_packaging_id := 2; pr_markup_factor := 5.2 |});
         (3%Z, {| pr_recipe_id := 3; pr_packaging_id := 2; pr_markup_factor := 6.5 |});
         (4%Z, {| pr_recipe_id := 2; pr_packaging_id := 4; pr_markup_factor := 4.0 |}) ] |}.
End Seed.

(** ** Relations used to state the properties *)

(** What a call may do to the calculator: the connection is untouched,
    cache entries are only added, and the trace only grows. *)
Definition extends (self self' : GastroCalculator) : Prop :=
  conn self' = conn self /\
  recipe_cache self ⊆ recipe_cache self' /\
  exists qs, queries self' = qs ++ queries self.

(** [child] is a sub-recipe of [parent]: some item of [parent] takes the
    [elif item['sub_recipe_id']] branch with it. *)
Definition sub_recipe_of (db : database) (parent child : Z) : Prop :=
  exists item,
    In item (items_of db parent) /\
    Py.truthy (it_ingredient_id item) = None /\
    Py.truthy (it_sub_recipe_id item) = Some child.

(** [hops db n a b]: [b] is reached from [a] by [n] sub-recipe references. *)
Inductive hops (db : database) : nat -> Z -> Z -> Prop :=
| hops_O a : hops db 0 a a
| hops_S n a b c : sub_recipe_of db a b -> hops db n b c -> hops db (S n) a c.

(** ** Example stores *)

Module Examples.
Local Open Scope float_scope.
Local Open Scope string_scope.

Definition plain_recipe (name : string) : recipe :=
  {| rc_name := name; rc_batch_size_l := 10; rc_energy_cost_chf := 1;
     rc_yield_pct := 100; rc_level := Some 1%Z |}.

(** Recipes [1 .. n], each made of one litre of the next one; the last
    one is made of one unit of ingredient 1. *)
Definition chain_db (n : nat) : database :=
  {| ingredients := {[ 1%Z := Seed.ing "Wasser" "l" 2 "Quelle" ]};
     packaging_types := ∅;
     recipes :=
       list_to_map (List.map (fun i => (Z.of_nat i, plain_recipe "Stufe")) (seq 1 n));
     recipe_items :=
       List.map (fun i => Seed.item (Z.of_nat i) None (Some (Z.of_nat (S i))) 1)
                (seq 1 (n - 1))
       ++ [Seed.item (Z.of_nat n) (Some 1%Z) None 1];
     products := ∅ |}.

(** A recipe outside the schema's [CHECK]s: negative batch size and
    negative yield, made of 10 units of an ingredient at 1.00. *)
Definition negative_db : database :=
  {| ingredients := {[ 1%Z := Seed.ing "Wasser" "l" 1 "Quelle" ]};
     packaging_types := ∅;
     recipes := {[ 1%Z := {| rc_name := "Negativ"; rc_batch_size_l := -100;
                             rc_energy_cost_chf := 5; rc_yield_pct := -50;
                             rc_level := Some 1%Z |} ]};
     recipe_items := [Seed.item 1 (Some 1%Z) None 10];
     products := ∅ |}.

(** A product within the schema's [CHECK]s whose cost per unit is
    0.00001: its target price rounds to 0. *)
Definition cheap_db : database :=
  {| ingredients := {[ 1%Z := Seed.ing "Wasser" "l" 0.01 "Quelle" ]};
     packaging_types :=
       {[ 1%Z := {| pk_name := "Beutel"; pk_size_l := 0.1; pk_price_jar := 0;
                    pk_price_lid := 0; pk_price_label := 0 |} ]};
     recipes := {[ 1%Z := {| rc_name := "Wasser"; rc_batch_size_l := 100;
                             rc_energy_cost_chf := 0; rc_yield_pct := 100;
                             rc_level := Some 1%Z |} ]};
     recipe_items := [Seed.item 1 (Some 1%Z) None 1];
     products := {[ 1%Z := {| pr_recipe_id := 1; pr_packaging_id := 1;
                              pr_markup_factor := 3 |} ]} |}.

(** The test data with dangling references, which SQLite accepts while
    foreign keys are not enforced: recipe 4 uses the absent ingredient
    99, recipe 5 the absent sub-recipe 98, and product 5 is packed in the
    absent packaging 97. *)
Definition dangling_db : database :=
  {| ingredients := ingredients Seed.db;
     packaging_types := packaging_types Seed.db;
     recipes := <[ 4%Z := plain_recipe "Ohne Zutat" ]>
                (<[ 5%Z := plain_recipe "Ohne Rezept" ]> (recipes Seed.db));
     recipe_items := recipe_items Seed.db
                     ++ [Seed.item 4 (Some 99%Z) None 1; Seed.item 5 None (Some 98%Z) 1];
     products := <[ 5%Z := {| pr_recipe_id := 1; pr_packaging_id := 97;
                              pr_markup_factor := 2 |} ]> (products Seed.db) |}.

(** A calculator on the test data after [calculate_recipe_cost(1)]:
    recipe 1 is in its cache. *)
Definition warm : GastroCalculator :=
  snd (calculate_recipe_cost 1 0 (new_calculator Seed.db)).

(** Six recipes with a shared sub-recipe: recipe 1 is made of recipe 2
    and of recipe 5, recipe 5 of recipe 6, recipe 6 of recipe 2 again,
    recipe 2 of recipe 3, recipe 3 of recipe 4, and recipe 4 of
    ingredient 1.  The chain 1, 5, 6, 2, 3, 4 is six levels deep. *)
Definition shared_db : database :=
  {| ingredients := {[ 1%Z := Seed.ing "Wasser" "l" 2 "Quelle" ]};
     packaging_types := ∅;
     recipes :=
       list_to_map (List.map (fun i => (Z.of_nat i, plain_recipe "Stufe")) (seq 1 6));
     recipe_items :=
       [Seed.item 1 None (Some 2%Z) 1; Seed.item 1 None (Some 5%Z) 1;
        Seed.item 2 None (Some 3%Z) 1; Seed.item 3 None (Some 4%Z) 1;
        Seed.item 4 (Some 1%Z) None 1; Seed.item 5 None (Some 6%Z) 1;
        Seed.item 6 None (Some 2%Z) 1];
     products := ∅ |}.

(** The chain of five recipes in which every recipe first takes one unit
    of ingredient 1, and recipe 1 then one litre of recipe 9, made of
    ingredient 1: the reference to the next recipe of the chain is the
    last item of each recipe. *)
Definition later_db : database :=
  {| ingredients := {[ 1%Z := Seed.ing "Wasser" "l" 2 "Quelle" ]};
     packaging_types := ∅;
     recipes :=
       <[ 9%Z := plain_recipe "Beilage" ]>
       (list_to_map (List.map (fun i => (Z.of_nat i, plain_recipe "Stufe")) (seq 1 5)));
     recipe_items :=
       [Seed.item 1 (Some 1%Z) None 1; Seed.item 1 None (Some 9%Z) 1;
        Seed.item 1 None (Some 2%Z) 1;
        Seed.item 2 (Some 1%Z) None 1; Seed.item 2 None (Some 3%Z) 1;
        Seed.item 3 (Some 1%Z) None 1; Seed.item 3 None (Some 4%Z) 1;
        Seed.item 4 (Some 1%Z) None 1; Seed.item 4 None (Some 5%Z) 1;
        Seed.item 5 (Some 1%Z) None 1; Seed.item 9 (Some 1%Z) None 1];
     products := ∅ |}.
End Examples.

(** ** The cost of a recipe as the store defines it *)

(** [cost_of db recipe_id (cost_per_liter, details)]: what the method
    computes for [recipe_id] when every nested call returns, read off the
    method body with the cache and the depth counter left out.
    [items_cost db items a a'] runs the item loop from the locals [a]. *)
Inductive cost_of (db : database) : Z -> float * details -> Prop :=
| cost_of_recipe recipe_id recipe a cost_per_liter :
    recipes db !! recipe_id = Some recipe ->
    items_cost db (items_of db recipe_id) loop_init a ->
    calc_cost_per_liter (total_material_cost a) (rc_energy_cost_chf recipe)
      (rc_batch_size_l recipe) (rc_yield_pct recipe) = Ok cost_per_liter ->
    cost_of db recipe_id (cost_per_liter, make_details recipe a cost_per_liter)
with items_cost (db : database) : list recipe_item -> loop_state -> loop_state -> Prop :=
| items_cost_nil a :
    items_cost db [] a a
| items_cost_ingredient item items a a' id ing :
    Py.truthy (it_ingredient_id item) = Some id ->
    ingredients db !! id = Some ing ->
    items_cost db items (add_ingredient a (it_amount item) ing) a' ->
    items_cost db (item :: items) a a'
| items_cost_sub_recipe item items a a' id sub_cost_per_liter sub_details :
    Py.truthy (it_ingredient_id item) = None ->
    Py.truthy (it_sub_recipe_id item) = Some id ->
    cost_of db id (sub_cost_per_liter, sub_details) ->
    items_cost db items
      (add_sub_recipe a (it_amount item) id sub_cost_per_liter sub_details) a' ->
    items_cost db (item :: items) a a'
| items_cost_skip item items a a' :
    Py.truthy (it_ingredient_id item) = None ->
    Py.truthy (it_sub_recipe_id item) = None ->
    items_cost db items a a' ->
    items_cost db (item :: items) a a'.

Scheme cost_of_mut := Minimality for cost_of Sort Prop
  with items_cost_mut := Minimality for items_cost Sort Prop.
Combined Scheme cost_of_items_cost_ind from cost_of_mut, items_cost_mut.

(** The invariant of the cache: every entry is the cost of its recipe,
    and the sub-recipes of a cached recipe are cached. *)
Definition cache_sound (self : GastroCalculator) : Prop :=
  forall recipe_id v,
    recipe_cache self !! recipe_id = Some v -> cost_of (conn self) recipe_id v.

Definition cache_closed (self : GastroCalculator) : Prop :=
  forall parent child,
    is_Some (recipe_cache self !! parent) ->
    sub_recipe_of (conn self) parent child ->
    is_Some (recipe_cache self !! child).

(** The calculators a program can hold on the store [db]: a new one, and
    the one left by a call of either method, returned or raised, on such
    a calculator. *)
Inductive reachable (db : database) : GastroCalculator -> Prop :=
| reachable_new :
    reachable db (new_calculator db)
| reachable_recipe_cost self recipe_id depth :
    reachable db self ->
    reachable db (snd (calculate_recipe_cost recipe_id depth self))
| reachable_product self product_id :
    reachable db self ->
    reachable db (snd (calculate_product product_id self)).

(** The sum [total_material_cost] accumulates over [items], in their
    order, from [total]: [amount * price_per_unit] for an ingredient item
    and [amount * sub_cost_per_liter id] for an item on sub-recipe [id].
    (At an ingredient item whose ingredient is absent the method raises;
    the sum stops there.) *)
Fixpoint material_cost (db : database) (sub_cost_per_liter : Z -> float)
    (items : list recipe_item) (total : float) : float :=
  match items with
  | [] => total
  | item :: items' =>
      match Py.truthy (it_ingredient_id item) with
      | Some id =>
          match ingredients db !! id with
          | Some ing =>
              material_cost db sub_cost_per_liter items'
                (total + it_amount item * ing_price_per_unit ing)%float
          | None => total
          end
      | None =>
          match Py.truthy (it_sub_recipe_id item) with
          | Some id =>
              material_cost db sub_cost_per_liter items'
                (total + it_amount item * sub_cost_per_liter id)%float
          | None => material_cost db sub_cost_per_liter items' total
          end
      end
  end.

(** The cost per litre a top-level call [calculate_recipe_cost(recipe_id)]
    on [self] returns ([0] when it raises). *)
Definition standalone_cost (self : GastroCalculator) (recipe_id : Z) : float :=
  match fst (calculate_recipe_cost recipe_id 0 self) with
  | Ok (cost_per_liter, _) => cost_per_liter
  | Raise _ => 0%float
  end.

(** The identifiers looked up in [recipes] by the statements [qs]. *)
Definition recipe_lookups (qs : list query) : list Z :=
  omap (fun q => match q with SelectRecipe id => Some id | _ => None end) qs.

(** The identifiers whose rows of [recipe_items] the statements [qs] read. *)
Definition item_lookups (qs : list query) : list Z :=
  omap (fun q => match q with SelectRecipeItems id => Some id | _ => None end) qs.

(** [k] is an integer nearest to [m * 2^e], and the even one of the two
    when [m * 2^e] lies halfway between two integers. *)
Definition nearest_even (m e k : Z) : Prop :=
  if 0 <=? e then k = m * 2 ^ e
  else
    let d := 2 ^ (- e) in
    2 * Z.abs (k * d - m) <= d /\
    (2 * Z.abs (k * d - m) = d -> Z.even k = true).

(** ** Items with neither reference *)

(** An item the loop acts on: its ingredient or its sub-recipe reference
    is truthy. *)
Definition live (item : recipe_item) : bool :=
  match Py.truthy (it_ingredient_id item), Py.truthy (it_sub_recipe_id item) with
  | None, None => false
  | _, _ => true
  end.

(** The calculator [self] with its connection on the store [db]. *)
Definition reconnect (db : database) (self : GastroCalculator) : GastroCalculator :=
  {| conn := db; recipe_cache := recipe_cache self; queries := queries self |}.

(** The store [db] with [rows] as its [recipe_items] table. *)
Definition with_recipe_items (db : database) (rows : list recipe_item) : database :=
  {| ingredients := ingredients db;
     packaging_types := packaging_types db;
     recipes := recipes db;
     recipe_items := rows;
     products := products db |}.

(** Two stores with the same ingredients and recipes whose recipes have
    the same live items. *)
Definition same_live_items (db db' : database) : Prop :=
  ingredients db' = ingredients db /\
  recipes db' = recipes db /\
  forall id, List.filter live (items_of db' id) = List.filter live (items_of db id).

(** ** Properties of calls *)

(** [m] only ever extends the calculator. *)
Definition extending {A} (m : M A) : Prop :=
  forall self r self', m self = (r, self') -> extends self self'.

(** A call for [recipe_id] keeps the cache sound and, when it returns,
    returns the cost of [recipe_id]. *)
Definition sound_call (recipe_id : Z) (m : M (float * details)) : Prop :=
  forall self r self',
    cache_sound self -> m self = (r, self') ->
    cache_sound self' /\ forall v, r = Ok v -> cost_of (conn self) recipe_id v.

(** A call for [recipe_id] keeps the cache closed and, when it returns,
    has its result in the cache. *)
Definition closing_call (recipe_id : Z) (m : M (float * details)) : Prop :=
  forall self r self',
    cache_closed self -> m self = (r, self') ->
    cache_closed self' /\ forall v, r = Ok v -> recipe_cache self' !! recipe_id = Some v.

(** What holds of every calculator reachable on [db]. *)
Definition invariant (db : database) (self : GastroCalculator) : Prop :=
  conn self = db /\ cache_sound self /\ cache_closed self.

(** [m] keeps the invariant. *)
Definition keeping {A} (m : M A) : Prop :=
  forall db self r self', invariant db self -> m self = (r, self') -> invariant db self'.

(** The entry the loop appends to [details['sub_recipes']] for [item]
    when its sub-recipe resolved to [(sub_cost_per_liter, sub_details)]. *)
Definition sub_recipe_line_of (item : recipe_item) (sub_recipe_id : Z)
    (sub_cost_per_liter : float) (sub_details : details) : sub_recipe_line :=
  {| sl_recipe_id := sub_recipe_id; sl_name := d_name sub_details;
     sl_amount_l := it_amount item; sl_cost_per_liter := sub_cost_per_liter;
     sl_cost := (it_amount item * sub_cost_per_liter)%float |}.

(** [b] is reached from [a] by one sub-recipe reference or more. *)
Definition reaches (db : database) (a b : Z) : Prop := exists n, hops db (S n) a b.

(** [m], a call for [recipe_id], caches none of the recipes [S] that are
    being resolved above it (each of them reaches [recipe_id]). *)
Definition avoiding_call (recipe_id : Z) (m : M (float * details)) : Prop :=
  forall (S : Z -> Prop) self r self',
    cache_closed self ->
    (forall y, S y -> recipe_cache self !! y = None) ->
    (forall y, S y -> reaches (conn self) y recipe_id) ->
    m self = (r, self') ->
    forall y, S y -> recipe_cache self' !! y = None.

(** [qs] are the statements executed between [self] and [self']. *)
Definition traced (self self' : GastroCalculator) (qs : list query) : Prop :=
  queries self' = qs ++ queries self.

(** The recipes a run looks up were not in the cache when it started;
    when it returns, it has looked each of them up once, read the items
    of exactly those, and left all of them in the cache. *)
Definition lookup_spec (self : GastroCalculator) {A} (r : result A)
    (self' : GastroCalculator) (qs : list query) : Prop :=
  (forall x, x ∈ recipe_lookups qs -> recipe_cache self !! x = None) /\
  (forall x, x ∈ item_lookups qs -> recipe_cache self !! x = None) /\
  (is_ok r = true ->
   NoDup (recipe_lookups qs) /\
   item_lookups qs = recipe_lookups qs /\
   forall x, x ∈ recipe_lookups qs -> is_Some (recipe_cache self' !! x)).

(** [m] meets [lookup_spec] on every calculator with a closed cache. *)
Definition lookup_call {A} (m : M A) : Prop :=
  forall self r self' qs,
    cache_closed self -> m self = (r, self') -> traced self self' qs ->
    lookup_spec self r self' qs.

(** The dictionary [calculate_product] builds once every step before
    its [return] succeeded. *)
Definition product_result (product_id : Z) (product : product)
    (packaging : packaging_type) (cost_per_liter : float) (recipe_details : details)
    (target_price ratio : float) : product_calculation :=
  {| pc_product_id := product_id;
     pc_recipe_name := d_name recipe_details;
     pc_packaging_name := pk_name packaging;
     pc_size_l := pk_size_l packaging;
     pc_recipe_cost_per_liter := cost_per_liter;
     pc_packaging_cost :=
       (pk_price_jar packaging + pk_price_lid packaging
        + pk_price_label packaging)%float;
     pc_cost_per_unit :=
       calc_cost_per_unit cost_per_liter (pk_size_l packaging)
         (pk_price_jar packaging) (pk_price_lid packaging)
         (pk_price_label packaging);
     pc_markup_factor := pr_markup_factor product;
     pc_target_price := target_price;
     pc_brutto_margin_pct := (ratio * 100)%float;
     pc_recipe_details := recipe_details |}.

(** [m] does on [reconnect db' self] what it does on [self]. *)
Definition transported {A} (db db' : database) (m : M A) : Prop :=
  forall self,
    conn self = db ->
    m (reconnect db' self) = (fst (m self), reconnect db' (snd (m self))).

(** A binary64 value that is not negative: a NaN, or a zero, a finite
    number or an infinity with a clear sign bit. *)
Definition sign_free (x : spec_float) : Prop :=
  match x with
  | S754_zero true | S754_finite true _ _ | S754_infinity true => False
  | _ => True
  end.

(** ** Where an exception comes from *)

(** What makes the resolution of [recipe_id] itself raise [e], apart
    from the depth cap: the recipe is absent (and the identifier fits a
    SQLite INTEGER, or does not), one of its items names an absent
    ingredient, or its net output is zero past the guard of
    [calc_cost_per_liter]. *)
Definition raised_at (db : database) (e : exn) (recipe_id : Z) : Prop :=
  match e with
  | ValueError_recipe id =>
      id = recipe_id /\ recipes db !! recipe_id = None /\
      sqlite_integer recipe_id = true
  | OverflowError_bind =>
      recipes db !! recipe_id = None /\ sqlite_integer recipe_id = false
  | TypeError_NoneType =>
      is_Some (recipes db !! recipe_id) /\
      exists item id,
        In item (items_of db recipe_id) /\
        Py.truthy (it_ingredient_id item) = Some id /\
        ingredients db !! id = None
  | ZeroDivisionError =>
      exists recipe,
        recipes db !! recipe_id = Some recipe /\
        (rc_batch_size_l recipe <=? 0)%float = false /\
        (rc_yield_pct recipe <=? 0)%float = false /\
        (rc_batch_size_l recipe * (rc_yield_pct recipe / 100) =? 0)%float = true
  | _ => False
  end.

(** Whether [calc_cost_per_liter] returns on the recipe (it does not
    depend on the costs): the guard holds, or the net output is not zero. *)
Definition net_output_ok (r : recipe) : bool :=
  (rc_batch_size_l r <=? 0)%float || (rc_yield_pct r <=? 0)%float
  || negb (rc_batch_size_l r * (rc_yield_pct r / 100) =? 0)%float.

(** An item the loop gets past: its ingredient exists, or its sub-recipe
    is [sub_ok], or it is skipped. *)
Definition item_resolvable (db : database) (sub_ok : Z -> bool) (item : recipe_item)
  : bool :=
  match Py.truthy (it_ingredient_id item) with
  | Some id => bool_decide (is_Some (ingredients db !! id))
  | None =>
      match Py.truthy (it_sub_recipe_id item) with
      | Some id => sub_ok id
      | None => true
      end
  end.

(** [resolvable db h recipe_id]: the recipe exists, its net output is
    fine, the ingredients of its items exist and its sub-recipes are
    resolvable within [h - 1] levels: the store is well formed below
    [recipe_id], which nests at most [h] levels deep. *)
Fixpoint resolvable (db : database) (h : nat) (recipe_id : Z) : bool :=
  match h with
  | O => false
  | S h' =>
      match recipes db !! recipe_id with
      | None => false
      | Some recipe =>
          net_output_ok recipe &&
          forallb (item_resolvable db (resolvable db h')) (items_of db recipe_id)
      end
  end.

(** ** Stores that agree below a recipe *)

(** [db'] holds the same records as [db] wherever the resolution of
    [recipe_id] can look: the recipes reached from [recipe_id] by
    sub-recipe references, their items and the ingredients these name. *)
Definition agree_below (db db' : database) (recipe_id : Z) : Prop :=
  forall n r,
    hops db n recipe_id r ->
    recipes db' !! r = recipes db !! r /\
    items_of db' r = items_of db r /\
    forall item id,
      In item (items_of db r) ->
      Py.truthy (it_ingredient_id item) = Some id ->
      ingredients db' !! id = ingredients db !! id.

(** The store [db] with [ingredients'] as its [ingredients] table. *)
Definition with_ingredients (db : database) (ingredients' : gmap Z ingredient)
  : database :=
  {| ingredients := ingredients';
     packaging_types := packaging_types db;
     recipes := recipes db;
     recipe_items := recipe_items db;
     products := products db |}.

(** No recipe reached from [recipe_id] has an item on ingredient [id]. *)
Definition unused_below (db : database) (recipe_id id : Z) : Prop :=
  forall n r item,
    hops db n recipe_id r ->
    In item (items_of db r) ->
    Py.truthy (it_ingredient_id item) <> Some id.

(** ** Signs of the numbers *)

(** [x < 0] is false: [x] is a zero, positive or a NaN. *)
Definition not_negative (x : float) : Prop := (x <? 0)%float = false.

Definition SF_not_negative (x : spec_float) : Prop :=
  match x with
  | S754_finite true _ _ | S754_infinity true => False
  | _ => True
  end.

(** [x] is a zero, a finite number or an infinity of sign [s]. *)
Definition SF_signed (s : bool) (x : spec_float) : Prop :=
  match x with
  | S754_zero s' | S754_finite s' _ _ | S754_infinity s' => s' = s
  | S754_nan => False
  end.

(** No ingredient price, energy cost or item amount of the store is
    below zero, as the schema's [CHECK]s on these columns demand. *)
Definition non_negative_recipes (db : database) : Prop :=
  (forall id ing, ingredients db !! id = Some ing ->
                  not_negative (ing_price_per_unit ing)) /\
  (forall id recipe, recipes db !! id = Some recipe ->
                     not_negative (rc_energy_cost_chf recipe)) /\
  (forall item, In item (recipe_items db) -> not_negative (it_amount item)).

Definition non_negative_packaging (packaging : packaging_type) : Prop :=
  not_negative (pk_size_l packaging) /\ not_negative (pk_price_jar packaging) /\
  not_negative (pk_price_lid packaging) /\ not_negative (pk_price_label packaging).

Definition loop_not_negative (a : loop_state) : Prop :=
  not_negative (total_material_cost a) /\
  Forall (fun line => not_negative (il_cost line)) (ingredient_lines a) /\
  Forall (fun line => not_negative (sl_cost_per_liter line) /\
                      not_negative (sl_cost line)) (sub_recipe_lines a).

(** The costs a [details] dictionary reports, those of its lines
    included, are not below zero. *)
Definition details_not_negative (d : details) : Prop :=
  not_negative (d_cost_per_liter d) /\
  not_negative (d_total_material_cost d) /\
  not_negative (d_total_cost d) /\
  Forall (fun line => not_negative (il_cost line)) (d_ingredients d) /\
  Forall (fun line => not_negative (sl_cost_per_liter line) /\
                      not_negative (sl_cost line)) (d_sub_recipes d).

(** ** Chains of sub-recipe references that a resolution follows *)

(** [passes db h avoid item]: the item loop gets past [item], caching no
    recipe of [avoid], when the calls it nests may go [h] levels deep.
    The item names an ingredient that exists, or names nothing, or names
    a sub-recipe that is well formed [h] levels deep and from which no
    recipe of [avoid] is reached. *)
Definition passes (db : database) (h : nat) (avoid : list Z) (item : recipe_item)
  : Prop :=
  match Py.truthy (it_ingredient_id item) with
  | Some id => is_Some (ingredients db !! id)
  | None =>
      match Py.truthy (it_sub_recipe_id item) with
      | Some sub =>
          resolvable db h sub = true /\
          forall x n, In x avoid -> ~ hops db n sub x
      | None => True
      end
  end.

(** [followed db depth root path last]: the resolution of [root] at
    [depth] descends a chain of sub-recipe references to a call for
    [last]; [path] lists the recipes of the chain above [last], from
    [root] on.  Each of them exists, and among its items the reference to
    the next recipe of the chain comes after items that the loop gets
    past without caching a recipe further down [path]. *)
Inductive followed (db : database) : Z -> Z -> list Z -> Z -> Prop :=
| followed_last depth last : followed db depth last [] last
| followed_reference depth root next path last recipe before item rest :
    recipes db !! root = Some recipe ->
    items_of db root = before ++ item :: rest ->
    Forall (passes db (Z.to_nat (3 - depth)) path) before ->
    Py.truthy (it_ingredient_id item) = None ->
    Py.truthy (it_sub_recipe_id item) = Some next ->
    followed db (depth + 1) next path last ->
    followed db depth root (root :: path) last.

(** ** Claims of the specification that the code does not satisfy as stated *)

(** C2 as the specification states it, for its chain of five levels: a
    top-level resolution of a recipe from which four sub-recipe
    references lead down raises the depth-exceeded error. *)
Definition C2_as_stated : Prop :=
  forall db root fifth,
    hops db 4 root fifth ->
    exists r self',
      calculate_recipe_cost root 0 (new_calculator db) = (Raise (RecursionError r), self').

(** C1 as the specification states it: zero exactly when the net output
    is not positive, the quotient otherwise. *)
Definition C1_as_stated : Prop :=
  forall db self recipe_id depth cost_per_liter details self' recipe,
    reachable db self ->
    calculate_recipe_cost recipe_id depth self = (Ok (cost_per_liter, details), self') ->
    recipes db !! recipe_id = Some recipe ->
    let total_material_cost :=
      material_cost db (standalone_cost self') (items_of db recipe_id) 0 in
    let energy_cost := rc_energy_cost_chf recipe in
    let net_output := (rc_batch_size_l recipe * (rc_yield_pct recipe / 100))%float in
    if (net_output <=? 0)%float then cost_per_liter = 0%float
    else cost_per_liter = ((total_material_cost + energy_cost) / net_output)%float.

(** C3 as the specification states it: a cached identifier is answered
    from the cache whatever the depth argument. *)
Definition C3_as_stated : Prop :=
  forall (self : GastroCalculator) (recipe_id depth : Z) (v : float * details),
    recipe_cache self !! recipe_id = Some v ->
    calculate_recipe_cost recipe_id depth self = (Ok v, self).

(** C5 as the specification states it: two top-level resolutions of an
    identifier agree, and the calculator has looked the identifier up at
    most once in all. *)
Definition C5_as_stated : Prop :=
  forall db self recipe_id,
    reachable db self ->
    let first := calculate_recipe_cost recipe_id 0 self in
    let second := calculate_recipe_cost recipe_id 0 (snd first) in
    fst first = fst second /\
    (length (List.filter (Z.eqb recipe_id) (recipe_lookups (queries (snd second))))
     <= 1)%nat.

(** * Properties *)

(** ** The monad *)

Lemma bind_inv {A B} (m : M A) (k : A -> M B) self r self' :
  bind m k self = (r, self') ->
  (exists a self1, m self = (Ok a, self1) /\ k a self1 = (r, self')) \/
  (exists e, m self = (Raise e, self') /\ r = Raise e).
Proof.
  unfold bind. destruct (m self) as [[a|e] self1]; intros H.
  - left. eauto.
  - right. inversion H; subst. eauto.
Qed.

Lemma bind_ok {A B} (m : M A) (k : A -> M B) self a self1 :
  m self = (Ok a, self1) -> bind m k self = k a self1.
Proof. unfold bind. now intros ->. Qed.

Lemma bind_raise {A B} (m : M A) (k : A -> M B) self e self1 :
  m self = (Raise e, self1) -> bind m k self = (Raise e, self1).
Proof. unfold bind. now intros ->. Qed.

Lemma calculate_recipe_cost_fuel_eq fuel :
  calculate_recipe_cost_fuel fuel =
  calculate_recipe_cost_body
    match fuel with
    | O => fun _ _ => raise FuelExhausted
    | S fuel' => calculate_recipe_cost_fuel fuel'
    end.
Proof. destruct fuel; reflexivity. Qed.

(** ** What a call leaves of the calculator *)

#[local] Instance extends_refl : Reflexive extends.
Proof. intros self. repeat split; [done|]. now exists []. Qed.

#[local] Instance extends_trans : Transitive extends.
Proof.
  intros s1 s2 s3 (Hc1 & Hm1 & q1 & Hq1) (Hc2 & Hm2 & q2 & Hq2).
  repeat split.
  - congruence.
  - etrans; eassumption.
  - exists (q2 ++ q1). rewrite Hq2, Hq1. now rewrite app_assoc.
Qed.

Lemma extending_ret {A} (a : A) : extending (ret a).
Proof. intros self r self' [= <- <-]. reflexivity. Qed.

Lemma extending_raise {A} e : extending (@raise A e).
Proof. intros self r self' [= <- <-]. reflexivity. Qed.

Lemma extending_lift {A} (x : result A) : extending (lift x).
Proof. intros self r self' [= <- <-]. reflexivity. Qed.

Lemma extending_bind {A B} (m : M A) (k : A -> M B) :
  extending m -> (forall a, extending (k a)) -> extending (bind m k).
Proof.
  intros Hm Hk self r self' H.
  apply bind_inv in H as [(a & self1 & H1 & H2)|(e & H1 & _)].
  - etrans; [eapply Hm|eapply Hk]; eassumption.
  - eapply Hm; eassumption.
Qed.

Lemma extending_run_query {A} q (read : database -> A) : extending (run_query q read).
Proof.
  intros self r self' [= <- <-]. repeat split; [done|]. now exists [q].
Qed.

Lemma extending_fetchone_by_id {R} q (table : database -> gmap Z R) id :
  extending (fetchone_by_id q table id).
Proof.
  intros self r self' H. unfold fetchone_by_id in H.
  destruct (table (conn self) !! id); [|destruct (sqlite_integer id)];
    injection H as <- <-; try reflexivity;
    (repeat split; [done|]; now exists [q]).
Qed.

Lemma extending_cache_get id : extending (cache_get id).
Proof. intros self r self' [= <- <-]. reflexivity. Qed.

Lemma extending_subscript {R} (row : option R) : extending (subscript row).
Proof. destruct row; [apply extending_ret|apply extending_raise]. Qed.

Lemma extending_for_each {A B} (body : B -> A -> M B) l :
  (forall b x, extending (body b x)) -> forall b, extending (for_each body l b).
Proof.
  intros Hbody. induction l as [|x l IH]; intros b; cbn [for_each].
  - apply extending_ret.
  - apply extending_bind; auto.
Qed.

Lemma extending_item_step self_rec depth a item :
  (forall id d, extending (self_rec id d)) -> extending (item_step self_rec depth a item).
Proof.
  intros Hrec. unfold item_step.
  destruct (Py.truthy (it_ingredient_id item)).
  - apply extending_bind; [apply extending_run_query|intros ing].
    apply extending_bind; [apply extending_subscript|intros ?; apply extending_ret].
  - destruct (Py.truthy (it_sub_recipe_id item)); [|apply extending_ret].
    apply extending_bind; [apply Hrec|intros [? ?]; apply extending_ret].
Qed.

(** The one write of the method: it happens only when the identifier
    was not cached when the call started, so no entry is ever replaced. *)
Lemma extending_body self_rec recipe_id depth :
  (forall id d, extending (self_rec id d)) ->
  extending (calculate_recipe_cost_body self_rec recipe_id depth).
Proof.
  intros Hrec self r self' H. unfold calculate_recipe_cost_body in H.
  destruct (3 <? depth); [eapply extending_raise; eassumption|].
  unfold bind at 1, cache_get at 1 in H.
  destruct (recipe_cache self !! recipe_id) as [v|] eqn:Hc;
    [eapply extending_ret; eassumption|].
  apply bind_inv in H as [(rc & s1 & H1 & H)|(e & H1 & _)];
    [|eapply extending_fetchone_by_id; eassumption].
  apply extending_fetchone_by_id in H1.
  destruct rc as [rc|]; [|etrans; [eassumption|eapply extending_raise; eassumption]].
  apply bind_inv in H as [(items & s2 & H2 & H)|(e & H2 & _)];
    [|etrans; [eassumption|eapply extending_run_query; eassumption]].
  apply extending_run_query in H2.
  assert (H12 : extends self s2) by (etrans; eassumption). clear H1 H2 s1.
  apply bind_inv in H as [(a & s3 & H3 & H)|(e & H3 & _)];
    [|etrans; [eassumption|eapply extending_for_each; [|eassumption]];
      intros; now apply extending_item_step].
  eapply extending_for_each in H3; [|intros; now apply extending_item_step].
  assert (H13 : extends self s3) by (etrans; eassumption). clear H12 H3 s2.
  apply bind_inv in H as [(cpl & s4 & H4 & H)|(e & H4 & _)];
    [|etrans; [eassumption|eapply extending_lift; eassumption]].
  apply extending_lift in H4.
  assert (H14 : extends self s4) by (etrans; eassumption). clear H13 H4 s3.
  unfold bind, cache_set, ret in H. injection H as <- <-.
  destruct H14 as (Hconn & Hsub & qs & Hqs). repeat split; cbn.
  - done.
  - now apply insert_subseteq_r.
  - eauto.
Qed.

Lemma extending_calculate_recipe_cost_fuel fuel recipe_id depth :
  extending (calculate_recipe_cost_fuel fuel recipe_id depth).
Proof.
  revert recipe_id depth. induction fuel as [|fuel IH]; intros recipe_id depth;
    rewrite calculate_recipe_cost_fuel_eq; apply extending_body; auto.
  intros; apply extending_raise.
Qed.

Lemma extending_calculate_recipe_cost recipe_id depth :
  extending (calculate_recipe_cost recipe_id depth).
Proof. apply extending_calculate_recipe_cost_fuel. Qed.

Lemma extending_calculate_product product_id :
  extending (calculate_product product_id).
Proof.
  unfold calculate_product.
  apply extending_bind; [apply extending_fetchone_by_id|intros [p|]];
    [|apply extending_raise].
  apply extending_bind; [apply extending_calculate_recipe_cost|intros [cpl d]].
  apply extending_bind; [apply extending_run_query|intros pk].
  apply extending_bind; [apply extending_subscript|intros pk'].
  apply extending_bind; [apply extending_lift|intros t].
  apply extending_bind; [apply extending_lift|intros ratio].
  apply extending_ret.
Qed.

(** C9.  Neither method modifies the backing store: whatever the
    arguments and whether the call returns or raises, the connection
    after the call is the connection before it.  Of the calculator only
    the recipe cache changes (entries are added, none is replaced or
    removed), besides the trace of executed statements growing. *)
Theorem C9_store_is_never_modified :
  forall (self : GastroCalculator),
    (forall recipe_id depth,
        let self' := snd (calculate_recipe_cost recipe_id depth self) in
        conn self' = conn self /\
        recipe_cache self ⊆ recipe_cache self' /\
        exists qs, queries self' = qs ++ queries self) /\
    (forall product_id,
        let self' := snd (calculate_product product_id self) in
        conn self' = conn self /\
        recipe_cache self ⊆ recipe_cache self' /\
        exists qs, queries self' = qs ++ queries self).
Proof.
  intros self. split.
  - intros recipe_id depth self'.
    apply (extending_calculate_recipe_cost recipe_id depth self
             (fst (calculate_recipe_cost recipe_id depth self))).
    apply surjective_pairing.
  - intros product_id self'.
    apply (extending_calculate_product product_id self
             (fst (calculate_product product_id self))).
    apply surjective_pairing.
Qed.

(** ** The method, one call at a time *)

Lemma calculate_recipe_cost_body_eq self_rec recipe_id depth self :
  calculate_recipe_cost_body self_rec recipe_id depth self =
  if 3 <? depth then (Raise (RecursionError recipe_id), self)
  else
    match recipe_cache self !! recipe_id with
    | Some v => (Ok v, self)
    | None =>
        let s1 := executed (SelectRecipe recipe_id) self in
        match recipes (conn self) !! recipe_id with
        | None =>
            if sqlite_integer recipe_id then (Raise (ValueError_recipe recipe_id), s1)
            else (Raise OverflowError_bind, self)
        | Some recipe =>
            match for_each (item_step self_rec depth) (items_of (conn self) recipe_id)
                    loop_init (executed (SelectRecipeItems recipe_id) s1) with
            | (Raise e, s3) => (Raise e, s3)
            | (Ok a, s3) =>
                match calc_cost_per_liter (total_material_cost a)
                        (rc_energy_cost_chf recipe)
                        (rc_batch_size_l recipe) (rc_yield_pct recipe) with
                | Raise e => (Raise e, s3)
                | Ok cpl =>
                    (Ok (cpl, make_details recipe a cpl),
                     cached recipe_id (cpl, make_details recipe a cpl) s3)
                end
            end
        end
    end.
Proof.
  unfold calculate_recipe_cost_body. destruct (3 <? depth); [reflexivity|].
  unfold bind at 1, cache_get at 1.
  destruct (recipe_cache self !! recipe_id); [reflexivity|].
  unfold bind at 1, select_recipe at 1, fetchone_by_id at 1. cbn [conn executed].
  destruct (recipes (conn self) !! recipe_id) as [recipe|];
    [|destruct (sqlite_integer recipe_id); reflexivity].
  unfold bind at 1, select_recipe_items at 1, run_query at 1. cbn [conn executed].
  unfold bind at 1. destruct (for_each _ _ _ _) as [[a|e] s3]; [|reflexivity].
  unfold bind at 1, lift at 1.
  destruct (calc_cost_per_liter _ _ _ _); reflexivity.
Qed.

Lemma item_step_eq self_rec depth a item self :
  item_step self_rec depth a item self =
  match Py.truthy (it_ingredient_id item) with
  | Some id =>
      match ingredients (conn self) !! id with
      | Some ing => (Ok (add_ingredient a (it_amount item) ing),
                     executed (SelectIngredient id) self)
      | None => (Raise TypeError_NoneType, executed (SelectIngredient id) self)
      end
  | None =>
      match Py.truthy (it_sub_recipe_id item) with
      | Some id =>
          match self_rec id (depth + 1) self with
          | (Ok (cpl, d), self') =>
              (Ok (add_sub_recipe a (it_amount item) id cpl d), self')
          | (Raise e, self') => (Raise e, self')
          end
      | None => (Ok a, self)
      end
  end.
Proof.
  unfold item_step. destruct (Py.truthy (it_ingredient_id item)) as [id|].
  - unfold bind at 1, select_ingredient at 1, run_query at 1.
    destruct (ingredients (conn self) !! id); reflexivity.
  - destruct (Py.truthy (it_sub_recipe_id item)) as [id|]; [|reflexivity].
    unfold bind. destruct (self_rec id (depth + 1) self) as [[[cpl d]|e] self'];
      reflexivity.
Qed.

Lemma for_each_cons {A B} (body : B -> A -> M B) x l b self :
  for_each body (x :: l) b self =
  match body b x self with
  | (Ok b', self') => for_each body l b' self'
  | (Raise e, self') => (Raise e, self')
  end.
Proof. reflexivity. Qed.

(** The depth test: it precedes the cache lookup. *)
Lemma depth_exceeded recipe_id depth self :
  3 < depth ->
  calculate_recipe_cost recipe_id depth self = (Raise (RecursionError recipe_id), self).
Proof.
  intros Hd. unfold calculate_recipe_cost.
  rewrite calculate_recipe_cost_fuel_eq, calculate_recipe_cost_body_eq.
  now apply Z.ltb_lt in Hd as ->.
Qed.

Lemma cache_hit fuel recipe_id depth self v :
  depth <= 3 -> recipe_cache self !! recipe_id = Some v ->
  calculate_recipe_cost_fuel fuel recipe_id depth self = (Ok v, self).
Proof.
  intros Hd Hc. rewrite calculate_recipe_cost_fuel_eq, calculate_recipe_cost_body_eq.
  apply Z.ltb_ge in Hd as ->. now rewrite Hc.
Qed.

(** A call that returns has its result in the cache afterwards. *)
Lemma returned_is_cached fuel recipe_id depth self v self' :
  calculate_recipe_cost_fuel fuel recipe_id depth self = (Ok v, self') ->
  recipe_cache self' !! recipe_id = Some v.
Proof.
  rewrite calculate_recipe_cost_fuel_eq, calculate_recipe_cost_body_eq.
  destruct (3 <? depth); [discriminate|].
  destruct (recipe_cache self !! recipe_id) as [w|] eqn:Hc; [now intros [= <- <-]|].
  cbn zeta. destruct (recipes (conn self) !! recipe_id);
    [|destruct (sqlite_integer _); discriminate].
  destruct (for_each _ _ _ _) as [[a|e] s3]; [|discriminate].
  destruct (calc_cost_per_liter _ _ _ _); [|discriminate].
  intros [= <- <-]. cbn. apply lookup_insert_eq.
Qed.

Lemma calc_cost_per_liter_raises ic ec b y e :
  calc_cost_per_liter ic ec b y = Raise e -> e = ZeroDivisionError.
Proof.
  unfold calc_cost_per_liter, Py.truediv.
  destruct (_ || _); [discriminate|]. destruct (PrimFloat.eqb _ _); congruence.
Qed.

(** ** The fuel is enough *)

Lemma for_each_ext {A B} (f g : B -> A -> M B) l :
  (forall b x self, f b x self = g b x self) ->
  forall b self, for_each f l b self = for_each g l b self.
Proof.
  intros Hfg. induction l as [|x l IH]; intros b self; [reflexivity|].
  rewrite !for_each_cons, Hfg. destruct (g b x self) as [[b'|e] s1]; auto.
Qed.

(** The body calls its sub-recipes at [depth + 1] only. *)
Lemma calculate_recipe_cost_body_ext rec1 rec2 recipe_id depth self :
  (forall id s, rec1 id (depth + 1) s = rec2 id (depth + 1) s) ->
  calculate_recipe_cost_body rec1 recipe_id depth self
  = calculate_recipe_cost_body rec2 recipe_id depth self.
Proof.
  intros Hrec. rewrite !calculate_recipe_cost_body_eq. cbn zeta.
  rewrite (for_each_ext (item_step rec1 depth) (item_step rec2 depth));
    [reflexivity|].
  intros b x s. rewrite !item_step_eq.
  destruct (Py.truthy (it_ingredient_id x)); [reflexivity|].
  destruct (Py.truthy (it_sub_recipe_id x)); [|reflexivity]. now rewrite Hrec.
Qed.

(** The equation of the method: [calculate_recipe_cost] is its body with
    itself as the method called on the sub-recipes. *)
Lemma calculate_recipe_cost_unfold recipe_id depth self :
  calculate_recipe_cost recipe_id depth self
  = calculate_recipe_cost_body calculate_recipe_cost recipe_id depth self.
Proof.
  unfold calculate_recipe_cost at 1. rewrite calculate_recipe_cost_fuel_eq.
  destruct (Z.ltb_spec 3 depth) as [Hd|Hd].
  - rewrite !calculate_recipe_cost_body_eq. apply Z.ltb_lt in Hd. now rewrite Hd.
  - apply calculate_recipe_cost_body_ext. intros id s. unfold calculate_recipe_cost.
    replace (Z.to_nat (4 - depth)) with (S (Z.to_nat (4 - (depth + 1)))) by lia.
    reflexivity.
Qed.

Lemma for_each_never {A B} (body : B -> A -> M B) (bad : exn) l :
  (forall b x self, fst (body b x self) <> Raise bad) ->
  forall b self, fst (for_each body l b self) <> Raise bad.
Proof.
  intros Hbody. induction l as [|x l IH]; intros b self; [discriminate|].
  rewrite for_each_cons. specialize (Hbody b x self).
  destruct (body b x self) as [[b'|e] s1]; [apply IH|exact Hbody].
Qed.

(** [calculate_recipe_cost] always ends with a value or a Python
    exception: the fuel it starts with is never exhausted. *)
Lemma fuel_never_exhausted recipe_id depth self :
  fst (calculate_recipe_cost recipe_id depth self) <> Raise FuelExhausted.
Proof.
  remember (Z.to_nat (4 - depth)) as n eqn:Hn.
  revert recipe_id depth self Hn.
  induction n as [|n IH]; intros recipe_id depth self Hn;
    rewrite calculate_recipe_cost_unfold, calculate_recipe_cost_body_eq.
  - assert ((3 <? depth) = true) as -> by (apply Z.ltb_lt; lia). discriminate.
  - destruct (3 <? depth) eqn:Hd; [discriminate|]. apply Z.ltb_ge in Hd.
    destruct (recipe_cache self !! recipe_id); [discriminate|]. cbn zeta.
    destruct (recipes (conn self) !! recipe_id) as [recipe|];
      [|destruct (sqlite_integer _); discriminate].
    match goal with |- context [for_each ?f ?l ?b ?s] =>
      pose proof (for_each_never f FuelExhausted l) as Hloop;
      specialize (fun H => Hloop H b s);
      destruct (for_each f l b s) as [[a|e] s3]
    end.
    + destruct (calc_cost_per_liter _ _ _ _) eqn:Hc; [discriminate|].
      apply calc_cost_per_liter_raises in Hc as ->. discriminate.
    + cbn [fst] in Hloop |- *. intros [= ->]. eapply Hloop; [|reflexivity].
      intros b x s. rewrite item_step_eq.
      destruct (Py.truthy (it_ingredient_id x)) as [iid|];
        [destruct (ingredients (conn s) !! iid); discriminate|].
      destruct (Py.truthy (it_sub_recipe_id x)) as [sid|]; [|discriminate].
      assert (Hfuel : n = Z.to_nat (4 - (depth + 1))) by lia.
      specialize (IH sid (depth + 1) s Hfuel).
      destruct (calculate_recipe_cost sid (depth + 1) s) as [[[cpl d]|e'] s1];
        [discriminate|].
      cbn [fst] in IH |- *. congruence.
Qed.

(** ** The depth cap *)

Lemma for_each_raise_inv self_rec depth items :
  (forall id d, extending (self_rec id d)) ->
  forall a self e self',
    for_each (item_step self_rec depth) items a self = (Raise e, self') ->
    exists item a_k s_k,
      In item items /\ extends self s_k /\
      item_step self_rec depth a_k item s_k = (Raise e, self').
Proof.
  intros Hrec. induction items as [|x items IH]; intros a self e self' H.
  - discriminate.
  - rewrite for_each_cons in H.
    destruct (item_step self_rec depth a x self) as [[b|e0] s1] eqn:Hx.
    + apply IH in H as (item & a_k & s_k & Hin & Hext & Hk).
      exists item, a_k, s_k. split; [now right|split; [|exact Hk]].
      etrans; [|exact Hext].
      eapply extending_item_step; eassumption.
    + injection H as <- <-. exists x, a, self.
      split; [now left|split; [reflexivity|exact Hx]].
Qed.

(** A [RecursionError] comes from the depth test of the call it names:
    either this call (and then [depth > 3]), or the call nested
    [4 - depth] sub-recipe references below it, which runs at depth 4. *)
Lemma recursion_error_origin fuel :
  forall recipe_id depth self r self',
    calculate_recipe_cost_fuel fuel recipe_id depth self
      = (Raise (RecursionError r), self') ->
    (3 < depth /\ r = recipe_id) \/
    (depth <= 3 /\ hops (conn self) (Z.to_nat (4 - depth)) recipe_id r).
Proof.
  induction fuel as [|fuel IH]; intros recipe_id depth self r self';
    rewrite calculate_recipe_cost_fuel_eq, calculate_recipe_cost_body_eq;
    (destruct (3 <? depth) eqn:Hd;
     [intros [= -> _]; left; split; [now apply Z.ltb_lt|reflexivity]|]);
    apply Z.ltb_ge in Hd;
    (destruct (recipe_cache self !! recipe_id); [discriminate|]); cbn zeta;
    (destruct (recipes (conn self) !! recipe_id) as [recipe|];
      [|destruct (sqlite_integer _); discriminate]);
    (destruct (for_each _ _ _ _) as [[a|e] s3] eqn:Hloop;
     [destruct (calc_cost_per_liter _ _ _ _) eqn:Hc; [discriminate|];
      apply calc_cost_per_liter_raises in Hc; congruence|]);
    intros [= -> ->];
    apply for_each_raise_inv in Hloop as (item & a_k & s_k & Hin & Hext & Hk);
    try (intros; apply extending_raise);
    try (intros; apply extending_calculate_recipe_cost_fuel);
    rewrite item_step_eq in Hk;
    (destruct (Py.truthy (it_ingredient_id item)) as [iid|] eqn:Hi;
     [destruct (ingredients (conn s_k) !! iid); discriminate|]);
    (destruct (Py.truthy (it_sub_recipe_id item)) as [sid|] eqn:Hs;
     [|discriminate]).
  - discriminate.
  - destruct (calculate_recipe_cost_fuel fuel sid (depth + 1) s_k)
      as [[[cpl d]|e] s'] eqn:Hsub; [discriminate|].
    injection Hk as -> ->.
    assert (Hconn : conn s_k = conn self) by (destruct Hext as [Hext _]; exact Hext).
    assert (Hedge : sub_recipe_of (conn self) recipe_id sid)
      by (exists item; auto).
    right. split; [exact Hd|].
    apply IH in Hsub as [[Hd' ->]|[Hd' Hh]].
    + replace (4 - depth) with 1 by lia.
      change (Z.to_nat 1) with 1%nat. econstructor; [exact Hedge|constructor].
    + replace (Z.to_nat (4 - depth)) with (S (Z.to_nat (4 - (depth + 1)))) by lia.
      econstructor; [exact Hedge|]. now rewrite <- Hconn.
Qed.

(** ** Cache hits *)

(** C3 fails as stated: with recipe 1 of the test data cached, a call at
    depth 4 raises instead of returning the cached tuple. *)
Lemma C3_counterexample : ~ C3_as_stated.
Proof.
  intros H.
  destruct (recipe_cache Examples.warm !! 1) as [v|] eqn:Hc.
  - specialize (H Examples.warm 1 4 v Hc).
    rewrite depth_exceeded in H by lia. discriminate.
  - vm_compute in Hc. discriminate.
Qed.

(** C3, amended.  For an identifier present in the cache, a call with
    [depth <= 3] returns the cached tuple and leaves the calculator as it
    was: no statement is executed on the store.  The depth test comes
    before the cache lookup, so a call with [depth > 3] raises the
    [RecursionError] for a cached identifier too. *)
Theorem C3_cached_result_below_depth_cap :
  forall (self : GastroCalculator) (recipe_id depth : Z) (v : float * details),
    recipe_cache self !! recipe_id = Some v ->
    (depth <= 3 -> calculate_recipe_cost recipe_id depth self = (Ok v, self)) /\
    (3 < depth ->
     calculate_recipe_cost recipe_id depth self
       = (Raise (RecursionError recipe_id), self)).
Proof.
  intros self recipe_id depth v Hc. split; intros Hd.
  - now apply cache_hit.
  - now apply depth_exceeded.
Qed.

Lemma C3_cached_result_below_depth_cap_witness :
  exists v,
    recipe_cache Examples.warm !! 1 = Some v /\
    calculate_recipe_cost 1 3 Examples.warm = (Ok v, Examples.warm) /\
    calculate_recipe_cost 1 4 Examples.warm
      = (Raise (RecursionError 1), Examples.warm).
Proof.
  destruct (recipe_cache Examples.warm !! 1) as [v|] eqn:Hc;
    [|vm_compute in Hc; discriminate].
  exists v. split; [reflexivity|].
  destruct (C3_cached_result_below_depth_cap Examples.warm 1 3 v Hc) as [H3 _].
  destruct (C3_cached_result_below_depth_cap Examples.warm 1 4 v Hc) as [_ H4].
  split; [apply H3|apply H4]; lia.
Defined.

(** ** The cost of a recipe is a function of the store *)

Lemma cost_of_items_cost_deterministic db :
  (forall recipe_id v, cost_of db recipe_id v ->
     forall v', cost_of db recipe_id v' -> v = v') /\
  (forall items a a1, items_cost db items a a1 ->
     forall a2, items_cost db items a a2 -> a1 = a2).
Proof.
  apply cost_of_items_cost_ind.
  - intros recipe_id recipe a cpl Hr _ IH Hc v' H'.
    inversion H' as [? recipe' a2 cpl' Hr' Hi' Hc']; subst.
    assert (recipe' = recipe) as -> by congruence.
    apply IH in Hi' as <-. congruence.
  - intros a a2 H. now inversion H.
  - intros item items a a' id ing Hi Hg _ IH a2 H.
    inversion H; subst; try congruence.
    apply IH. replace ing with ing0 by congruence.
    replace id with id0 in * by congruence. assumption.
  - intros item items a a' id cpl d Hi Hs _ IHc _ IH a2 H.
    inversion H as [| | ? ? ? ? id' cpl' d' ? Hs' Hc' Hi' |]; subst; try congruence.
    assert (id' = id) as -> by congruence.
    apply IHc in Hc'. injection Hc' as <- <-. now apply IH.
  - intros item items a a' Hi Hs _ IH a2 H.
    inversion H; subst; try congruence. now apply IH.
Qed.

Lemma cost_of_deterministic db recipe_id v v' :
  cost_of db recipe_id v -> cost_of db recipe_id v' -> v = v'.
Proof. intros H. now apply cost_of_items_cost_deterministic. Qed.

(** ** Memoization is sound *)

Lemma cache_sound_executed q self : cache_sound self -> cache_sound (executed q self).
Proof. intros H. exact H. Qed.

Lemma sound_loop self_rec depth items :
  (forall id d, extending (self_rec id d)) ->
  (forall id d, sound_call id (self_rec id d)) ->
  forall a self r self',
    cache_sound self ->
    for_each (item_step self_rec depth) items a self = (r, self') ->
    cache_sound self' /\ forall a', r = Ok a' -> items_cost (conn self) items a a'.
Proof.
  intros Hext Hrec. induction items as [|item items IH]; intros a self r self' Hs H.
  - injection H as <- <-. split; [exact Hs|]. intros a' [= <-]. constructor.
  - rewrite for_each_cons, item_step_eq in H.
    destruct (Py.truthy (it_ingredient_id item)) as [iid|] eqn:Hi.
    + destruct (ingredients (conn self) !! iid) as [ing|] eqn:Hg.
      * apply IH in H as [Hs' Hok]; [|now apply cache_sound_executed].
        split; [exact Hs'|]. intros a' ->. eapply items_cost_ingredient; eauto.
      * injection H as <- <-. split; [now apply cache_sound_executed|discriminate].
    + destruct (Py.truthy (it_sub_recipe_id item)) as [sid|] eqn:Hsid.
      * destruct (self_rec sid (depth + 1) self) as [[[cpl d]|e] s1] eqn:Hsub.
        -- destruct (Hrec _ _ _ _ _ Hs Hsub) as [Hs1 Hcost].
           apply Hext in Hsub as [Hconn _].
           apply IH in H as [Hs' Hok]; [|exact Hs1].
           split; [exact Hs'|]. intros a' ->. rewrite Hconn in Hok.
           eapply items_cost_sub_recipe; eauto.
        -- injection H as <- <-. split; [|discriminate].
           now destruct (Hrec _ _ _ _ _ Hs Hsub).
      * apply IH in H as [Hs' Hok]; [|exact Hs].
        split; [exact Hs'|]. intros a' ->. eapply items_cost_skip; eauto.
Qed.

Lemma sound_body self_rec recipe_id depth :
  (forall id d, extending (self_rec id d)) ->
  (forall id d, sound_call id (self_rec id d)) ->
  sound_call recipe_id (calculate_recipe_cost_body self_rec recipe_id depth).
Proof.
  intros Hext Hrec self r self' Hs. rewrite calculate_recipe_cost_body_eq.
  destruct (3 <? depth); [intros [= <- <-]; split; [exact Hs|discriminate]|].
  destruct (recipe_cache self !! recipe_id) as [w|] eqn:Hc.
  { intros [= <- <-]. split; [exact Hs|]. intros v [= <-]. now apply Hs. }
  cbn zeta. destruct (recipes (conn self) !! recipe_id) as [recipe|] eqn:Hr;
    [|destruct (sqlite_integer recipe_id); intros [= <- <-];
      (split; [first [exact Hs|now apply cache_sound_executed]|discriminate])].
  destruct (for_each _ _ _ _) as [[a|e] s3] eqn:Hloop.
  - pose proof Hloop as Hloop'.
    apply (sound_loop _ _ _ Hext Hrec) in Hloop as [Hs3 Hitems];
      [|now do 2 apply cache_sound_executed].
    apply (extending_for_each _ _ (fun b x => extending_item_step _ _ b x Hext))
      in Hloop' as [Hconn _]. cbn [conn executed] in Hconn, Hitems.
    destruct (calc_cost_per_liter _ _ _ _) as [cpl|e] eqn:Hcpl;
      intros [= <- <-]; [|split; [exact Hs3|discriminate]].
    assert (Hcost : cost_of (conn self) recipe_id (cpl, make_details recipe a cpl))
      by (econstructor; eauto).
    split; [|now intros v [= <-]].
    intros id v. unfold cached; cbn [recipe_cache conn]. rewrite Hconn.
    destruct (decide (recipe_id = id)) as [<-|Hne].
    + rewrite lookup_insert_eq. now intros [= <-].
    + rewrite lookup_insert_ne by exact Hne. intros Hv.
      rewrite <- Hconn. now apply Hs3.
  - intros [= <- <-].
    apply (sound_loop _ _ _ Hext Hrec) in Hloop as [Hs3 _];
      [|now do 2 apply cache_sound_executed].
    split; [exact Hs3|discriminate].
Qed.

Lemma sound_calculate_recipe_cost_fuel fuel recipe_id depth :
  sound_call recipe_id (calculate_recipe_cost_fuel fuel recipe_id depth).
Proof.
  revert recipe_id depth. induction fuel as [|fuel IH]; intros recipe_id depth;
    rewrite calculate_recipe_cost_fuel_eq; apply sound_body; auto;
    try (intros; apply extending_calculate_recipe_cost_fuel);
    try (intros; apply extending_raise).
  intros id d self r self' Hs [= <- <-]. split; [exact Hs|discriminate].
Qed.

(** ** The cache is closed under sub-recipes *)

Lemma extends_is_Some self self' id :
  extends self self' -> is_Some (recipe_cache self !! id) ->
  is_Some (recipe_cache self' !! id).
Proof. intros (_ & Hsub & _) [v Hv]. exists v. eapply lookup_weaken; eassumption. Qed.

Lemma closing_loop self_rec depth items :
  (forall id d, extending (self_rec id d)) ->
  (forall id d, closing_call id (self_rec id d)) ->
  forall a self r self',
    cache_closed self ->
    for_each (item_step self_rec depth) items a self = (r, self') ->
    cache_closed self' /\
    (is_ok r = true ->
     forall item id, In item items ->
       Py.truthy (it_ingredient_id item) = None ->
       Py.truthy (it_sub_recipe_id item) = Some id ->
       is_Some (recipe_cache self' !! id)).
Proof.
  intros Hext Hrec. induction items as [|item items IH]; intros a self r self' Hs H.
  - injection H as <- <-. split; [exact Hs|]. intros _ ? ? [].
  - rewrite for_each_cons in H.
    destruct (item_step self_rec depth a item self) as [[b|e] s1] eqn:Hstep.
    + pose proof (extending_for_each _ items
        (fun b x => extending_item_step _ _ b x Hext) _ _ _ _ H) as Hgrow.
      rewrite item_step_eq in Hstep.
      destruct (Py.truthy (it_ingredient_id item)) as [iid|] eqn:Hi.
      * assert (s1 = executed (SelectIngredient iid) self) as ->
          by (destruct (ingredients (conn self) !! iid); congruence).
        apply IH in H as [Hs' Hin]; [|exact Hs]. split; [exact Hs'|].
        intros Hok x id [<-|Hx] Hxi Hxs; [congruence|eauto].
      * destruct (Py.truthy (it_sub_recipe_id item)) as [sid|] eqn:Hsid.
        -- destruct (self_rec sid (depth + 1) self) as [[[cpl d]|e] s1'] eqn:Hsub;
             [|discriminate].
           injection Hstep as <- <-.
           destruct (Hrec _ _ _ _ _ Hs Hsub) as [Hs1 Hcached].
           apply IH in H as [Hs' Hin]; [|exact Hs1]. split; [exact Hs'|].
           intros Hok x id [<-|Hx] Hxi Hxs; [|eauto].
           assert (id = sid) as -> by congruence.
           eapply extends_is_Some; [exact Hgrow|]. rewrite (Hcached _ eq_refl). eauto.
        -- injection Hstep as <- <-.
           apply IH in H as [Hs' Hin]; [|exact Hs]. split; [exact Hs'|].
           intros Hok x id [<-|Hx] Hxi Hxs; [congruence|eauto].
    + injection H as <- <-. split; [|discriminate].
      rewrite item_step_eq in Hstep.
      destruct (Py.truthy (it_ingredient_id item)) as [iid|].
      * assert (s1 = executed (SelectIngredient iid) self) as ->
          by (destruct (ingredients (conn self) !! iid); congruence).
        exact Hs.
      * destruct (Py.truthy (it_sub_recipe_id item)) as [sid|]; [|discriminate].
        destruct (self_rec sid (depth + 1) self) as [[[cpl d]|e'] s1'] eqn:Hsub;
          [discriminate|].
        injection Hstep as <- <-. now destruct (Hrec _ _ _ _ _ Hs Hsub).
Qed.

Lemma closing_body self_rec recipe_id depth :
  (forall id d, extending (self_rec id d)) ->
  (forall id d, closing_call id (self_rec id d)) ->
  closing_call recipe_id (calculate_recipe_cost_body self_rec recipe_id depth).
Proof.
  intros Hext Hrec self r self' Hs. rewrite calculate_recipe_cost_body_eq.
  destruct (3 <? depth); [intros [= <- <-]; split; [exact Hs|discriminate]|].
  destruct (recipe_cache self !! recipe_id) as [w|] eqn:Hc.
  { intros [= <- <-]. split; [exact Hs|]. now intros v [= <-]. }
  cbn zeta. destruct (recipes (conn self) !! recipe_id) as [recipe|] eqn:Hr;
    [|destruct (sqlite_integer recipe_id); intros [= <- <-];
      (split; [exact Hs|discriminate])].
  destruct (for_each _ _ _ _) as [[a|e] s3] eqn:Hloop.
  - pose proof Hloop as Hloop'.
    apply (closing_loop _ _ _ Hext Hrec) in Hloop as [Hs3 Hitems]; [|exact Hs].
    apply (extending_for_each _ _ (fun b x => extending_item_step _ _ b x Hext))
      in Hloop' as [Hconn _]. cbn [conn executed] in Hconn.
    destruct (calc_cost_per_liter _ _ _ _) as [cpl|e] eqn:Hcpl;
      intros [= <- <-]; [|split; [exact Hs3|discriminate]].
    split; [|intros v [= <-]; apply lookup_insert_eq].
    intros parent child. unfold cached; cbn [recipe_cache conn].
    rewrite !lookup_insert_is_Some. intros [<-|[Hne Hp]] Hedge.
    + destruct Hedge as (item & Hin & Hi & Hsid). rewrite Hconn in Hin.
      destruct (decide (recipe_id = child)); [now left|right; split; [done|]].
      eapply Hitems; eauto.
    + destruct (decide (recipe_id = child)); [now left|right; split; [done|]].
      eapply Hs3; eauto.
  - intros [= <- <-].
    apply (closing_loop _ _ _ Hext Hrec) in Hloop as [Hs3 _]; [|exact Hs].
    split; [exact Hs3|discriminate].
Qed.

Lemma closing_calculate_recipe_cost_fuel fuel recipe_id depth :
  closing_call recipe_id (calculate_recipe_cost_fuel fuel recipe_id depth).
Proof.
  revert recipe_id depth. induction fuel as [|fuel IH]; intros recipe_id depth;
    rewrite calculate_recipe_cost_fuel_eq; apply closing_body; auto;
    try (intros; apply extending_calculate_recipe_cost_fuel);
    try (intros; apply extending_raise).
  intros id d self r self' Hs [= <- <-]. split; [exact Hs|discriminate].
Qed.

(** ** Invariants of every reachable calculator *)

Lemma keeping_bind {A B} (m : M A) (k : A -> M B) :
  keeping m -> (forall a, keeping (k a)) -> keeping (bind m k).
Proof.
  intros Hm Hk db self r self' Hinv H.
  apply bind_inv in H as [(a & self1 & H1 & H2)|(e & H1 & _)].
  - eapply Hk; [|exact H2]. eapply Hm; eassumption.
  - eapply Hm; eassumption.
Qed.

Lemma keeping_pure {A} (m : M A) :
  (forall self, snd (m self) = self) -> keeping m.
Proof.
  intros Hm db self r self' Hinv H.
  specialize (Hm self). rewrite H in Hm. cbn in Hm. now subst.
Qed.

Lemma keeping_run_query {A} q (read : database -> A) : keeping (run_query q read).
Proof. intros db self r self' Hinv [= <- <-]. exact Hinv. Qed.

Lemma keeping_fetchone_by_id {R} q (table : database -> gmap Z R) id :
  keeping (fetchone_by_id q table id).
Proof.
  intros db self r self' Hinv H. unfold fetchone_by_id in H.
  destruct (table (conn self) !! id); [|destruct (sqlite_integer id)];
    injection H as <- <-; exact Hinv.
Qed.

Lemma keeping_calculate_recipe_cost recipe_id depth :
  keeping (calculate_recipe_cost recipe_id depth).
Proof.
  intros db self r self' (Hconn & Hs & Hc) H. split; [|split].
  - apply extending_calculate_recipe_cost in H as [-> _]. exact Hconn.
  - eapply sound_calculate_recipe_cost_fuel; eassumption.
  - eapply closing_calculate_recipe_cost_fuel; eassumption.
Qed.

Lemma keeping_calculate_product product_id : keeping (calculate_product product_id).
Proof.
  unfold calculate_product.
  apply keeping_bind; [apply keeping_fetchone_by_id|intros [p|]];
    [|now apply keeping_pure].
  apply keeping_bind; [apply keeping_calculate_recipe_cost|intros [cpl d]].
  apply keeping_bind; [apply keeping_run_query|intros pk].
  apply keeping_bind; [destruct pk; now apply keeping_pure|intros pk'].
  apply keeping_bind; [now apply keeping_pure|intros t].
  apply keeping_bind; [now apply keeping_pure|intros ratio].
  now apply keeping_pure.
Qed.

Lemma reachable_invariant db self : reachable db self -> invariant db self.
Proof.
  induction 1 as [|self recipe_id depth _ IH|self product_id _ IH].
  - split; [reflexivity|]. split.
    + intros id v. cbn. now rewrite lookup_empty.
    + intros p c [v Hv]. cbn in Hv. now rewrite lookup_empty in Hv.
  - eapply keeping_calculate_recipe_cost; [exact IH|apply surjective_pairing].
  - eapply keeping_calculate_product; [exact IH|apply surjective_pairing].
Qed.

(** What a returned result is, on a reachable calculator. *)
Lemma returned_cost db self recipe_id depth v self' :
  reachable db self ->
  calculate_recipe_cost recipe_id depth self = (Ok v, self') ->
  invariant db self' /\ recipe_cache self' !! recipe_id = Some v /\
  cost_of db recipe_id v.
Proof.
  intros Hr H. apply reachable_invariant in Hr.
  pose proof (keeping_calculate_recipe_cost _ _ _ _ _ _ Hr H) as Hinv.
  pose proof (returned_is_cached _ _ _ _ _ _ H) as Hc.
  split; [exact Hinv|split; [exact Hc|]].
  destruct Hinv as (<- & Hs & _). now apply Hs.
Qed.

(** A top-level call for a cached identifier is answered from the cache. *)
Lemma standalone_cached self recipe_id v :
  recipe_cache self !! recipe_id = Some v ->
  calculate_recipe_cost recipe_id 0 self = (Ok v, self).
Proof. intros Hc. now apply cache_hit. Qed.

Lemma standalone_cost_cached self recipe_id cpl d :
  recipe_cache self !! recipe_id = Some (cpl, d) ->
  standalone_cost self recipe_id = cpl.
Proof.
  intros Hc. unfold standalone_cost. now rewrite (standalone_cached _ _ _ Hc).
Qed.

(** The material cost of a loop that ran to its end. *)
Lemma items_cost_material_cost db sub_cpl items a a' :
  items_cost db items a a' ->
  (forall item id cpl d,
      In item items ->
      Py.truthy (it_ingredient_id item) = None ->
      Py.truthy (it_sub_recipe_id item) = Some id ->
      cost_of db id (cpl, d) -> sub_cpl id = cpl) ->
  total_material_cost a' = material_cost db sub_cpl items (total_material_cost a).
Proof.
  induction 1 as [a|item items a a' id ing Hi Hg _ IH
                  |item items a a' id cpl d Hi Hs Hc _ IH
                  |item items a a' Hi Hs _ IH]; intros Hsub; cbn [material_cost].
  - reflexivity.
  - rewrite Hi, Hg. apply IH. intros; eapply Hsub; eauto. now right.
  - rewrite Hi, Hs. rewrite (Hsub item id cpl d); auto; [|now left].
    apply IH. intros; eapply Hsub; eauto. now right.
  - rewrite Hi, Hs. apply IH. intros; eapply Hsub; eauto. now right.
Qed.

(** On a reachable calculator holding [recipe_id], a top-level call for
    any of its sub-recipes returns that sub-recipe's cost. *)
Lemma standalone_cost_of_sub_recipe db self recipe_id item sub cpl d :
  invariant db self ->
  is_Some (recipe_cache self !! recipe_id) ->
  In item (items_of db recipe_id) ->
  Py.truthy (it_ingredient_id item) = None ->
  Py.truthy (it_sub_recipe_id item) = Some sub ->
  cost_of db sub (cpl, d) ->
  recipe_cache self !! sub = Some (cpl, d).
Proof.
  intros (<- & Hs & Hc) Hp Hin Hi Hsub Hcost.
  destruct (Hc recipe_id sub Hp) as [w Hw]; [exists item; auto|].
  rewrite Hw. f_equal. eapply cost_of_deterministic; [|exact Hcost]. now apply Hs.
Qed.

(** ** Cost per litre *)

Lemma binary_round_aux_sign_free mx ex lx :
  sign_free (binary_round_aux prec emax false mx ex lx).
Proof.
  unfold binary_round_aux.
  destruct (shr_fexp prec emax mx ex lx) as [mrs e'].
  destruct (shr_fexp prec emax _ e' loc_Exact) as [mrs' e''].
  destruct (shr_m mrs'); [exact I| |exact I].
  destruct (Z.leb _ _); exact I.
Qed.

(** Past the guard of [calc_cost_per_liter] the net output is a NaN, a
    zero or positive: if it is [<= 0], it is zero (by underflow). *)
Lemma net_output_not_positive (batch_size_l yield_pct : float) :
  (batch_size_l <=? 0)%float = false -> (yield_pct <=? 0)%float = false ->
  (batch_size_l * (yield_pct / 100) <=? 0)%float = true ->
  (batch_size_l * (yield_pct / 100) =? 0)%float = true.
Proof.
  rewrite !leb_spec, FloatAxioms.eqb_spec, mul_spec, div_spec.
  change (Prim2SF 0) with (S754_zero false).
  change (Prim2SF 100) with (S754_finite false 7036874417766400 (-46)).
  generalize (Prim2SF batch_size_l) (Prim2SF yield_pct). intros B Y HB HY.
  assert (HR : sign_free (SF64div Y (S754_finite false 7036874417766400 (-46)))).
  { destruct Y as [[|]|[|]| |[|] m e]; try discriminate; try exact I.
    unfold SF64div, SFdiv. destruct (SFdiv_core_binary _ _ _ _ _ _) as [[mz ez] lz].
    apply binary_round_aux_sign_free. }
  revert HR. generalize (SF64div Y (S754_finite false 7036874417766400 (-46))).
  intros R HR.
  assert (HP : sign_free (SF64mul B R)).
  { destruct B as [[|]|[|]| |[|] m e]; try discriminate;
      destruct R as [[|]|[|]| |[|] m' e']; try exact I; try contradiction.
    apply binary_round_aux_sign_free. }
  revert HP. generalize (SF64mul B R). intros P HP.
  destruct P as [[|]|[|]| |[|] m e]; try contradiction; try discriminate; reflexivity.
Qed.

Lemma zero_is_not (x : float) : PrimFloat.eqb x 0 = false -> 0%float <> x.
Proof. intros Hne <-. vm_compute in Hne. discriminate. Qed.

(** C1 fails as stated: for a batch size of -100 and a yield of -50 the
    net output is 50, positive, and the method returns 0 where the
    quotient is 0.3. *)
Lemma C1_counterexample : ~ C1_as_stated.
Proof.
  intros H.
  destruct (calculate_recipe_cost 1 0 (new_calculator Examples.negative_db))
    as [[[cpl d]|e] self'] eqn:E; [|vm_compute in E; discriminate].
  destruct (recipes Examples.negative_db !! 1) as [recipe|] eqn:Hr;
    [|vm_compute in Hr; discriminate].
  specialize (H _ _ _ _ _ _ _ _ (reachable_new _) E Hr).
  vm_compute in E. injection E as <- <- <-.
  vm_compute in Hr. injection Hr as <-.
  vm_compute in H. revert H. apply zero_is_not. reflexivity.
Qed.

(** C1, amended.  For every recipe whose resolution returns, the returned
    [cost_per_liter] is [0] when [batch_size_l <= 0] or [yield_pct <= 0]
    (not an error), hence whenever [net_output <= 0], and otherwise
    [net_output] is not zero and the result is
    [(total_material_cost + energy_cost) / net_output], where
    [net_output = batch_size_l * (yield_pct / 100)] and
    [total_material_cost] sums, in item order, [amount * price_per_unit]
    over the ingredient items and [amount * sub_cost_per_liter] over the
    sub-recipe items, [sub_cost_per_liter] being the cost per litre a
    top-level call for the sub-recipe returns on the same calculator. *)
Theorem C1_cost_per_liter :
  forall db self recipe_id depth cost_per_liter details self',
    reachable db self ->
    calculate_recipe_cost recipe_id depth self = (Ok (cost_per_liter, details), self') ->
    exists recipe,
      recipes db !! recipe_id = Some recipe /\
      let total_material_cost :=
        material_cost db (standalone_cost self') (items_of db recipe_id) 0 in
      let energy_cost := rc_energy_cost_chf recipe in
      let batch_size_l := rc_batch_size_l recipe in
      let yield_pct := rc_yield_pct recipe in
      let net_output := (batch_size_l * (yield_pct / 100))%float in
      d_total_material_cost details = total_material_cost /\
      d_energy_cost details = energy_cost /\
      d_net_output_l details = net_output /\
      d_cost_per_liter details = cost_per_liter /\
      ((net_output <=? 0)%float = true -> cost_per_liter = 0%float) /\
      if (batch_size_l <=? 0)%float || (yield_pct <=? 0)%float
      then cost_per_liter = 0%float
      else PrimFloat.eqb net_output 0 = false /\
           cost_per_liter = ((total_material_cost + energy_cost) / net_output)%float.
Proof.
  intros db self recipe_id depth cpl d self' Hreach H.
  destruct (returned_cost _ _ _ _ _ _ Hreach H) as (Hinv & Hc & Hcost).
  inversion Hcost as [? recipe a ? Hr Hitems Hcpl]; subst.
  exists recipe. split; [exact Hr|]. cbn zeta. cbn [make_details d_total_material_cost
    d_energy_cost d_net_output_l d_cost_per_liter].
  assert (Htmc : total_material_cost a
                 = material_cost db (standalone_cost self') (items_of db recipe_id) 0).
  { apply (items_cost_material_cost _ _ _ _ _ Hitems).
    intros item id c dd Hin Hi Hs Hsub. apply standalone_cost_cached with dd.
    eapply standalone_cost_of_sub_recipe; eauto. }
  rewrite <- Htmc. repeat (split; [reflexivity|]).
  unfold calc_cost_per_liter, Py.truediv in Hcpl.
  destruct (_ || _) eqn:Hguard; [split; congruence|].
  apply orb_false_elim in Hguard as [Hb Hy].
  destruct (PrimFloat.eqb _ 0) eqn:Hz; [discriminate|].
  split; [|split; congruence].
  intros Hneg. apply (net_output_not_positive _ _ Hb Hy) in Hneg. congruence.
Qed.

Lemma C1_cost_per_liter_witness :
  exists details self' recipe,
    calculate_recipe_cost 1 0 (new_calculator Seed.db)
      = (Ok (6.6316666666666659%float, details), self') /\
    recipes Seed.db !! 1 = Some recipe /\
    d_total_material_cost details = 389.89999999999998%float /\
    d_total_material_cost details
      = material_cost Seed.db (standalone_cost self') (items_of Seed.db 1) 0 /\
    6.6316666666666659%float
      = ((d_total_material_cost details + rc_energy_cost_chf recipe)
         / (rc_batch_size_l recipe * (rc_yield_pct recipe / 100)))%float.
Proof.
  destruct (calculate_recipe_cost 1 0 (new_calculator Seed.db))
    as [[[cpl d]|e] self'] eqn:E; [|vm_compute in E; discriminate].
  destruct (C1_cost_per_liter _ _ _ _ _ _ _ (reachable_new Seed.db) E)
    as (recipe & Hr & Htmc & _ & _ & _ & _ & Hcpl).
  exists d, self', recipe.
  assert (cpl = 6.6316666666666659%float) as ->
    by (vm_compute in E; now injection E as <- _ _).
  split; [reflexivity|]. split; [exact Hr|].
  split; [vm_compute in E; now injection E as <- _|].
  split; [exact Htmc|].
  rewrite Htmc. vm_compute in Hr. injection Hr as <-.
  cbn [rc_batch_size_l rc_yield_pct rc_energy_cost_chf] in *.
  change ((100 <=? 0)%float || (60 <=? 0)%float) with false in Hcpl.
  now destruct Hcpl.
Defined.

(** ** Compositionality *)

Lemma items_cost_lines_grow db items a a' :
  items_cost db items a a' ->
  exists l, sub_recipe_lines a' = sub_recipe_lines a ++ l.
Proof.
  induction 1 as [a|item items a a' id ing _ _ _ [l IH]
                  |item items a a' id cpl d _ _ _ _ [l IH]
                  |item items a a' _ _ _ IH].
  - exists []. now rewrite app_nil_r.
  - exists l. exact IH.
  - eexists. rewrite IH. cbn [add_sub_recipe sub_recipe_lines].
    now rewrite <- app_assoc.
  - exact IH.
Qed.

Lemma items_cost_sub_recipe_line db items a a' :
  items_cost db items a a' ->
  forall item sub,
    In item items ->
    Py.truthy (it_ingredient_id item) = None ->
    Py.truthy (it_sub_recipe_id item) = Some sub ->
    exists cpl d,
      cost_of db sub (cpl, d) /\
      In (sub_recipe_line_of item sub cpl d) (sub_recipe_lines a').
Proof.
  induction 1 as [a|item items a a' id ing Hi _ _ IH
                  |item items a a' id cpl d Hi Hs Hc Hrest IH
                  |item items a a' Hi Hs _ IH];
    intros x sub Hin Hxi Hxs.
  - destruct Hin.
  - destruct Hin as [<-|Hin]; [congruence|eauto].
  - destruct Hin as [<-|Hin]; [|eauto].
    assert (sub = id) as -> by congruence.
    exists cpl, d. split; [exact Hc|].
    destruct (items_cost_lines_grow _ _ _ _ Hrest) as [l ->].
    cbn [add_sub_recipe sub_recipe_lines].
    apply in_or_app. left. apply in_or_app. right. now left.
  - destruct Hin as [<-|Hin]; [congruence|eauto].
Qed.

(** C4.  When the resolution of a recipe returns, then for each of its
    sub-recipe items a top-level call for the sub-recipe on the same
    calculator returns (from the cache, leaving the calculator as it is)
    a cost per litre and details that any returning resolution of that
    sub-recipe on any calculator of the same store returns too; the
    parent's breakdown holds the line with that cost per litre and
    [cost = amount * cost_per_liter]; the parent's material cost is the
    sum of these costs and of [amount * price_per_unit] of its ingredient
    items; its total cost adds its energy cost, and its cost per litre is
    [calc_cost_per_liter] of the two. *)
Theorem C4_compositionality :
  forall db self parent depth cost_per_liter details self',
    reachable db self ->
    calculate_recipe_cost parent depth self = (Ok (cost_per_liter, details), self') ->
    (forall item sub,
        In item (items_of db parent) ->
        Py.truthy (it_ingredient_id item) = None ->
        Py.truthy (it_sub_recipe_id item) = Some sub ->
        exists sub_cost_per_liter sub_details,
          calculate_recipe_cost sub 0 self'
            = (Ok (sub_cost_per_liter, sub_details), self') /\
          (forall other depth' v other',
              reachable db other ->
              calculate_recipe_cost sub depth' other = (Ok v, other') ->
              v = (sub_cost_per_liter, sub_details)) /\
          In (sub_recipe_line_of item sub sub_cost_per_liter sub_details)
             (d_sub_recipes details)) /\
    exists recipe,
      recipes db !! parent = Some recipe /\
      d_total_material_cost details
        = material_cost db (standalone_cost self') (items_of db parent) 0 /\
      d_total_cost details
        = (d_total_material_cost details + rc_energy_cost_chf recipe)%float /\
      calc_cost_per_liter (d_total_material_cost details) (rc_energy_cost_chf recipe)
        (rc_batch_size_l recipe) (rc_yield_pct recipe) = Ok cost_per_liter.
Proof.
  intros db self parent depth cpl d self' Hreach H.
  destruct (returned_cost _ _ _ _ _ _ Hreach H) as (Hinv & Hc & Hcost).
  inversion Hcost as [? recipe a ? Hr Hitems Hcpl]; subst.
  cbn [make_details d_total_material_cost d_total_cost d_sub_recipes]. split.
  - intros item sub Hin Hi Hs.
    destruct (items_cost_sub_recipe_line _ _ _ _ Hitems _ _ Hin Hi Hs)
      as (scpl & sd & Hsub & Hline).
    exists scpl, sd.
    assert (Hsc : recipe_cache self' !! sub = Some (scpl, sd))
      by (eapply standalone_cost_of_sub_recipe; eauto).
    split; [now apply standalone_cached|]. split; [|exact Hline].
    intros other depth' v other' Hother Hv.
    apply (returned_cost _ _ _ _ _ _ Hother) in Hv as (_ & _ & Hv).
    eapply cost_of_deterministic; eassumption.
  - exists recipe. split; [exact Hr|]. split; [|split; [reflexivity|exact Hcpl]].
    apply (items_cost_material_cost _ _ _ _ _ Hitems).
    intros item id c dd Hin Hi Hs Hsub. apply standalone_cost_cached with dd.
    eapply standalone_cost_of_sub_recipe; eauto.
Qed.

Lemma C4_compositionality_witness :
  exists details self' sub_details,
    calculate_recipe_cost 2 0 (new_calculator Seed.db)
      = (Ok (16.950370370370369%float, details), self') /\
    calculate_recipe_cost 1 0 self'
      = (Ok (6.6316666666666659%float, sub_details), self') /\
    calculate_recipe_cost 1 0 (new_calculator Seed.db)
      = (Ok (6.6316666666666659%float, sub_details),
         snd (calculate_recipe_cost 1 0 (new_calculator Seed.db))) /\
    In (sub_recipe_line_of (Seed.item 2 None (Some 1) 50) 1
          6.6316666666666659%float sub_details)
       (d_sub_recipes details) /\
    d_total_material_cost details
      = material_cost Seed.db (standalone_cost self') (items_of Seed.db 2) 0.
Proof.
  destruct (calculate_recipe_cost 2 0 (new_calculator Seed.db))
    as [[[cpl d]|e] self'] eqn:E; [|vm_compute in E; discriminate].
  destruct (C4_compositionality _ _ _ _ _ _ _ (reachable_new Seed.db) E)
    as (Hsub & recipe & _ & Htmc & _).
  destruct (Hsub (Seed.item 2 None (Some 1) 50) 1) as (scpl & sd & Hs & Hany & Hline);
    [vm_compute; tauto|reflexivity|reflexivity|].
  destruct (calculate_recipe_cost 1 0 (new_calculator Seed.db))
    as [[v|e] other'] eqn:E1; [|vm_compute in E1; discriminate].
  pose proof (Hany _ _ _ _ (reachable_new Seed.db) E1) as ->.
  assert (cpl = 16.950370370370369%float) as ->
    by (vm_compute in E; now injection E as <- _ _).
  assert (scpl = 6.6316666666666659%float) as ->
    by (vm_compute in E1; now injection E1 as <- _ _).
  exists d, self', sd. repeat split; assumption.
Defined.

(** ** A recipe under resolution is not resolved again below itself *)

Lemma hops_snoc db n a b c :
  hops db n a b -> sub_recipe_of db b c -> hops db (S n) a c.
Proof.
  induction 1 as [a|n a a' b Ha _ IH]; intros Hc.
  - econstructor; [exact Hc|constructor].
  - econstructor; [exact Ha|now apply IH].
Qed.

Lemma reaches_step db a b c : reaches db a b -> sub_recipe_of db b c -> reaches db a c.
Proof. intros [n H] Hc. exists (S n). eapply hops_snoc; eassumption. Qed.

Lemma reaches_edge db a b : sub_recipe_of db a b -> reaches db a b.
Proof. intros H. exists 0%nat. econstructor; [exact H|constructor]. Qed.

Lemma cache_closed_hops self n a b :
  cache_closed self -> hops (conn self) n a b ->
  is_Some (recipe_cache self !! a) -> is_Some (recipe_cache self !! b).
Proof. intros Hc. induction 1; eauto. Qed.

Section Avoiding.
Variable self_rec : Z -> Z -> M (float * details).
Hypothesis Hext : forall id d, extending (self_rec id d).
Hypothesis Hclosing : forall id d, closing_call id (self_rec id d).
Hypothesis Havoiding : forall id d, avoiding_call id (self_rec id d).

Lemma avoiding_loop (S : Z -> Prop) depth items :
  forall a self r self',
    cache_closed self ->
    (forall y, S y -> recipe_cache self !! y = None) ->
    (forall item id,
        In item items ->
        Py.truthy (it_ingredient_id item) = None ->
        Py.truthy (it_sub_recipe_id item) = Some id ->
        forall y, S y -> reaches (conn self) y id) ->
    for_each (item_step self_rec depth) items a self = (r, self') ->
    forall y, S y -> recipe_cache self' !! y = None.
Proof.
  induction items as [|item items IH]; intros a self r self' Hc HS Hreach H.
  - injection H as <- <-. exact HS.
  - assert (Hrest : forall x id,
               In x items ->
               Py.truthy (it_ingredient_id x) = None ->
               Py.truthy (it_sub_recipe_id x) = Some id ->
               forall y, S y -> reaches (conn self) y id)
      by (intros x id Hx; apply Hreach; now right).
    rewrite for_each_cons, item_step_eq in H.
    destruct (Py.truthy (it_ingredient_id item)) as [iid|] eqn:Hi.
    + destruct (ingredients (conn self) !! iid).
      * eapply IH; [| | |exact H]; assumption.
      * injection H as <- <-. exact HS.
    + destruct (Py.truthy (it_sub_recipe_id item)) as [sid|] eqn:Hs.
      * assert (Hsid : forall y, S y -> reaches (conn self) y sid)
          by (apply (Hreach item sid); [now left|exact Hi|exact Hs]).
        destruct (self_rec sid (depth + 1) self) as [[[cpl d]|e] s1] eqn:Hsub.
        -- assert (HS1 : forall y, S y -> recipe_cache s1 !! y = None)
             by (eapply Havoiding; eassumption).
           destruct (Hclosing _ _ _ _ _ Hc Hsub) as [Hc1 _].
           apply Hext in Hsub as [Hconn _].
           eapply IH; [exact Hc1|exact HS1| |exact H].
           rewrite Hconn. exact Hrest.
        -- injection H as <- <-. eapply Havoiding; eassumption.
      * eapply IH; [| | |exact H]; assumption.
Qed.

Lemma avoiding_body recipe_id depth :
  avoiding_call recipe_id (calculate_recipe_cost_body self_rec recipe_id depth).
Proof.
  intros S self r self' Hc HS Hreach. rewrite calculate_recipe_cost_body_eq.
  destruct (3 <? depth); [now intros [= <- <-]|].
  destruct (recipe_cache self !! recipe_id) as [w|] eqn:Hw; [now intros [= <- <-]|].
  cbn zeta. destruct (recipes (conn self) !! recipe_id) as [recipe|];
    [|destruct (sqlite_integer recipe_id); now intros [= <- <-]].
  destruct (for_each _ _ _ _) as [[a|e] s3] eqn:Hloop.
  all: assert (Hbusy : forall y, S y \/ y = recipe_id -> recipe_cache s3 !! y = None);
    [ refine (avoiding_loop (fun y => S y \/ y = recipe_id) _ _ _ _ _ _ _ _ _ Hloop);
      [ exact Hc
      | intros y [Hy| ->]; [now apply HS|exact Hw]
      | cbn [conn executed]; intros item id Hin Hi Hs y [Hy| ->];
        [ eapply reaches_step; [now apply Hreach|]; exists item; auto
        | apply reaches_edge; exists item; auto ] ]
    | ].
  - pose proof Hloop as Hloop2.
    apply (closing_loop _ _ _ Hext Hclosing) in Hloop2 as [Hc3 Hitems];
      [|exact Hc].
    apply (extending_for_each _ _ (fun b x => extending_item_step _ _ b x Hext))
      in Hloop as [Hconn _]. cbn [conn executed] in Hconn.
    destruct (calc_cost_per_liter _ _ _ _); intros [= <- <-]; [|auto].
    intros y Hy. cbn [cached recipe_cache].
    destruct (decide (recipe_id = y)) as [<-|Hne];
      [|rewrite lookup_insert_ne by exact Hne; auto].
    exfalso. destruct (Hreach _ Hy) as [n Hn].
    inversion Hn as [|? ? child ? Hedge Hrest]; subst.
    pose proof Hedge as (item & Hin & Hi & Hs).
    assert (Hchild : is_Some (recipe_cache s3 !! child))
      by (eapply Hitems; eauto).
    rewrite <- Hconn in Hrest.
    apply (cache_closed_hops _ _ _ _ Hc3 Hrest) in Hchild.
    rewrite Hbusy in Hchild by now right. now destruct Hchild.
  - intros [= <- <-] y Hy. apply Hbusy. now left.
Qed.
End Avoiding.

Lemma avoiding_calculate_recipe_cost_fuel fuel recipe_id depth :
  avoiding_call recipe_id (calculate_recipe_cost_fuel fuel recipe_id depth).
Proof.
  revert recipe_id depth. induction fuel as [|fuel IH]; intros recipe_id depth;
    rewrite calculate_recipe_cost_fuel_eq; apply avoiding_body; auto;
    try (intros; apply extending_calculate_recipe_cost_fuel);
    try (intros; apply closing_calculate_recipe_cost_fuel);
    try (intros; apply extending_raise).
  - intros id d self r self' Hs [= <- <-]. split; [exact Hs|discriminate].
  - intros id d S self r self' _ HS _ [= <- <-]. exact HS.
Qed.

(** ** Which recipes a call looks up *)

Lemma traced_unique self self' qs qs' :
  traced self self' qs -> traced self self' qs' -> qs = qs'.
Proof. unfold traced. intros -> H. now apply app_inv_tail in H. Qed.

Lemma traced_trans s1 s2 s3 q1 q2 :
  traced s1 s2 q1 -> traced s2 s3 q2 -> traced s1 s3 (q2 ++ q1).
Proof. unfold traced. intros H1 ->. now rewrite H1, app_assoc. Qed.

Lemma traced_same self qs : traced self self qs -> qs = [].
Proof. intros H. eapply traced_unique; [exact H|reflexivity]. Qed.

Lemma extends_traced self self' : extends self self' -> exists qs, traced self self' qs.
Proof. now intros (_ & _ & H). Qed.

Lemma lookup_spec_nil self {A} (r : result A) : lookup_spec self r self [].
Proof.
  split; [intros x Hx; now apply elem_of_nil in Hx|].
  split; [intros x Hx; now apply elem_of_nil in Hx|].
  intros _. split; [constructor|]. split; [reflexivity|].
  intros x Hx. now apply elem_of_nil in Hx.
Qed.

(** Two runs in sequence, the second one from where the first returned. *)
Lemma lookup_spec_seq {A B} s1 s2 s3 (a : A) (r : result B) q1 q2 :
  extends s1 s2 -> extends s2 s3 ->
  lookup_spec s1 (Ok a) s2 q1 -> lookup_spec s2 r s3 q2 ->
  lookup_spec s1 r s3 (q2 ++ q1).
Proof.
  intros H12 H23 (Hn1 & Hm1 & Ho1) (Hn2 & Hm2 & Ho2).
  destruct (Ho1 eq_refl) as (Hd1 & Hi1 & Hc1).
  unfold lookup_spec, recipe_lookups, item_lookups in *. split; [|split].
  - intros x. rewrite omap_app, elem_of_app. intros [Hx|Hx]; [|auto].
    destruct H12 as (_ & Hsub & _). eapply lookup_weaken_None; eauto.
  - intros x. rewrite omap_app, elem_of_app. intros [Hx|Hx]; [|auto].
    destruct H12 as (_ & Hsub & _). eapply lookup_weaken_None; eauto.
  - intros Hr. destruct (Ho2 Hr) as (Hd2 & Hi2 & Hc2).
    rewrite !omap_app. split; [|split].
    + apply NoDup_app. split; [exact Hd2|split; [|exact Hd1]].
      intros x Hx2 Hx1. apply Hn2 in Hx2. apply Hc1 in Hx1.
      rewrite Hx2 in Hx1. now destruct Hx1.
    + now rewrite Hi1, Hi2.
    + intros x. rewrite elem_of_app. intros [Hx|Hx]; [auto|].
      eapply extends_is_Some; eauto.
Qed.

Section Lookups.
Variable self_rec : Z -> Z -> M (float * details).
Hypothesis Hext : forall id d, extending (self_rec id d).
Hypothesis Hclosing : forall id d, closing_call id (self_rec id d).
Hypothesis Havoiding : forall id d, avoiding_call id (self_rec id d).
Hypothesis Hlookup : forall id d, lookup_call (self_rec id d).

Lemma lookup_item_step depth a item : lookup_call (item_step self_rec depth a item).
Proof.
  intros self r self' qs Hc H Ht. rewrite item_step_eq in H.
  destruct (Py.truthy (it_ingredient_id item)) as [iid|].
  - assert (self' = executed (SelectIngredient iid) self) as ->
      by (destruct (ingredients (conn self) !! iid); congruence).
    assert (qs = [SelectIngredient iid]) as ->
      by (eapply traced_unique; [exact Ht|reflexivity]).
    apply (lookup_spec_nil self r).
  - destruct (Py.truthy (it_sub_recipe_id item)) as [sid|].
    + destruct (self_rec sid (depth + 1) self) as [[[cpl d]|e] s1] eqn:Hsub;
        injection H as <- <-; exact (Hlookup _ _ _ _ _ _ Hc Hsub Ht).
    + injection H as <- <-. apply traced_same in Ht as ->.
      apply (lookup_spec_nil self (Ok a)).
Qed.

Lemma closing_item_step depth a item self r self' :
  cache_closed self -> item_step self_rec depth a item self = (r, self') ->
  cache_closed self'.
Proof.
  intros Hc H.
  apply (closing_loop self_rec depth [item] Hext Hclosing a self r self' Hc).
  rewrite for_each_cons, H. now destruct r.
Qed.

Lemma lookup_loop depth items :
  forall a, lookup_call (for_each (item_step self_rec depth) items a).
Proof.
  induction items as [|item items IH]; intros a self r self' qs Hc H Ht.
  - injection H as <- <-. apply traced_same in Ht as ->. apply lookup_spec_nil.
  - rewrite for_each_cons in H.
    destruct (item_step self_rec depth a item self) as [[b|e] s1] eqn:Hstep.
    + pose proof (extending_item_step _ _ _ _ Hext _ _ _ Hstep) as H1.
      pose proof (extending_for_each _ items
        (fun b x => extending_item_step _ _ b x Hext) _ _ _ _ H) as H2.
      destruct (extends_traced _ _ H1) as [q1 Hq1].
      destruct (extends_traced _ _ H2) as [q2 Hq2].
      assert (qs = q2 ++ q1) as ->
        by (eapply traced_unique; [exact Ht|eapply traced_trans; eassumption]).
      eapply lookup_spec_seq; [exact H1|exact H2| |].
      * eapply lookup_item_step; eassumption.
      * eapply IH; [|exact H|exact Hq2]. eapply closing_item_step; eassumption.
    + injection H as <- <-. eapply lookup_item_step; eassumption.
Qed.

Lemma lookup_body recipe_id depth :
  lookup_call (calculate_recipe_cost_body self_rec recipe_id depth).
Proof.
  intros self r self' qs Hc H Ht. rewrite calculate_recipe_cost_body_eq in H.
  destruct (3 <? depth);
    [injection H as <- <-; apply traced_same in Ht as ->; apply lookup_spec_nil|].
  destruct (recipe_cache self !! recipe_id) as [w|] eqn:Hw;
    [injection H as <- <-; apply traced_same in Ht as ->; apply lookup_spec_nil|].
  cbn zeta in H. destruct (recipes (conn self) !! recipe_id) as [recipe|].
  2:{ destruct (sqlite_integer recipe_id); injection H as <- <-;
        [|apply traced_same in Ht as ->; apply lookup_spec_nil].
      assert (qs = [SelectRecipe recipe_id]) as ->
        by (eapply traced_unique; [exact Ht|reflexivity]).
      split; [|split; [|discriminate]]; intros x Hx.
      - apply list_elem_of_singleton in Hx as ->. exact Hw.
      - now apply elem_of_nil in Hx. }
  destruct (for_each _ _ _ _) as [[a|e] s3] eqn:Hloop.
  all: pose proof (extending_for_each _ _
         (fun b x => extending_item_step _ _ b x Hext) _ _ _ _ Hloop) as Hgrow;
    destruct (extends_traced _ _ Hgrow) as [ql Hql];
    pose proof (lookup_loop _ _ _ _ _ _ _
         (Hc : cache_closed (executed (SelectRecipeItems recipe_id)
                               (executed (SelectRecipe recipe_id) self)))
         Hloop Hql) as (Hnew & Hnew' & Hok);
    assert (Hbusy : recipe_cache s3 !! recipe_id = None)
      by (refine (avoiding_loop self_rec Hext Hclosing Havoiding
                    (fun y => y = recipe_id) _ _ _ _ _ _
                    (Hc : cache_closed (executed (SelectRecipeItems recipe_id)
                                          (executed (SelectRecipe recipe_id) self)))
                    _ _ Hloop _ eq_refl);
          [now intros y ->
          |cbn [conn executed]; intros item id Hin Hi Hs y ->;
           apply reaches_edge; exists item; auto]);
    assert (Hqs : qs = ql ++ [SelectRecipeItems recipe_id; SelectRecipe recipe_id]).
  1,3: eapply traced_unique; [exact Ht|]; unfold traced in *;
    (destruct (calc_cost_per_liter _ _ _ _) || idtac); injection H as <- <-;
    cbn [cached queries]; rewrite Hql; cbn [executed queries];
    now rewrite <- app_assoc.
  - subst qs. unfold lookup_spec, recipe_lookups, item_lookups in *.
    rewrite !omap_app.
    cbn [omap list_omap app mbind option_bind].
    split; [|split].
    + intros x. rewrite elem_of_app, list_elem_of_singleton.
      intros [Hx| ->]; [now apply Hnew|exact Hw].
    + intros x. rewrite elem_of_app, list_elem_of_singleton.
      intros [Hx| ->]; [now apply Hnew'|exact Hw].
    + intros Hr. destruct (Hok eq_refl) as (Hd & Hi & Hcached).
      destruct (calc_cost_per_liter _ _ _ _); injection H as <- <-;
        [|discriminate].
      split; [|split].
      * apply NoDup_app. split; [exact Hd|split; [|apply NoDup_singleton]].
        intros x Hx ->%list_elem_of_singleton. apply Hcached in Hx.
        rewrite Hbusy in Hx. now destruct Hx.
      * now rewrite Hi.
      * intros x. rewrite elem_of_app, list_elem_of_singleton.
        cbn [cached recipe_cache]. rewrite lookup_insert_is_Some'.
        intros [Hx| ->]; [right; auto|now left].
  - subst qs. injection H as <- <-.
    unfold lookup_spec, recipe_lookups, item_lookups in *. rewrite !omap_app.
    cbn [omap list_omap app mbind option_bind].
    split; [|split; [|discriminate]];
      intros x; rewrite elem_of_app, list_elem_of_singleton.
    + intros [Hx| ->]; [now apply Hnew|exact Hw].
    + intros [Hx| ->]; [now apply Hnew'|exact Hw].
Qed.
End Lookups.

Lemma lookup_calculate_recipe_cost_fuel fuel recipe_id depth :
  lookup_call (calculate_recipe_cost_fuel fuel recipe_id depth).
Proof.
  revert recipe_id depth. induction fuel as [|fuel IH]; intros recipe_id depth;
    rewrite calculate_recipe_cost_fuel_eq; apply lookup_body; auto;
    try (intros; apply extending_calculate_recipe_cost_fuel);
    try (intros; apply closing_calculate_recipe_cost_fuel);
    try (intros; apply avoiding_calculate_recipe_cost_fuel);
    try (intros; apply extending_raise).
  - intros id d self r self' Hs [= <- <-]. split; [exact Hs|discriminate].
  - intros id d S self r self' _ HS _ [= <- <-]. exact HS.
  - intros id d self r self' qs _ [= <- <-] ->%traced_same. apply lookup_spec_nil.
Qed.

(** ** The product method, step by step *)

Lemma calculate_product_eq product_id self :
  calculate_product product_id self =
  let s1 := executed (SelectProduct product_id) self in
  match products (conn self) !! product_id with
  | None =>
      if sqlite_integer product_id then (Raise (ValueError_product product_id), s1)
      else (Raise OverflowError_bind, self)
  | Some product =>
      match calculate_recipe_cost (pr_recipe_id product) 0 s1 with
      | (Raise e, s2) => (Raise e, s2)
      | (Ok (cost_per_liter, recipe_details), s2) =>
          let s3 := executed (SelectPackaging (pr_packaging_id product)) s2 in
          match packaging_types (conn s2) !! pr_packaging_id product with
          | None => (Raise TypeError_NoneType, s3)
          | Some packaging =>
              let cost_per_unit :=
                calc_cost_per_unit cost_per_liter (pk_size_l packaging)
                  (pk_price_jar packaging) (pk_price_lid packaging)
                  (pk_price_label packaging) in
              match calc_target_price cost_per_unit (pr_markup_factor product) with
              | Raise e => (Raise e, s3)
              | Ok target_price =>
                  match Py.truediv (target_price - cost_per_unit)%float target_price with
                  | Raise e => (Raise e, s3)
                  | Ok ratio =>
                      (Ok (product_result product_id product packaging cost_per_liter
                             recipe_details target_price ratio), s3)
                  end
              end
          end
      end
  end.
Proof.
  unfold calculate_product. unfold bind at 1, select_product at 1, fetchone_by_id at 1.
  cbn zeta. destruct (products (conn self) !! product_id) as [product|];
    [|destruct (sqlite_integer product_id); reflexivity].
  unfold bind at 1.
  destruct (calculate_recipe_cost _ 0 _) as [[[cpl rd]|e] s2]; [|reflexivity].
  unfold bind at 1, select_packaging at 1, run_query at 1.
  destruct (packaging_types (conn s2) !! _) as [packaging|]; [|reflexivity].
  unfold bind at 1, subscript at 1, ret at 1. unfold bind at 1, lift at 1.
  destruct (calc_target_price _ _) as [t|e]; [|reflexivity].
  unfold bind at 1, lift at 1. destruct (Py.truediv _ _); reflexivity.
Qed.

(** The recipes a product calculation looks up are those of its one call
    of [calculate_recipe_cost]. *)
Lemma lookup_calculate_product product_id self r self' qs :
  cache_closed self ->
  calculate_product product_id self = (r, self') -> traced self self' qs ->
  forall x, x ∈ recipe_lookups qs \/ x ∈ item_lookups qs ->
            recipe_cache self !! x = None.
Proof.
  intros Hc H Ht. rewrite calculate_product_eq in H. cbn zeta in H.
  destruct (products (conn self) !! product_id) as [product|].
  2:{ destruct (sqlite_integer product_id); injection H as <- <-;
        [|apply traced_same in Ht as ->;
          intros x [Hx|Hx]; now apply elem_of_nil in Hx].
      assert (qs = [SelectProduct product_id]) as ->
        by (eapply traced_unique; [exact Ht|reflexivity]).
      intros x [Hx|Hx]; now apply elem_of_nil in Hx. }
  destruct (calculate_recipe_cost _ 0 _) as [[[cpl rd]|e] s2] eqn:Hcall.
  all: pose proof (extending_calculate_recipe_cost _ _ _ _ _ Hcall) as Hgrow;
    destruct (extends_traced _ _ Hgrow) as [qc Hqc];
    pose proof (lookup_calculate_recipe_cost_fuel _ _ _ _ _ _ _
                  (Hc : cache_closed (executed (SelectProduct product_id) self))
                  Hcall Hqc) as (Hnew & Hnew' & _).
  - assert (self' = executed (SelectPackaging (pr_packaging_id product)) s2) as ->.
    { destruct (packaging_types (conn s2) !! _); [|congruence].
      destruct (calc_target_price _ _); [|congruence].
      destruct (Py.truediv _ _); congruence. }
    assert (qs = [SelectPackaging (pr_packaging_id product)] ++ qc
                 ++ [SelectProduct product_id]) as ->.
    { eapply traced_unique; [exact Ht|]. unfold traced in *. cbn [executed queries] in *.
      rewrite Hqc. cbn. now rewrite <- app_assoc. }
    unfold recipe_lookups, item_lookups in *. rewrite !omap_app.
    cbn [omap list_omap app mbind option_bind]. rewrite !app_nil_r.
    intros x [Hx|Hx]; auto.
  - injection H as <- <-.
    assert (qs = qc ++ [SelectProduct product_id]) as ->.
    { eapply traced_unique; [exact Ht|]. unfold traced in *. cbn [executed queries] in *.
      rewrite Hqc. now rewrite <- app_assoc. }
    unfold recipe_lookups, item_lookups in *. rewrite !omap_app.
    cbn [omap list_omap app mbind option_bind]. rewrite !app_nil_r.
    intros x [Hx|Hx]; auto.
Qed.

(** ** Memoization *)

(** C5 fails as stated: on the chain of five recipes, the top-level
    resolution of recipe 1 raises after having looked up recipe 2; the two
    resolutions of recipe 2 that follow agree, and recipe 2 has then been
    looked up twice on this calculator. *)
Lemma C5_counterexample : ~ C5_as_stated.
Proof.
  intros H.
  specialize (H (Examples.chain_db 5)
                (snd (calculate_recipe_cost 1 0 (new_calculator (Examples.chain_db 5))))
                2 (reachable_recipe_cost _ _ 1 0 (reachable_new _))).
  destruct H as [_ H]. vm_compute in H. lia.
Qed.

(** C5, amended.  When a resolution of a recipe identifier returns, it
    has looked up each recipe at most once (and read the items of exactly
    the recipes it looked up); every later resolution of that identifier
    on the same calculator with [depth <= 3] returns the identical result
    without executing a statement; and no later call of either method on
    this calculator looks the identifier up again.  (A resolution that
    raises memoizes nothing for its identifier.) *)
Theorem C5_memoization :
  forall db self recipe_id depth v self1 qs,
    reachable db self ->
    calculate_recipe_cost recipe_id depth self = (Ok v, self1) ->
    traced self self1 qs ->
    (NoDup (recipe_lookups qs) /\ item_lookups qs = recipe_lookups qs) /\
    (forall depth', depth' <= 3 ->
        calculate_recipe_cost recipe_id depth' self1 = (Ok v, self1)) /\
    (forall self2,
        reachable db self2 -> extends self1 self2 ->
        (forall id' depth' qs',
            traced self2 (snd (calculate_recipe_cost id' depth' self2)) qs' ->
            (recipe_id ∉ recipe_lookups qs') /\ (recipe_id ∉ item_lookups qs')) /\
        (forall product_id qs',
            traced self2 (snd (calculate_product product_id self2)) qs' ->
            (recipe_id ∉ recipe_lookups qs') /\ (recipe_id ∉ item_lookups qs'))).
Proof.
  intros db self recipe_id depth v self1 qs Hreach H Ht.
  pose proof (reachable_invariant _ _ Hreach) as (_ & _ & Hc).
  destruct (lookup_calculate_recipe_cost_fuel _ _ _ _ _ _ _ Hc H Ht)
    as (_ & _ & Hok).
  destruct (Hok eq_refl) as (Hd & Hi & _).
  pose proof (returned_is_cached _ _ _ _ _ _ H) as Hcached.
  split; [now split|]. split; [intros; now apply cache_hit|].
  intros self2 Hreach2 Hlater.
  pose proof (reachable_invariant _ _ Hreach2) as (_ & _ & Hc2).
  assert (Hin2 : recipe_cache self2 !! recipe_id <> None).
  { destruct Hlater as (_ & Hsub & _).
    rewrite (lookup_weaken _ _ _ _ Hcached Hsub). discriminate. }
  split.
  - intros id' depth' qs' Ht'.
    destruct (lookup_calculate_recipe_cost_fuel _ _ _ _ _ _ _ Hc2
                (surjective_pairing _) Ht') as (Hn & Hn' & _).
    split; intros Hx; [apply Hn in Hx|apply Hn' in Hx]; contradiction.
  - intros product_id qs' Ht'.
    pose proof (lookup_calculate_product _ _ _ _ _ Hc2 (surjective_pairing _) Ht')
      as Hn.
    split; intros Hx; apply Hin2, Hn; auto.
Qed.

Lemma C5_memoization_witness :
  exists v self1 qs',
    calculate_recipe_cost 3 0 (new_calculator Seed.db) = (Ok v, self1) /\
    NoDup (recipe_lookups (queries self1)) /\
    calculate_recipe_cost 3 0 self1 = (Ok v, self1) /\
    traced self1 (snd (calculate_product 3 self1)) qs' /\
    3 ∉ recipe_lookups qs'.
Proof.
  destruct (calculate_recipe_cost 3 0 (new_calculator Seed.db))
    as [[v|e] self1] eqn:E; [|vm_compute in E; discriminate].
  assert (Ht : traced (new_calculator Seed.db) self1 (queries self1))
    by (unfold traced; cbn; now rewrite app_nil_r).
  destruct (C5_memoization _ _ _ _ _ _ _ (reachable_new Seed.db) E Ht)
    as ((Hd & _) & Hagain & Hlater).
  assert (Hreach1 : reachable Seed.db self1).
  { replace self1 with (snd (calculate_recipe_cost 3 0 (new_calculator Seed.db)))
      by now rewrite E.
    apply reachable_recipe_cost, reachable_new. }
  destruct (Hlater self1 Hreach1 (reflexivity _)) as [_ Hprod].
  destruct (extends_traced self1 (snd (calculate_product 3 self1))) as [qs' Hqs'].
  { eapply extending_calculate_product. apply surjective_pairing. }
  exists v, self1, qs'. split; [reflexivity|]. split; [exact Hd|].
  split; [apply Hagain; lia|]. split; [exact Hqs'|].
  exact (proj1 (Hprod 3 qs' Hqs')).
Defined.

(** ** Target price *)

Lemma round_half_even_nearest m e :
  0 <= m -> nearest_even m e (Py.round_half_even m e).
Proof.
  intros Hm. unfold nearest_even, Py.round_half_even.
  destruct (0 <=? e) eqn:He; [reflexivity|]. apply Z.leb_gt in He. cbn zeta.
  assert (Hd : 0 < 2 ^ (- e)) by (apply Z.pow_pos_nonneg; lia).
  set (d := 2 ^ (- e)) in *.
  pose proof (Z.div_mod m d ltac:(lia)) as Hdiv.
  pose proof (Z.mod_pos_bound m d Hd) as Hr.
  set (q := m / d) in *. set (r := m mod d) in *.
  destruct (2 * r ?= d) eqn:Hcmp.
  - apply Z.compare_eq in Hcmp.
    destruct (Z.even q) eqn:Hq.
    + replace (q * d - m) with (- r) by lia. rewrite Z.abs_opp, Z.abs_eq by lia.
      split; [lia|auto].
    + replace ((q + 1) * d - m) with (d - r) by lia. rewrite Z.abs_eq by lia.
      split; [lia|]. intros _. rewrite Z.even_add, Hq. reflexivity.
  - rewrite Z.compare_lt_iff in Hcmp.
    replace (q * d - m) with (- r) by lia. rewrite Z.abs_opp, Z.abs_eq by lia.
    split; lia.
  - rewrite Z.compare_gt_iff in Hcmp.
    replace ((q + 1) * d - m) with (d - r) by lia. rewrite Z.abs_eq by lia.
    split; lia.
Qed.

(** C6.  The target price is [round(cost_per_unit * markup_factor * 20) / 20]:
    the call raises what [round] raises, and otherwise returns the float
    quotient by 20 of the integer [round] returns, which is an integer
    nearest to the product (of magnitude [m * 2^e]) taken 20-fold, the
    even one on a tie: the product is snapped to a nearest multiple of
    0.05.  With a markup of 1, 19.03 gives 19.05 and 19.00 gives 19.00. *)
Theorem C6_target_price :
  (forall cost_per_unit markup_factor,
      calc_target_price cost_per_unit markup_factor =
      match Py.round (cost_per_unit * markup_factor * 20)%float with
      | Ok k => Ok (Py.float_of_int k / 20)%float
      | Raise e => Raise e
      end) /\
  (forall x s m e,
      Prim2SF x = S754_finite s m e ->
      exists k, Py.round x = Ok (cond_Zopp s k) /\ nearest_even (Zpos m) e k) /\
  (forall x s, Prim2SF x = S754_zero s -> Py.round x = Ok 0) /\
  calc_target_price 19.03 1 = Ok 19.05%float /\
  calc_target_price 19.00 1 = Ok 19.00%float.
Proof.
  split; [|split; [|split; [|split]]].
  - intros c f. unfold calc_target_price, Py.int_truediv.
    destruct (Py.round _); reflexivity.
  - intros x s m e Hx. exists (Py.round_half_even (Zpos m) e).
    unfold Py.round. rewrite Hx. split; [reflexivity|].
    now apply round_half_even_nearest.
  - intros x s Hx. unfold Py.round. now rewrite Hx.
  - vm_compute. reflexivity.
  - vm_compute. reflexivity.
Qed.

Lemma C6_target_price_witness :
  exists k,
    Py.round (19.03 * 1 * 20)%float = Ok (cond_Zopp false k) /\
    nearest_even 6695586008504730 (-44) k /\
    k = 381.
Proof.
  destruct (proj1 (proj2 C6_target_price) (19.03 * 1 * 20)%float
              false 6695586008504730%positive (-44)) as (k & Hk & Hnear).
  - vm_compute. reflexivity.
  - exists k. split; [exact Hk|]. split; [exact Hnear|].
    vm_compute in Hk. now injection Hk as <-.
Defined.

(** ** Margin *)

(** C7.  A product calculation that returns has a non-zero target price,
    and its margin is [(target_price - cost_per_unit) / target_price * 100].
    When the steps before the margin succeed with a target price of zero,
    the unguarded division raises [ZeroDivisionError] and the call
    returns nothing; so it does for the product of [cheap_db], whose
    cost per unit of 0.00001 at markup 3 rounds to a target price of 0. *)
Theorem C7_margin :
  (forall self product_id res self',
      calculate_product product_id self = (Ok res, self') ->
      PrimFloat.eqb (pc_target_price res) 0 = false /\
      pc_brutto_margin_pct res
      = ((pc_target_price res - pc_cost_per_unit res) / pc_target_price res * 100)%float) /\
  (forall self product_id product cost_per_liter recipe_details s2 packaging target_price,
      products (conn self) !! product_id = Some product ->
      calculate_recipe_cost (pr_recipe_id product) 0
        (executed (SelectProduct product_id) self)
        = (Ok (cost_per_liter, recipe_details), s2) ->
      packaging_types (conn s2) !! pr_packaging_id product = Some packaging ->
      calc_target_price
        (calc_cost_per_unit cost_per_liter (pk_size_l packaging) (pk_price_jar packaging)
           (pk_price_lid packaging) (pk_price_label packaging))
        (pr_markup_factor product) = Ok target_price ->
      PrimFloat.eqb target_price 0 = true ->
      calculate_product product_id self
      = (Raise ZeroDivisionError,
         executed (SelectPackaging (pr_packaging_id product)) s2)) /\
  fst (calculate_product 1 (new_calculator Examples.cheap_db)) = Raise ZeroDivisionError.
Proof.
  split; [|split].
  - intros self product_id res self'. rewrite calculate_product_eq. cbn zeta.
    destruct (products (conn self) !! product_id) as [product|];
      [|destruct (sqlite_integer _); discriminate].
    destruct (calculate_recipe_cost _ 0 _) as [[[cpl rd]|e] s2]; [|discriminate].
    destruct (packaging_types (conn s2) !! _) as [packaging|]; [|discriminate].
    destruct (calc_target_price _ _) as [t|e]; [|discriminate].
    unfold Py.truediv. destruct (PrimFloat.eqb t 0) eqn:Ht; [discriminate|].
    intros [= <- _]. split; [exact Ht|reflexivity].
  - intros self product_id product cpl rd s2 packaging t Hp Hcall Hpk Ht Hzero.
    rewrite calculate_product_eq. cbn zeta. rewrite Hp, Hcall, Hpk, Ht.
    unfold Py.truediv. now rewrite Hzero.
  - vm_compute. reflexivity.
Qed.

Lemma C7_margin_witness :
  (exists res,
      fst (calculate_product 1 (new_calculator Seed.db)) = Ok res /\
      pc_target_price res = 13.699999999999999%float /\
      pc_brutto_margin_pct res = 73.687895377128953%float /\
      pc_brutto_margin_pct res
      = ((pc_target_price res - pc_cost_per_unit res) / pc_target_price res * 100)%float) /\
  calculate_product 1 (new_calculator Examples.cheap_db)
  = (Raise ZeroDivisionError,
     snd (calculate_product 1 (new_calculator Examples.cheap_db))).
Proof.
  split.
  - destruct (calculate_product 1 (new_calculator Seed.db)) as [[res|e] self'] eqn:E;
      [|vm_compute in E; discriminate].
    destruct (proj1 C7_margin _ _ _ _ E) as [_ Hmargin].
    exists res. split; [reflexivity|].
    vm_compute in E. injection E as <- _.
    split; [reflexivity|split; [reflexivity|exact Hmargin]].
  - destruct (products (conn (new_calculator Examples.cheap_db)) !! 1)
      as [product|] eqn:Hp; [|vm_compute in Hp; discriminate].
    destruct (calculate_recipe_cost (pr_recipe_id product) 0
                (executed (SelectProduct 1) (new_calculator Examples.cheap_db)))
      as [[[cpl rd]|e] s2] eqn:Hcall;
      [|vm_compute in Hp; injection Hp as <-; vm_compute in Hcall; discriminate].
    destruct (packaging_types (conn s2) !! pr_packaging_id product)
      as [packaging|] eqn:Hpk.
    2:{ vm_compute in Hp; injection Hp as <-. vm_compute in Hcall.
        injection Hcall as <- <- <-. vm_compute in Hpk. discriminate. }
    destruct (calc_target_price
                (calc_cost_per_unit cpl (pk_size_l packaging) (pk_price_jar packaging)
                   (pk_price_lid packaging) (pk_price_label packaging))
                (pr_markup_factor product)) as [t|e] eqn:Ht.
    2:{ vm_compute in Hp; injection Hp as <-. vm_compute in Hcall.
        injection Hcall as <- <- <-. vm_compute in Hpk. injection Hpk as <-.
        vm_compute in Ht. discriminate. }
    rewrite (proj1 (proj2 C7_margin) _ _ _ _ _ _ _ _ Hp Hcall Hpk Ht);
      [reflexivity|].
    vm_compute in Hp; injection Hp as <-. vm_compute in Hcall.
    injection Hcall as <- <- <-. vm_compute in Hpk. injection Hpk as <-.
    vm_compute in Ht. injection Ht as <-. reflexivity.
Defined.

(** ** Absent records *)

Lemma recipe_not_found fuel recipe_id depth self :
  depth <= 3 ->
  recipe_cache self !! recipe_id = None ->
  recipes (conn self) !! recipe_id = None ->
  calculate_recipe_cost_fuel fuel recipe_id depth self
  = if sqlite_integer recipe_id
    then (Raise (ValueError_recipe recipe_id), executed (SelectRecipe recipe_id) self)
    else (Raise OverflowError_bind, self).
Proof.
  intros Hd Hc Hr. rewrite calculate_recipe_cost_fuel_eq, calculate_recipe_cost_body_eq.
  apply Z.ltb_ge in Hd as ->. now rewrite Hc, Hr.
Qed.

Lemma product_not_found product_id self :
  products (conn self) !! product_id = None ->
  calculate_product product_id self
  = if sqlite_integer product_id
    then (Raise (ValueError_product product_id), executed (SelectProduct product_id) self)
    else (Raise OverflowError_bind, self).
Proof. intros Hp. rewrite calculate_product_eq. cbn zeta. now rewrite Hp. Qed.

Lemma ingredient_not_found self_rec depth a item id self :
  Py.truthy (it_ingredient_id item) = Some id ->
  ingredients (conn self) !! id = None ->
  item_step self_rec depth a item self
  = (Raise TypeError_NoneType, executed (SelectIngredient id) self).
Proof. intros Hi Hg. rewrite item_step_eq. now rewrite Hi, Hg. Qed.

(** C8 (the code departs from the claim).  On [dangling_db] an unknown
    recipe, an unknown product and an absent sub-recipe raise the
    [ValueError] "nicht gefunden"; an absent ingredient and an absent
    packaging raise [TypeError], from subscripting the [None] that
    [fetchone()] returned, not a not-found error. *)
Theorem C8_absent_records :
  fst (calculate_recipe_cost 77 0 (new_calculator Examples.dangling_db))
    = Raise (ValueError_recipe 77) /\
  fst (calculate_product 77 (new_calculator Examples.dangling_db))
    = Raise (ValueError_product 77) /\
  fst (calculate_recipe_cost 5 0 (new_calculator Examples.dangling_db))
    = Raise (ValueError_recipe 98) /\
  fst (calculate_recipe_cost 4 0 (new_calculator Examples.dangling_db))
    = Raise TypeError_NoneType /\
  fst (calculate_product 5 (new_calculator Examples.dangling_db))
    = Raise TypeError_NoneType.
Proof. repeat split; vm_compute; reflexivity. Qed.

(** ** Items with neither an ingredient nor a sub-recipe *)

Lemma item_step_skip self_rec depth a item self :
  Py.truthy (it_ingredient_id item) = None ->
  Py.truthy (it_sub_recipe_id item) = None ->
  item_step self_rec depth a item self = (Ok a, self).
Proof. intros Hi Hs. rewrite item_step_eq. now rewrite Hi, Hs. Qed.

Lemma for_each_live self_rec depth items :
  forall a self,
    for_each (item_step self_rec depth) items a self
    = for_each (item_step self_rec depth) (List.filter live items) a self.
Proof.
  induction items as [|item items IH]; intros a self; [reflexivity|].
  cbn [List.filter]. unfold live at 1.
  destruct (Py.truthy (it_ingredient_id item)) eqn:Hi;
    [|destruct (Py.truthy (it_sub_recipe_id item)) eqn:Hs].
  1,2: rewrite !for_each_cons;
    destruct (item_step self_rec depth a item self) as [[b|e] s1]; auto.
  rewrite for_each_cons, item_step_skip by assumption. apply IH.
Qed.

Section Transport.
Variables db db' : database.
Hypothesis Hsame : same_live_items db db'.
Variable self_rec : Z -> Z -> M (float * details).
Hypothesis Hext : forall id d, extending (self_rec id d).
Hypothesis Hrec : forall id d, transported db db' (self_rec id d).

Lemma transported_loop depth items :
  forall a, transported db db' (for_each (item_step self_rec depth) items a).
Proof.
  destruct Hsame as (Hing & _ & _).
  induction items as [|item items IH]; intros a self Hconn; [reflexivity|].
  rewrite !for_each_cons, !item_step_eq. cbn [conn reconnect].
  destruct (Py.truthy (it_ingredient_id item)) as [iid|].
  - rewrite Hconn, Hing.
    destruct (ingredients db !! iid); [|reflexivity].
    apply (IH _ (executed (SelectIngredient iid) self)). exact Hconn.
  - destruct (Py.truthy (it_sub_recipe_id item)) as [sid|]; [|now apply IH].
    rewrite (Hrec sid (depth + 1) self Hconn).
    destruct (self_rec sid (depth + 1) self) as [[[cpl d]|e] s1] eqn:Hsub;
      cbn [fst snd]; [|reflexivity].
    apply IH. apply Hext in Hsub as [-> _]. exact Hconn.
Qed.

Lemma transported_body recipe_id depth :
  transported db db' (calculate_recipe_cost_body self_rec recipe_id depth).
Proof.
  intros self Hconn. rewrite !calculate_recipe_cost_body_eq.
  destruct (3 <? depth); [reflexivity|]. cbn [recipe_cache conn reconnect].
  destruct (recipe_cache self !! recipe_id); [reflexivity|]. cbn zeta.
  destruct Hsame as (_ & Hrc & Hitems). rewrite Hconn, Hrc.
  destruct (recipes db !! recipe_id) as [recipe|];
    [|destruct (sqlite_integer recipe_id); reflexivity].
  rewrite (for_each_live _ _ (items_of db' recipe_id)), Hitems, <- for_each_live.
  pose proof (transported_loop depth (items_of db recipe_id) loop_init
                (executed (SelectRecipeItems recipe_id)
                   (executed (SelectRecipe recipe_id) self)) Hconn) as Hloop.
  change (executed (SelectRecipeItems recipe_id)
            (executed (SelectRecipe recipe_id) (reconnect db' self)))
    with (reconnect db'
            (executed (SelectRecipeItems recipe_id)
               (executed (SelectRecipe recipe_id) self))).
  rewrite Hloop. clear Hloop.
  destruct (for_each (item_step self_rec depth) (items_of db recipe_id) loop_init
              (executed (SelectRecipeItems recipe_id)
                 (executed (SelectRecipe recipe_id) self))) as [[a|e] s3];
    cbn [fst snd]; [|reflexivity].
  destruct (calc_cost_per_liter _ _ _ _); reflexivity.
Qed.
End Transport.

Lemma transported_calculate_recipe_cost_fuel db db' fuel recipe_id depth :
  same_live_items db db' ->
  transported db db' (calculate_recipe_cost_fuel fuel recipe_id depth).
Proof.
  intros Hsame. revert recipe_id depth.
  induction fuel as [|fuel IH]; intros recipe_id depth;
    rewrite calculate_recipe_cost_fuel_eq; apply transported_body; auto;
    try (intros; apply extending_calculate_recipe_cost_fuel);
    try (intros; apply extending_raise).
  intros id d self _. reflexivity.
Qed.

Lemma same_live_items_insert db rows1 rows2 item :
  live item = false ->
  recipe_items db = rows1 ++ rows2 ->
  same_live_items db (with_recipe_items db (rows1 ++ item :: rows2)).
Proof.
  intros Hitem Hrows. split; [reflexivity|]. split; [reflexivity|].
  intros id. unfold items_of. cbn [recipe_items with_recipe_items]. rewrite Hrows.
  rewrite !List.filter_app. cbn [List.filter].
  destruct (it_recipe_id item =? id); [|reflexivity].
  cbn [List.filter]. now rewrite Hitem.
Qed.

(** C10.  An item whose ingredient reference and sub-recipe reference are
    both [None] or [0] is skipped: the loop body returns the running
    total and the two breakdown lists as they were, executes nothing and
    raises nothing; and a row of that kind added anywhere to
    [recipe_items] changes no result, no raised exception, no cache entry
    and no executed statement of [calculate_recipe_cost]. *)
Theorem C10_item_without_reference_is_skipped :
  forall item,
    Py.truthy (it_ingredient_id item) = None ->
    Py.truthy (it_sub_recipe_id item) = None ->
    (forall self_rec depth a self,
        item_step self_rec depth a item self = (Ok a, self)) /\
    (forall db rows1 rows2 self recipe_id depth,
        conn self = db ->
        recipe_items db = rows1 ++ rows2 ->
        let db' := with_recipe_items db (rows1 ++ item :: rows2) in
        calculate_recipe_cost recipe_id depth (reconnect db' self)
        = (fst (calculate_recipe_cost recipe_id depth self),
           reconnect db' (snd (calculate_recipe_cost recipe_id depth self)))).
Proof.
  intros item Hi Hs. split.
  - intros. now apply item_step_skip.
  - intros db rows1 rows2 self recipe_id depth Hconn Hrows db'.
    apply (transported_calculate_recipe_cost_fuel db db'); [|exact Hconn].
    apply same_live_items_insert; [|exact Hrows].
    unfold live. now rewrite Hi, Hs.
Qed.

Lemma C10_item_without_reference_is_skipped_witness :
  let item := Seed.item 2 (Some 0) None 7 in
  let db' := with_recipe_items Seed.db (firstn 4 (recipe_items Seed.db) ++ item
                                         :: skipn 4 (recipe_items Seed.db)) in
  item_step (fun _ _ => raise FuelExhausted) 0 loop_init item (new_calculator Seed.db)
  = (Ok loop_init, new_calculator Seed.db) /\
  calculate_recipe_cost 3 0 (new_calculator db')
  = (fst (calculate_recipe_cost 3 0 (new_calculator Seed.db)),
     reconnect db' (snd (calculate_recipe_cost 3 0 (new_calculator Seed.db)))).
Proof.
  intros item db'.
  destruct (C10_item_without_reference_is_skipped item eq_refl eq_refl) as [Hstep Hrow].
  split; [apply Hstep|].
  apply (Hrow Seed.db (firstn 4 (recipe_items Seed.db)) (skipn 4 (recipe_items Seed.db))
              (new_calculator Seed.db) 3 0); reflexivity.
Defined.

(** ** Termination and determinism *)

(** X1.  [calculate_recipe_cost] terminates on every recipe identifier,
    depth and calculator with a value or a Python exception (the fuel
    [4 - depth] of the model is never exhausted), and it satisfies the
    recursive equation of the method: it is its body, calling itself on
    the sub-recipes. *)
Theorem X1_resolution_terminates :
  forall recipe_id depth self,
    fst (calculate_recipe_cost recipe_id depth self) <> Raise FuelExhausted /\
    calculate_recipe_cost recipe_id depth self
    = calculate_recipe_cost_body calculate_recipe_cost recipe_id depth self.
Proof.
  intros. split; [apply fuel_never_exhausted|apply calculate_recipe_cost_unfold].
Qed.

(** X2.  A result returned on a calculator reachable on a store is the
    cost that store defines for the recipe, whatever the cache held and
    whatever the depth argument: every returning resolution of the same
    recipe, on any calculator reachable on the same store, returns the
    same cost per litre and the same details. *)
Theorem X2_results_are_determined_by_the_store :
  forall db self recipe_id depth v self',
    reachable db self ->
    calculate_recipe_cost recipe_id depth self = (Ok v, self') ->
    cost_of db recipe_id v /\
    forall other depth' v' other',
      reachable db other ->
      calculate_recipe_cost recipe_id depth' other = (Ok v', other') ->
      v' = v.
Proof.
  intros db self recipe_id depth v self' Hreach H.
  destruct (returned_cost _ _ _ _ _ _ Hreach H) as (_ & _ & Hcost).
  split; [exact Hcost|].
  intros other depth' v' other' Hother H'.
  destruct (returned_cost _ _ _ _ _ _ Hother H') as (_ & _ & Hcost').
  eapply cost_of_deterministic; eassumption.
Qed.

Lemma X2_results_are_determined_by_the_store_witness :
  exists v self',
    calculate_recipe_cost 2 0 (new_calculator Seed.db) = (Ok v, self') /\
    cost_of Seed.db 2 v /\
    fst (calculate_recipe_cost 2 2 Examples.warm) = Ok v.
Proof.
  destruct (calculate_recipe_cost 2 0 (new_calculator Seed.db))
    as [[v|e] self'] eqn:E; [|vm_compute in E; discriminate].
  destruct (X2_results_are_determined_by_the_store _ _ _ _ _ _
              (reachable_new Seed.db) E) as [Hcost Hsame].
  exists v, self'. split; [reflexivity|]. split; [exact Hcost|].
  destruct (calculate_recipe_cost 2 2 Examples.warm) as [[v'|e] other'] eqn:E';
    [|vm_compute in E'; discriminate].
  cbn [fst]. f_equal. eapply (Hsame Examples.warm 2); [|exact E'].
  apply reachable_recipe_cost, reachable_new.
Defined.

(** ** Where an exception comes from *)

Lemma hops_O_inv db a b : hops db 0 a b -> a = b.
Proof. now inversion 1. Qed.

(** An exception other than the depth cap's is caused by a record at most
    [3 - depth] sub-recipe references below the recipe of the call. *)
Lemma exception_origin fuel :
  forall recipe_id depth self e self',
    calculate_recipe_cost_fuel fuel recipe_id depth self = (Raise e, self') ->
    e = FuelExhausted \/
    (exists r, e = RecursionError r) \/
    (depth <= 3 /\
     exists k r, Z.of_nat k <= 3 - depth /\ hops (conn self) k recipe_id r /\
                 raised_at (conn self) e r).
Proof.
  assert (Hhere : forall recipe_id depth self e,
             depth <= 3 -> raised_at (conn self) e recipe_id ->
             depth <= 3 /\
             exists k r, Z.of_nat k <= 3 - depth /\ hops (conn self) k recipe_id r /\
                         raised_at (conn self) e r).
  { intros recipe_id depth self e Hd Hat. split; [exact Hd|].
    exists 0%nat, recipe_id. split; [lia|]. split; [constructor|exact Hat]. }
  induction fuel as [|fuel IH]; intros recipe_id depth self e self';
    rewrite calculate_recipe_cost_fuel_eq, calculate_recipe_cost_body_eq.
  all: destruct (3 <? depth) eqn:Hd; [intros [= <- _]; right; left; eauto|].
  all: apply Z.ltb_ge in Hd.
  all: destruct (recipe_cache self !! recipe_id); [discriminate|]; cbn zeta.
  all: destruct (recipes (conn self) !! recipe_id) as [recipe|] eqn:Hr.
  2,4: destruct (sqlite_integer recipe_id) eqn:Hfits; intros [= <- _]; right; right;
    apply (Hhere recipe_id depth self _ Hd); cbn [raised_at]; auto.
  all: destruct (for_each _ _ _ _) as [[a|e0] s3] eqn:Hloop.
  1,3: destruct (calc_cost_per_liter _ _ _ _) eqn:Hc; [discriminate|];
    intros [= <- _]; right; right; apply (Hhere recipe_id depth self _ Hd);
    pose proof (calc_cost_per_liter_raises _ _ _ _ _ Hc) as ->;
    unfold calc_cost_per_liter, Py.truediv in Hc;
    destruct (_ || _) eqn:Hg; [discriminate|];
    apply orb_false_elim in Hg as [Hb Hy];
    destruct (PrimFloat.eqb _ 0) eqn:Hz; [|discriminate];
    exists recipe; auto.
  all: intros [= -> ->].
  all: apply for_each_raise_inv in Hloop as (item & a_k & s_k & Hin & Hext & Hk);
    try (intros; apply extending_raise);
    try (intros; apply extending_calculate_recipe_cost_fuel).
  all: assert (Hconn : conn s_k = conn self)
    by (destruct Hext as [Hext _]; exact Hext).
  all: rewrite item_step_eq in Hk.
  all: destruct (Py.truthy (it_ingredient_id item)) as [iid|] eqn:Hi;
    [destruct (ingredients (conn s_k) !! iid) eqn:Hg; [discriminate Hk|];
     injection Hk as <- _; right; right; apply (Hhere recipe_id depth self _ Hd);
     rewrite Hconn in Hg; split; [rewrite Hr; eauto|]; exists item, iid; auto|].
  all: destruct (Py.truthy (it_sub_recipe_id item)) as [sid|] eqn:Hs;
    [|discriminate Hk].
  - injection Hk as <- _. now left.
  - destruct (calculate_recipe_cost_fuel fuel sid (depth + 1) s_k)
      as [[[cpl d]|e'] s'] eqn:Hsub; [discriminate Hk|].
    injection Hk as -> ->.
    assert (Hedge : sub_recipe_of (conn self) recipe_id sid) by (exists item; auto).
    apply IH in Hsub as [->|[[r ->]|(Hd' & k & r & Hk & Hh & Hat)]];
      [now left|right; left; eauto|].
    right; right. split; [exact Hd|]. exists (S k), r. rewrite Hconn in *.
    split; [lia|]. split; [econstructor; eassumption|exact Hat].
Qed.

(** A top-level call on a store that is well formed [h <= 4 - depth]
    levels deep returns, whatever the calculator holds. *)
Lemma resolvable_returns h :
  forall recipe_id depth self,
    resolvable (conn self) h recipe_id = true ->
    depth + Z.of_nat h <= 4 ->
    is_ok (fst (calculate_recipe_cost recipe_id depth self)) = true.
Proof.
  induction h as [|h IH]; intros recipe_id depth self Hres Hd; [discriminate|].
  cbn [resolvable] in Hres.
  destruct (recipes (conn self) !! recipe_id) as [recipe|] eqn:Hr; [|discriminate].
  apply andb_prop in Hres as [Hnet Hitems].
  rewrite calculate_recipe_cost_unfold, calculate_recipe_cost_body_eq.
  assert ((3 <? depth) = false) as -> by (apply Z.ltb_ge; lia).
  destruct (recipe_cache self !! recipe_id); [reflexivity|]. cbn zeta. rewrite Hr.
  assert (Hloop : forall items a s,
             conn s = conn self ->
             forallb (item_resolvable (conn self) (resolvable (conn self) h)) items
             = true ->
             is_ok (fst (for_each (item_step calculate_recipe_cost depth) items a s))
             = true).
  { induction items as [|item items IHitems]; intros a s Hs Hall; [reflexivity|].
    cbn [forallb] in Hall. apply andb_prop in Hall as [Hitem Hall].
    unfold item_resolvable in Hitem. rewrite for_each_cons, item_step_eq.
    destruct (Py.truthy (it_ingredient_id item)) as [iid|].
    - apply bool_decide_eq_true in Hitem as [ing Hing]. rewrite Hs, Hing.
      now apply IHitems.
    - destruct (Py.truthy (it_sub_recipe_id item)) as [sid|]; [|now apply IHitems].
      rewrite <- Hs in Hitem. specialize (IH sid (depth + 1) s Hitem ltac:(lia)).
      destruct (calculate_recipe_cost sid (depth + 1) s) as [[[cpl d]|e] s1] eqn:Hsub;
        [|discriminate].
      apply IHitems; [|exact Hall].
      apply extending_calculate_recipe_cost in Hsub as [-> _]. exact Hs. }
  specialize (Hloop (items_of (conn self) recipe_id) loop_init
                (executed (SelectRecipeItems recipe_id)
                   (executed (SelectRecipe recipe_id) self)) eq_refl Hitems).
  destruct (for_each _ _ _ _) as [[a|e] s3]; [|discriminate].
  unfold calc_cost_per_liter, Py.truediv. unfold net_output_ok in Hnet.
  destruct ((rc_batch_size_l recipe <=? 0)%float || (rc_yield_pct recipe <=? 0)%float);
    [reflexivity|].
  cbn [orb] in Hnet. apply negb_true_iff in Hnet. now rewrite Hnet.
Qed.

Lemma resolvable_mono db h :
  forall h' recipe_id,
    (h <= h')%nat -> resolvable db h recipe_id = true ->
    resolvable db h' recipe_id = true.
Proof.
  induction h as [|h IH]; intros h' recipe_id Hle Hres; [discriminate|].
  destruct h' as [|h']; [lia|]. cbn [resolvable] in *.
  destruct (recipes db !! recipe_id) as [recipe|]; [|discriminate].
  apply andb_prop in Hres as [Hnet Hitems]. rewrite Hnet. cbn [andb].
  rewrite forallb_forall in *. intros item Hin. specialize (Hitems item Hin).
  unfold item_resolvable in *.
  destruct (Py.truthy (it_ingredient_id item)); [exact Hitems|].
  destruct (Py.truthy (it_sub_recipe_id item)); [|reflexivity].
  apply IH; [lia|exact Hitems].
Qed.

Lemma items_resolvable_mono db h h' items :
  (h <= h')%nat ->
  forallb (item_resolvable db (resolvable db h)) items = true ->
  forallb (item_resolvable db (resolvable db h')) items = true.
Proof.
  intros Hle. rewrite !forallb_forall. intros Hall item Hin.
  specialize (Hall item Hin). unfold item_resolvable in *.
  destruct (Py.truthy (it_ingredient_id item)); [exact Hall|].
  destruct (Py.truthy (it_sub_recipe_id item)); [|reflexivity].
  eapply resolvable_mono; eassumption.
Qed.

(** A recipe that has a cost is well formed to some depth. *)
Lemma cost_of_resolvable db :
  (forall recipe_id v, cost_of db recipe_id v ->
     exists h, resolvable db h recipe_id = true) /\
  (forall items a a', items_cost db items a a' ->
     exists h, forallb (item_resolvable db (resolvable db h)) items = true).
Proof.
  apply cost_of_items_cost_ind.
  - intros recipe_id recipe a cpl Hr _ [h IH] Hc. exists (S h).
    cbn [resolvable]. rewrite Hr, IH, andb_true_r.
    unfold calc_cost_per_liter, Py.truediv in Hc. unfold net_output_ok.
    destruct ((rc_batch_size_l recipe <=? 0)%float || (rc_yield_pct recipe <=? 0)%float);
      [reflexivity|].
    now destruct (PrimFloat.eqb _ 0).
  - intros a. now exists 0%nat.
  - intros item items a a' id ing Hi Hg _ [h IH]. exists h.
    cbn [forallb]. rewrite IH, andb_true_r. unfold item_resolvable. rewrite Hi, Hg.
    apply bool_decide_eq_true. eauto.
  - intros item items a a' id cpl d Hi Hs _ [h1 IH1] _ [h2 IH2].
    exists (Nat.max h1 h2). cbn [forallb].
    rewrite (items_resolvable_mono db h2) by (exact IH2 || lia).
    rewrite andb_true_r. unfold item_resolvable. rewrite Hi, Hs.
    apply (resolvable_mono db h1); [lia|exact IH1].
  - intros item items a a' Hi Hs _ [h IH]. exists h.
    cbn [forallb]. rewrite IH, andb_true_r. unfold item_resolvable. now rewrite Hi, Hs.
Qed.

Lemma resolvable_sub_recipe db h a b :
  resolvable db (S h) a = true -> sub_recipe_of db a b -> resolvable db h b = true.
Proof.
  cbn [resolvable]. destruct (recipes db !! a); [|discriminate].
  intros [_ Hitems]%andb_prop (item & Hin & Hi & Hs).
  rewrite forallb_forall in Hitems. specialize (Hitems item Hin).
  unfold item_resolvable in Hitems. now rewrite Hi, Hs in Hitems.
Qed.

Lemma resolvable_hops db n a b :
  hops db n a b ->
  forall h, resolvable db h a = true -> resolvable db (h - n) b = true.
Proof.
  induction 1 as [a|n a a' b Hedge _ IH]; intros h Hres.
  - now rewrite Nat.sub_0_r.
  - destruct h as [|h]; [discriminate|]. cbn [Nat.sub]. apply IH.
    eapply resolvable_sub_recipe; eassumption.
Qed.

Lemma resolvable_acyclic db h :
  forall recipe_id, resolvable db h recipe_id = true -> ~ reaches db recipe_id recipe_id.
Proof.
  induction h as [h IH] using lt_wf_ind. intros recipe_id Hres [n Hn].
  destruct h as [|h]; [discriminate|].
  apply (IH (S h - S n)%nat ltac:(lia) recipe_id); [|now exists n].
  now apply (resolvable_hops _ _ _ _ Hn).
Qed.

(** X3.  When [calculate_recipe_cost] raises, the exception is a
    [RecursionError], a [ValueError] for a recipe, a [TypeError], a
    [ZeroDivisionError] or the [OverflowError] of binding an identifier
    that does not fit a SQLite INTEGER, and the store shows why: a
    [RecursionError] names the recipe of the call if [depth > 3], else
    the recipe [4 - depth] sub-recipe references below; any other
    exception is caused at most [3 - depth] references below the recipe
    of the call, by a recipe that is absent (the one the [ValueError]
    names when its identifier fits a SQLite INTEGER; the [OverflowError]
    when it does not), by an item whose ingredient is absent
    ([TypeError]), or by a net output of zero past the guard
    ([ZeroDivisionError]). *)
Theorem X3_exceptions_of_recipe_resolution :
  forall recipe_id depth self e self',
    calculate_recipe_cost recipe_id depth self = (Raise e, self') ->
    match e with
    | RecursionError r =>
        (3 < depth /\ r = recipe_id) \/
        (depth <= 3 /\ hops (conn self) (Z.to_nat (4 - depth)) recipe_id r)
    | ValueError_recipe _ | TypeError_NoneType | ZeroDivisionError
    | OverflowError_bind =>
        depth <= 3 /\
        exists k r, Z.of_nat k <= 3 - depth /\ hops (conn self) k recipe_id r /\
                    raised_at (conn self) e r
    | _ => False
    end.
Proof.
  intros recipe_id depth self e self' H.
  pose proof (fuel_never_exhausted recipe_id depth self) as Hfuel.
  rewrite H in Hfuel. cbn [fst] in Hfuel.
  pose proof (exception_origin _ _ _ _ _ _ H) as [->|[[r ->]|(Hd & k & r & Hk & Hh & Hat)]].
  - congruence.
  - now apply recursion_error_origin in H.
  - destruct e; try (now destruct Hat); split; eauto.
Qed.

Lemma X3_exceptions_of_recipe_resolution_witness :
  (exists k r, Z.of_nat k <= 3 /\ hops Examples.dangling_db k 5 r /\
               r = 98 /\ recipes Examples.dangling_db !! r = None) /\
  (exists k r item id,
      Z.of_nat k <= 3 /\ hops Examples.dangling_db k 4 r /\
      In item (items_of Examples.dangling_db r) /\
      Py.truthy (it_ingredient_id item) = Some id /\
      ingredients Examples.dangling_db !! id = None) /\
  (fst (calculate_recipe_cost (2 ^ 63) 0 (new_calculator Seed.db))
   = Raise OverflowError_bind /\
   exists k r, hops Seed.db k (2 ^ 63) r /\ sqlite_integer r = false).
Proof.
  split; [|split].
  - pose proof (X3_exceptions_of_recipe_resolution 5 0
                  (new_calculator Examples.dangling_db) (ValueError_recipe 98)
                  (snd (calculate_recipe_cost 5 0 (new_calculator Examples.dangling_db))))
      as H.
    destruct H as (_ & k & r & Hk & Hh & <- & Hr & _); [vm_compute; reflexivity|].
    exists k, 98. repeat split; assumption || lia.
  - pose proof (X3_exceptions_of_recipe_resolution 4 0
                  (new_calculator Examples.dangling_db) TypeError_NoneType
                  (snd (calculate_recipe_cost 4 0 (new_calculator Examples.dangling_db))))
      as H.
    destruct H as (_ & k & r & Hk & Hh & _ & item & id & Hin & Hi & Hg);
      [vm_compute; reflexivity|].
    exists k, r, item, id. repeat split; assumption || lia.
  - split; [vm_compute; reflexivity|].
    pose proof (X3_exceptions_of_recipe_resolution (2 ^ 63) 0
                  (new_calculator Seed.db) OverflowError_bind
                  (snd (calculate_recipe_cost (2 ^ 63) 0 (new_calculator Seed.db))))
      as H.
    destruct H as (_ & k & r & _ & Hh & _ & Hfits); [vm_compute; reflexivity|].
    exists k, r. split; assumption.
Defined.

(** X4.  A store is well formed below a recipe to [h] levels when the
    recipe exists, its net output does not make [calc_cost_per_liter]
    raise, the ingredients its items name exist, and its sub-recipes are
    well formed to [h - 1] levels.  If so and [depth + h <= 4], the call
    returns on every calculator connected to the store, whatever its
    cache holds.  Conversely, a recipe for which a call returns on a
    reachable calculator is well formed to some number of levels, and no
    cycle of sub-recipe references passes through it.  That number of
    levels can exceed [4 - depth], because a sub-recipe found in the
    cache is not resolved again: on [shared_db] the top-level call for
    recipe 1 returns on a new calculator, and recipe 1 is well formed to
    six levels, not to four. *)
Theorem X4_resolution_returns_on_well_formed_stores :
  (forall h recipe_id depth self,
      resolvable (conn self) h recipe_id = true ->
      depth + Z.of_nat h <= 4 ->
      is_ok (fst (calculate_recipe_cost recipe_id depth self)) = true) /\
  (forall db self recipe_id depth v self',
      reachable db self ->
      calculate_recipe_cost recipe_id depth self = (Ok v, self') ->
      (exists h, resolvable db h recipe_id = true) /\
      ~ reaches db recipe_id recipe_id) /\
  (is_ok (fst (calculate_recipe_cost 1 0 (new_calculator Examples.shared_db))) = true /\
   resolvable Examples.shared_db 4 1 = false /\
   resolvable Examples.shared_db 6 1 = true).
Proof.
  split; [|split].
  - intros h. apply resolvable_returns.
  - intros db self recipe_id depth v self' Hreach H.
    destruct (returned_cost _ _ _ _ _ _ Hreach H) as (_ & _ & Hcost).
    apply (proj1 (cost_of_resolvable db)) in Hcost as [h Hh].
    split; [now exists h|]. eapply resolvable_acyclic; eassumption.
  - repeat split; vm_compute; reflexivity.
Qed.

Lemma X4_resolution_returns_on_well_formed_stores_witness :
  is_ok (fst (calculate_recipe_cost 3 1 Examples.warm)) = true /\
  exists h, resolvable Seed.db h 3 = true.
Proof.
  split.
  - apply (proj1 X4_resolution_returns_on_well_formed_stores 3%nat 3 1 Examples.warm).
    + vm_compute. reflexivity.
    + lia.
  - destruct (calculate_recipe_cost 3 0 (new_calculator Seed.db))
      as [[v|e] self'] eqn:E; [|vm_compute in E; discriminate].
    exact (proj1 (proj1 (proj2 X4_resolution_returns_on_well_formed_stores) Seed.db
                    (new_calculator Seed.db) 3 0 v self' (reachable_new _) E)).
Defined.

(** ** The depth argument *)

Lemma for_each_returns_alike rec1 rec2 depth1 depth2 items :
  (forall id s v s1,
      rec1 id (depth1 + 1) s = (Ok v, s1) -> rec2 id (depth2 + 1) s = (Ok v, s1)) ->
  forall a self a' self',
    for_each (item_step rec1 depth1) items a self = (Ok a', self') ->
    for_each (item_step rec2 depth2) items a self = (Ok a', self').
Proof.
  intros Hrec. induction items as [|item items IH]; intros a self a' self';
    [exact id|].
  rewrite !for_each_cons, !item_step_eq.
  destruct (Py.truthy (it_ingredient_id item)) as [iid|].
  - destruct (ingredients (conn self) !! iid); [apply IH|discriminate].
  - destruct (Py.truthy (it_sub_recipe_id item)) as [sid|]; [|apply IH].
    destruct (rec1 sid (depth1 + 1) self) as [[[cpl d]|e] s1] eqn:Hsub;
      [|discriminate].
    rewrite (Hrec _ _ _ _ Hsub). apply IH.
Qed.

(** A call that returns would have returned the same, and left the same
    calculator, with more fuel and at a smaller depth. *)
Lemma returns_at_smaller_depth fuel :
  forall fuel' recipe_id depth depth' self v self',
    (fuel <= fuel')%nat -> depth' <= depth ->
    calculate_recipe_cost_fuel fuel recipe_id depth self = (Ok v, self') ->
    calculate_recipe_cost_fuel fuel' recipe_id depth' self = (Ok v, self').
Proof.
  induction fuel as [|fuel IH]; intros fuel' recipe_id depth depth' self v self' Hf Hd;
    rewrite !calculate_recipe_cost_fuel_eq, !calculate_recipe_cost_body_eq.
  all: destruct (3 <? depth) eqn:Hdepth; [discriminate|]; apply Z.ltb_ge in Hdepth.
  all: assert ((3 <? depth') = false) as -> by (apply Z.ltb_ge; lia).
  all: destruct (recipe_cache self !! recipe_id); [exact id|]; cbn zeta.
  all: destruct (recipes (conn self) !! recipe_id) as [recipe|];
    [|destruct (sqlite_integer _); discriminate].
  all: destruct (for_each _ _ _ _) as [[a|e] s3] eqn:Hloop; [|discriminate].
  all: eapply for_each_returns_alike in Hloop; [rewrite Hloop; exact id|].
  - intros id s w s1. discriminate.
  - destruct fuel' as [|fuel']; [lia|]. intros id s w s1.
    rewrite <- !calculate_recipe_cost_fuel_eq. apply IH; lia.
Qed.

(** X5.  The depth argument only decides whether the cap is hit: when a
    call returns, the call with any smaller depth on the same calculator
    returns the same result and leaves the same calculator. *)
Theorem X5_depth_only_matters_for_the_cap :
  forall recipe_id depth depth' self v self',
    depth' <= depth ->
    calculate_recipe_cost recipe_id depth self = (Ok v, self') ->
    calculate_recipe_cost recipe_id depth' self = (Ok v, self').
Proof.
  intros recipe_id depth depth' self v self' Hd.
  apply returns_at_smaller_depth; [lia|exact Hd].
Qed.

Lemma X5_depth_only_matters_for_the_cap_witness :
  calculate_recipe_cost 3 (-7) (new_calculator Seed.db)
  = calculate_recipe_cost 3 1 (new_calculator Seed.db).
Proof.
  destruct (calculate_recipe_cost 3 1 (new_calculator Seed.db))
    as [[v|e] self'] eqn:E; [|vm_compute in E; discriminate].
  apply (X5_depth_only_matters_for_the_cap 3 1 (-7) _ v self'); [lia|exact E].
Defined.

(** ** Products *)

Lemma returned_cost_invariant db self recipe_id depth v self' :
  invariant db self ->
  calculate_recipe_cost recipe_id depth self = (Ok v, self') ->
  invariant db self' /\ recipe_cache self' !! recipe_id = Some v /\
  cost_of db recipe_id v.
Proof.
  intros Hinv H.
  pose proof (keeping_calculate_recipe_cost _ _ _ _ _ _ Hinv H) as Hinv'.
  pose proof (returned_is_cached _ _ _ _ _ _ H) as Hc.
  split; [exact Hinv'|split; [exact Hc|]].
  destruct Hinv' as (<- & Hs & _). now apply Hs.
Qed.

(** What a returned product calculation is made of. *)
Lemma calculate_product_returns product_id self res self' :
  calculate_product product_id self = (Ok res, self') ->
  exists product packaging cost_per_liter recipe_details s2 target_price ratio,
    products (conn self) !! product_id = Some product /\
    calculate_recipe_cost (pr_recipe_id product) 0
      (executed (SelectProduct product_id) self)
      = (Ok (cost_per_liter, recipe_details), s2) /\
    packaging_types (conn self) !! pr_packaging_id product = Some packaging /\
    calc_target_price
      (calc_cost_per_unit cost_per_liter (pk_size_l packaging) (pk_price_jar packaging)
         (pk_price_lid packaging) (pk_price_label packaging))
      (pr_markup_factor product) = Ok target_price /\
    Py.truediv
      (target_price
       - calc_cost_per_unit cost_per_liter (pk_size_l packaging) (pk_price_jar packaging)
           (pk_price_lid packaging) (pk_price_label packaging))%float
      target_price = Ok ratio /\
    res = product_result product_id product packaging cost_per_liter recipe_details
            target_price ratio /\
    self' = executed (SelectPackaging (pr_packaging_id product)) s2.
Proof.
  rewrite calculate_product_eq. cbn zeta.
  destruct (products (conn self) !! product_id) as [product|];
    [|destruct (sqlite_integer _); discriminate].
  destruct (calculate_recipe_cost _ 0 _) as [[[cpl rd]|e] s2] eqn:Hcall; [|discriminate].
  pose proof (extending_calculate_recipe_cost _ _ _ _ _ Hcall) as [Hconn _].
  cbn [conn executed] in Hconn. rewrite Hconn.
  destruct (packaging_types (conn self) !! _) as [packaging|] eqn:Hpk; [|discriminate].
  destruct (calc_target_price _ _) as [t|e] eqn:Ht; [|discriminate].
  destruct (Py.truediv _ _) as [ratio|e] eqn:Hratio; [|discriminate].
  intros [= <- <-]. exists product, packaging, cpl, rd, s2, t, ratio.
  repeat (split; [reflexivity || assumption|]). reflexivity.
Qed.

(** X6.  A product calculation that returns on a reachable calculator
    reports the cost the store defines for the product's recipe (which is
    in the cache afterwards), the packaging row of the store, a cost per
    unit of [cost_per_liter * size_l + jar + lid + label], the target
    price [calc_target_price] gives for it, and a packaging cost of
    [jar + lid + label]; and every returning calculation of the same
    product on any calculator reachable on the same store returns the
    same dictionary. *)
Theorem X6_product_results_are_determined_by_the_store :
  forall db self product_id res self',
    reachable db self ->
    calculate_product product_id self = (Ok res, self') ->
    (exists product packaging,
        products db !! product_id = Some product /\
        packaging_types db !! pr_packaging_id product = Some packaging /\
        cost_of db (pr_recipe_id product)
          (pc_recipe_cost_per_liter res, pc_recipe_details res) /\
        recipe_cache self' !! pr_recipe_id product
          = Some (pc_recipe_cost_per_liter res, pc_recipe_details res) /\
        pc_cost_per_unit res
          = (pc_recipe_cost_per_liter res * pk_size_l packaging + pk_price_jar packaging
             + pk_price_lid packaging + pk_price_label packaging)%float /\
        pc_packaging_cost res
          = (pk_price_jar packaging + pk_price_lid packaging
             + pk_price_label packaging)%float /\
        calc_target_price (pc_cost_per_unit res) (pr_markup_factor product)
          = Ok (pc_target_price res)) /\
    (forall other res' other',
        reachable db other ->
        calculate_product product_id other = (Ok res', other') ->
        res' = res).
Proof.
  intros db self product_id res self' Hreach H.
  pose proof (reachable_invariant _ _ Hreach) as Hinv.
  apply calculate_product_returns in H
    as (product & pk & cpl & rd & s2 & t & ratio & Hp & Hcall & Hpk & Ht & Hratio & -> & ->).
  destruct (returned_cost_invariant db _ _ _ _ _
              (Hinv : invariant db (executed (SelectProduct product_id) self)) Hcall)
    as (Hinv2 & Hc & Hcost).
  assert (Hdb : conn self = db) by apply Hinv. rewrite Hdb in *.
  split.
  - exists product, pk. cbn [product_result pc_recipe_cost_per_liter pc_recipe_details
      pc_cost_per_unit pc_packaging_cost pc_target_price executed recipe_cache].
    repeat (split; [assumption || reflexivity|]). exact Ht.
  - intros other res' other' Hother H'.
    pose proof (reachable_invariant _ _ Hother) as Hinv'.
    apply calculate_product_returns in H'
      as (product' & pk' & cpl' & rd' & s2' & t' & ratio' & Hp' & Hcall' & Hpk' & Ht'
          & Hratio' & -> & ->).
    assert (Hdb' : conn other = db) by apply Hinv'. rewrite Hdb' in *.
    assert (product' = product) as -> by congruence.
    assert (pk' = pk) as -> by congruence.
    destruct (returned_cost_invariant db _ _ _ _ _
                (Hinv' : invariant db (executed (SelectProduct product_id) other))
                Hcall') as (_ & _ & Hcost').
    pose proof (cost_of_deterministic _ _ _ _ Hcost' Hcost) as [= -> ->].
    assert (t' = t) as -> by congruence.
    assert (ratio' = ratio) as -> by congruence. reflexivity.
Qed.

Lemma X6_product_results_are_determined_by_the_store_witness :
  exists res self',
    calculate_product 4 (new_calculator Seed.db) = (Ok res, self') /\
    fst (calculate_product 4 (snd (calculate_product 2 Examples.warm))) = Ok res /\
    pc_target_price res = 66.599999999999994%float.
Proof.
  destruct (calculate_product 4 (new_calculator Seed.db)) as [[res|e] self'] eqn:E;
    [|vm_compute in E; discriminate].
  destruct (X6_product_results_are_determined_by_the_store _ _ _ _ _
              (reachable_new Seed.db) E) as [_ Hsame].
  exists res, self'. split; [reflexivity|].
  destruct (calculate_product 4 (snd (calculate_product 2 Examples.warm)))
    as [[res'|e] other'] eqn:E'; [|vm_compute in E'; discriminate].
  split.
  - cbn [fst]. f_equal. eapply Hsame; [|exact E'].
    apply reachable_product, reachable_recipe_cost, reachable_new.
  - vm_compute in E. now injection E as <- _.
Defined.

(** X7.  Products that share a recipe resolve it once: after a product
    calculation whose recipe resolution returned (whether or not the
    calculation itself then returned), the calculation of any product of
    the same recipe executes exactly two statements, on [products] and on
    [packaging_types], leaves the cache as it is, and, when it returns,
    reports the recipe cost and details the first resolution cached. *)
Theorem X7_products_share_resolved_recipes :
  forall self first second product1 product2 v s2,
    products (conn self) !! first = Some product1 ->
    products (conn self) !! second = Some product2 ->
    pr_recipe_id product2 = pr_recipe_id product1 ->
    calculate_recipe_cost (pr_recipe_id product1) 0 (executed (SelectProduct first) self)
      = (Ok v, s2) ->
    let self1 := snd (calculate_product first self) in
    let self2 := snd (calculate_product second self1) in
    queries self2
      = SelectPackaging (pr_packaging_id product2) :: SelectProduct second
        :: queries self1 /\
    recipe_cache self2 = recipe_cache self1 /\
    forall res, fst (calculate_product second self1) = Ok res ->
                (pc_recipe_cost_per_liter res, pc_recipe_details res) = v.
Proof.
  intros self first second product1 product2 [cpl rd] s2 Hp1 Hp2 Hsame Hcall self1 self2.
  assert (Hself1 : self1 = executed (SelectPackaging (pr_packaging_id product1)) s2).
  { subst self1. rewrite calculate_product_eq. cbn zeta. rewrite Hp1, Hcall.
    destruct (packaging_types (conn s2) !! _); [|reflexivity].
    destruct (calc_target_price _ _); [|reflexivity].
    destruct (Py.truediv _ _); reflexivity. }
  pose proof (returned_is_cached _ _ _ _ _ _ Hcall) as Hc.
  pose proof (extending_calculate_recipe_cost _ _ _ _ _ Hcall) as [Hconn _].
  cbn [conn executed] in Hconn.
  assert (Hconn1 : conn self1 = conn self) by (rewrite Hself1; exact Hconn).
  assert (Hc1 : recipe_cache self1 !! pr_recipe_id product2 = Some (cpl, rd))
    by (rewrite Hself1, Hsame; exact Hc).
  assert (Hcall2 : calculate_recipe_cost (pr_recipe_id product2) 0
                     (executed (SelectProduct second) self1)
                   = (Ok (cpl, rd), executed (SelectProduct second) self1))
    by (apply cache_hit; [lia|exact Hc1]).
  subst self2. rewrite calculate_product_eq. cbn zeta.
  rewrite Hconn1, Hp2, Hcall2. cbn [conn executed]. rewrite Hconn1.
  destruct (packaging_types (conn self) !! _) as [pk|];
    [|repeat split; discriminate].
  destruct (calc_target_price _ _) as [t|e]; [|repeat split; discriminate].
  destruct (Py.truediv _ _) as [ratio|e]; [|repeat split; discriminate].
  repeat split. now intros res [= <-].
Qed.

Lemma X7_products_share_resolved_recipes_witness :
  queries (snd (calculate_product 4 (snd (calculate_product 2 (new_calculator Seed.db)))))
  = SelectPackaging 4 :: SelectProduct 4
    :: queries (snd (calculate_product 2 (new_calculator Seed.db))).
Proof.
  destruct (products (conn (new_calculator Seed.db)) !! 2) as [p1|] eqn:Hp1;
    [|vm_compute in Hp1; discriminate].
  destruct (products (conn (new_calculator Seed.db)) !! 4) as [p2|] eqn:Hp2;
    [|vm_compute in Hp2; discriminate].
  destruct (calculate_recipe_cost (pr_recipe_id p1) 0
              (executed (SelectProduct 2) (new_calculator Seed.db)))
    as [[v|e] s2] eqn:Hcall;
    [|vm_compute in Hp1; injection Hp1 as <-; vm_compute in Hcall; discriminate].
  assert (Hsame : pr_recipe_id p2 = pr_recipe_id p1).
  { vm_compute in Hp1, Hp2. injection Hp1 as <-. now injection Hp2 as <-. }
  destruct (X7_products_share_resolved_recipes _ 2 4 _ _ _ _ Hp1 Hp2 Hsame Hcall)
    as [Hq _].
  rewrite Hq. vm_compute in Hp2. now injection Hp2 as <-.
Defined.

Lemma calc_target_price_raises cost_per_unit markup_factor e :
  calc_target_price cost_per_unit markup_factor = Raise e ->
  e = OverflowError \/ e = ValueError_nan.
Proof.
  unfold calc_target_price, Py.round, Py.int_truediv.
  destruct (Prim2SF _) as [s|s| |s m x]; try discriminate; intros [= <-]; auto.
Qed.

(** X8.  For a product that exists, whose packaging exists and whose
    recipe is well formed at most four levels deep, the calculation can
    only fail on arithmetic: its recipe resolution returns, and the call
    either returns, or raises what [round] raises on a target price that
    is not finite ([OverflowError], or [ValueError] for a NaN), or raises
    [ZeroDivisionError] because the target price is zero. *)
Theorem X8_well_formed_products_fail_on_arithmetic_only :
  forall self product_id product packaging h e self',
    products (conn self) !! product_id = Some product ->
    packaging_types (conn self) !! pr_packaging_id product = Some packaging ->
    resolvable (conn self) h (pr_recipe_id product) = true ->
    (h <= 4)%nat ->
    calculate_product product_id self = (Raise e, self') ->
    exists cost_per_liter recipe_details,
      recipe_cache self' !! pr_recipe_id product = Some (cost_per_liter, recipe_details) /\
      let cost_per_unit :=
        calc_cost_per_unit cost_per_liter (pk_size_l packaging) (pk_price_jar packaging)
          (pk_price_lid packaging) (pk_price_label packaging) in
      match calc_target_price cost_per_unit (pr_markup_factor product) with
      | Raise e' => e = e' /\ (e = OverflowError \/ e = ValueError_nan)
      | Ok target_price =>
          e = ZeroDivisionError /\ PrimFloat.eqb target_price 0 = true
      end.
Proof.
  intros self product_id product pk h e self' Hp Hpk Hres Hh.
  rewrite calculate_product_eq. cbn zeta. rewrite Hp.
  pose proof (resolvable_returns h (pr_recipe_id product) 0
                (executed (SelectProduct product_id) self) Hres ltac:(lia)) as Hok.
  destruct (calculate_recipe_cost _ 0 _) as [[[cpl rd]|e0] s2] eqn:Hcall;
    [clear Hok|discriminate].
  pose proof (extending_calculate_recipe_cost _ _ _ _ _ Hcall) as [Hconn _].
  pose proof (returned_is_cached _ _ _ _ _ _ Hcall) as Hc.
  cbn [conn executed] in Hconn. rewrite Hconn, Hpk.
  destruct (calc_target_price _ _) as [t|e1] eqn:Ht.
  - unfold Py.truediv. destruct (PrimFloat.eqb t 0) eqn:Hz; [|discriminate].
    intros [= <- <-]. exists cpl, rd. split; [exact Hc|]. cbn zeta.
    rewrite Ht. now split.
  - intros [= <- <-]. exists cpl, rd. split; [exact Hc|]. cbn zeta.
    rewrite Ht. split; [reflexivity|]. eapply calc_target_price_raises; eassumption.
Qed.

Lemma X8_well_formed_products_fail_on_arithmetic_only_witness :
  exists cost_per_liter recipe_details target_price,
    recipe_cache (snd (calculate_product 1 (new_calculator Examples.cheap_db))) !! 1
      = Some (cost_per_liter, recipe_details) /\
    calc_target_price (calc_cost_per_unit cost_per_liter 0.1 0 0 0) 3 = Ok target_price /\
    PrimFloat.eqb target_price 0 = true.
Proof.
  destruct (products (conn (new_calculator Examples.cheap_db)) !! 1)
    as [product|] eqn:Hp; [|vm_compute in Hp; discriminate].
  destruct (packaging_types (conn (new_calculator Examples.cheap_db))
              !! pr_packaging_id product) as [pk|] eqn:Hpk.
  2:{ vm_compute in Hp. injection Hp as <-. vm_compute in Hpk. discriminate. }
  destruct (X8_well_formed_products_fail_on_arithmetic_only
              (new_calculator Examples.cheap_db) 1 product pk 1 ZeroDivisionError
              (snd (calculate_product 1 (new_calculator Examples.cheap_db))) Hp Hpk)
    as (cpl & rd & Hc & Hcase).
  - vm_compute in Hp. injection Hp as <-. vm_compute. reflexivity.
  - lia.
  - vm_compute. reflexivity.
  - vm_compute in Hp. injection Hp as <-. vm_compute in Hpk. injection Hpk as <-.
    cbn [pr_recipe_id pr_markup_factor pk_size_l pk_price_jar pk_price_lid
         pk_price_label] in *.
    destruct (calc_target_price (calc_cost_per_unit cpl 0.1 0 0 0) 3) as [t|e] eqn:Ht.
    + exists cpl, rd, t. split; [exact Hc|]. split; [exact Ht|apply Hcase].
    + destruct Hcase as [[= <-] [H|H]]; discriminate H.
Defined.

(** ** Stores that agree below a recipe *)

Lemma agree_below_sub_recipe db db' a b :
  agree_below db db' a -> sub_recipe_of db a b -> agree_below db db' b.
Proof. intros Ha Hedge n r Hn. apply (Ha (S n)). econstructor; eassumption. Qed.

Section Footprint.
Variables db db' : database.
Variable self_rec : Z -> Z -> M (float * details).
Hypothesis Hext : forall id d, extending (self_rec id d).
Hypothesis Hrec : forall id d, agree_below db db' id -> transported db db' (self_rec id d).

Lemma footprint_loop recipe_id depth items :
  agree_below db db' recipe_id ->
  (forall item, In item items -> In item (items_of db recipe_id)) ->
  forall a, transported db db' (for_each (item_step self_rec depth) items a).
Proof.
  intros Hagree. destruct (Hagree 0%nat recipe_id (hops_O _ _)) as (_ & _ & Hing).
  induction items as [|item items IH]; intros Hsub a self Hconn; [reflexivity|].
  assert (Hin : In item (items_of db recipe_id)) by (apply Hsub; now left).
  assert (Hsub' : forall x, In x items -> In x (items_of db recipe_id))
    by (intros x Hx; apply Hsub; now right).
  rewrite !for_each_cons, !item_step_eq. cbn [conn reconnect].
  destruct (Py.truthy (it_ingredient_id item)) as [iid|] eqn:Hi.
  - rewrite Hconn, (Hing item iid Hin Hi).
    destruct (ingredients db !! iid); [|reflexivity].
    apply (IH Hsub' _ (executed (SelectIngredient iid) self)). exact Hconn.
  - destruct (Py.truthy (it_sub_recipe_id item)) as [sid|] eqn:Hs; [|now apply IH].
    assert (Hbelow : agree_below db db' sid)
      by (eapply agree_below_sub_recipe; [exact Hagree|]; exists item; auto).
    rewrite (Hrec sid (depth + 1) Hbelow self Hconn).
    destruct (self_rec sid (depth + 1) self) as [[[cpl d]|e] s1] eqn:Hsub1;
      cbn [fst snd]; [|reflexivity].
    apply IH; [exact Hsub'|]. apply Hext in Hsub1 as [-> _]. exact Hconn.
Qed.

Lemma footprint_body recipe_id depth :
  agree_below db db' recipe_id ->
  transported db db' (calculate_recipe_cost_body self_rec recipe_id depth).
Proof.
  intros Hagree self Hconn. rewrite !calculate_recipe_cost_body_eq.
  destruct (3 <? depth); [reflexivity|]. cbn [recipe_cache conn reconnect].
  destruct (recipe_cache self !! recipe_id); [reflexivity|]. cbn zeta.
  destruct (Hagree 0%nat recipe_id (hops_O _ _)) as (Hrc & Hitems & _).
  rewrite Hconn, Hrc, Hitems.
  destruct (recipes db !! recipe_id) as [recipe|];
    [|destruct (sqlite_integer recipe_id); reflexivity].
  pose proof (footprint_loop recipe_id depth (items_of db recipe_id) Hagree
                (fun _ H => H) loop_init
                (executed (SelectRecipeItems recipe_id)
                   (executed (SelectRecipe recipe_id) self)) Hconn) as Hloop.
  change (executed (SelectRecipeItems recipe_id)
            (executed (SelectRecipe recipe_id) (reconnect db' self)))
    with (reconnect db'
            (executed (SelectRecipeItems recipe_id)
               (executed (SelectRecipe recipe_id) self))).
  rewrite Hloop. clear Hloop.
  destruct (for_each (item_step self_rec depth) (items_of db recipe_id) loop_init
              (executed (SelectRecipeItems recipe_id)
                 (executed (SelectRecipe recipe_id) self))) as [[a|e] s3];
    cbn [fst snd]; [|reflexivity].
  destruct (calc_cost_per_liter _ _ _ _); reflexivity.
Qed.
End Footprint.

Lemma footprint_calculate_recipe_cost_fuel db db' fuel :
  forall recipe_id depth,
    agree_below db db' recipe_id ->
    transported db db' (calculate_recipe_cost_fuel fuel recipe_id depth).
Proof.
  induction fuel as [|fuel IH]; intros recipe_id depth Hagree;
    rewrite calculate_recipe_cost_fuel_eq; apply footprint_body; auto;
    try (intros; apply extending_calculate_recipe_cost_fuel);
    try (intros; apply extending_raise).
  intros id d _ self _. reflexivity.
Qed.

Lemma unused_agree_below db ingredients' recipe_id id :
  unused_below db recipe_id id ->
  (forall i, i <> id -> ingredients' !! i = ingredients db !! i) ->
  agree_below db (with_ingredients db ingredients') recipe_id.
Proof.
  intros Hunused Hsame n r Hn. split; [reflexivity|]. split; [reflexivity|].
  intros item i Hin Hi. cbn [ingredients with_ingredients]. apply Hsame.
  intros ->. exact (Hunused n r item Hn Hin Hi).
Qed.

(** X9.  The resolution of a recipe reads the store only below the
    recipe: on a calculator moved to a store that holds the same recipes,
    items and ingredients wherever sub-recipe references lead from the
    recipe, the call returns or raises the same, caches the same and
    executes the same statements.  In particular the ingredients table
    may change in any way at an ingredient that no recipe below uses (a
    price update, a new row, a removed row). *)
Theorem X9_resolution_reads_the_store_below_the_recipe_only :
  (forall db db' self recipe_id depth,
      conn self = db ->
      agree_below db db' recipe_id ->
      calculate_recipe_cost recipe_id depth (reconnect db' self)
      = (fst (calculate_recipe_cost recipe_id depth self),
         reconnect db' (snd (calculate_recipe_cost recipe_id depth self)))) /\
  (forall db ingredients' self recipe_id id depth,
      conn self = db ->
      unused_below db recipe_id id ->
      (forall i, i <> id -> ingredients' !! i = ingredients db !! i) ->
      let db' := with_ingredients db ingredients' in
      calculate_recipe_cost recipe_id depth (reconnect db' self)
      = (fst (calculate_recipe_cost recipe_id depth self),
         reconnect db' (snd (calculate_recipe_cost recipe_id depth self)))).
Proof.
  split.
  - intros db db' self recipe_id depth Hconn Hagree.
    now apply (footprint_calculate_recipe_cost_fuel db db').
  - intros db ingredients' self recipe_id id depth Hconn Hunused Hsame db'.
    apply (footprint_calculate_recipe_cost_fuel db db'); [|exact Hconn].
    now apply (unused_agree_below db ingredients' recipe_id id).
Qed.

Lemma X9_resolution_reads_the_store_below_the_recipe_only_witness :
  calculate_recipe_cost 1 0
    (reconnect
       (with_ingredients Examples.cheap_db
          (<[ 2 := Seed.ing "Salz" "kg" 1 "Saline" ]> (ingredients Examples.cheap_db)))
       (new_calculator Examples.cheap_db))
  = (fst (calculate_recipe_cost 1 0 (new_calculator Examples.cheap_db)),
     reconnect
       (with_ingredients Examples.cheap_db
          (<[ 2 := Seed.ing "Salz" "kg" 1 "Saline" ]> (ingredients Examples.cheap_db)))
       (snd (calculate_recipe_cost 1 0 (new_calculator Examples.cheap_db)))).
Proof.
  apply (proj2 X9_resolution_reads_the_store_below_the_recipe_only
           Examples.cheap_db
           (<[ 2 := Seed.ing "Salz" "kg" 1 "Saline" ]> (ingredients Examples.cheap_db))
           (new_calculator Examples.cheap_db) 1 2 0).
  - reflexivity.
  - intros n r item Hn Hin. inversion Hn as [a|n' a b c Hedge Hrest]; subst.
    + vm_compute in Hin. destruct Hin as [<-|[]]. vm_compute. discriminate.
    + destruct Hedge as (it & Hit & Hnone & _). vm_compute in Hit.
      destruct Hit as [<-|[]]. vm_compute in Hnone. discriminate.
  - intros i Hi. apply lookup_insert_ne. congruence.
Defined.

(** ** Signs of the numbers *)

Lemma shr_1_nonneg mrs : 0 <= shr_m mrs -> 0 <= shr_m (shr_1 mrs).
Proof.
  destruct mrs as [[|[p|p|]|[p|p|]] r s]; cbn; lia.
Qed.

Lemma iter_pos_shr_1_nonneg p :
  forall mrs, 0 <= shr_m mrs -> 0 <= shr_m (SpecFloat.iter_pos shr_1 p mrs).
Proof.
  induction p as [p IH|p IH|]; intros mrs H; cbn [SpecFloat.iter_pos].
  - apply IH, IH, shr_1_nonneg, H.
  - apply IH, IH, H.
  - apply shr_1_nonneg, H.
Qed.

Lemma shr_fexp_nonneg m e l :
  0 <= m -> 0 <= shr_m (fst (shr_fexp prec emax m e l)).
Proof.
  intros H. unfold shr_fexp, shr.
  assert (H0 : 0 <= shr_m (shr_record_of_loc m l)) by (destruct l as [|[]]; exact H).
  destruct (_ - e); cbn [fst]; auto using iter_pos_shr_1_nonneg.
Qed.

Lemma round_nearest_even_nonneg m l : 0 <= m -> 0 <= round_nearest_even m l.
Proof.
  intros H. unfold round_nearest_even. destruct l as [|[]]; try lia.
  destruct (Z.even m); lia.
Qed.

Lemma binary_round_aux_signed s mx ex lx :
  0 <= mx -> SF_signed s (binary_round_aux prec emax s mx ex lx).
Proof.
  intros H. unfold binary_round_aux.
  pose proof (shr_fexp_nonneg mx ex lx H) as H1.
  destruct (shr_fexp prec emax mx ex lx) as [mrs e']. cbn [fst] in H1.
  pose proof (shr_fexp_nonneg _ e' loc_Exact
                (round_nearest_even_nonneg _ (loc_of_shr_record mrs) H1)) as H2.
  destruct (shr_fexp prec emax _ e' loc_Exact) as [mrs' e'']. cbn [fst] in H2.
  destruct (shr_m mrs'); [reflexivity| |lia].
  destruct (Z.leb _ _); reflexivity.
Qed.

Lemma binary_round_signed s m e : SF_signed s (binary_round prec emax s m e).
Proof.
  unfold binary_round. destruct (shl_align _ _ _).
  apply binary_round_aux_signed. lia.
Qed.

Lemma binary_normalize_nonneg k e :
  0 <= k -> SF_signed false (binary_normalize prec emax k e false).
Proof.
  destruct k; [reflexivity| |lia]. intros _. apply binary_round_signed.
Qed.

Lemma binary_normalize_not_nan k e :
  binary_normalize prec emax k e false <> S754_nan.
Proof.
  destruct k; [discriminate| |];
    [pose proof (binary_round_signed false p e) as H
    |pose proof (binary_round_signed true p e) as H];
    cbn [binary_normalize]; intros E; rewrite E in H; exact H.
Qed.

Lemma SFdiv_core_binary_nonneg m1 e1 m2 e2 :
  0 <= fst (fst (SFdiv_core_binary prec emax (Zpos m1) e1 (Zpos m2) e2)).
Proof.
  unfold SFdiv_core_binary.
  set (s := _ - _ - _).
  set (m' := match s with Z0 => _ | Zpos _ => _ | Zneg _ => _ end).
  assert (Hm : 0 <= m').
  { subst m'. destruct s; try lia. apply Z.shiftl_nonneg. lia. }
  pose proof (Z.div_eucl_eq m' (Zpos m2) ltac:(lia)) as Heq.
  pose proof (Z.mod_pos_bound m' (Zpos m2) ltac:(lia)) as Hr.
  unfold Z.modulo in Hr.
  destruct (Z.div_eucl m' (Zpos m2)) as [q r]. cbn [fst]. nia.
Qed.

Lemma not_negative_spec x : not_negative x <-> SF_not_negative (Prim2SF x).
Proof.
  unfold not_negative. rewrite ltb_spec.
  change (Prim2SF 0) with (S754_zero false).
  destruct (Prim2SF x) as [[|]|[|]| |[|] m e]; cbn; intuition discriminate.
Qed.

Lemma signed_not_negative x : SF_signed false x -> SF_not_negative x.
Proof. destruct x as [[|]|[|]| |[|] m e]; cbn; intuition discriminate. Qed.

Lemma SF_not_negative_add x y :
  SF_not_negative x -> SF_not_negative y -> SF_not_negative (SF64add x y).
Proof.
  destruct x as [[|]|[|]| |[|] m e]; try contradiction;
    destruct y as [[|]|[|]| |[|] m' e']; try contradiction; try exact (fun _ _ => I).
  intros _ _. apply signed_not_negative.
  unfold SF64add, SFadd. cbn [cond_Zopp]. apply binary_normalize_nonneg. lia.
Qed.

Lemma SF_not_negative_mul x y :
  SF_not_negative x -> SF_not_negative y -> SF_not_negative (SF64mul x y).
Proof.
  destruct x as [[|]|[|]| |[|] m e]; try contradiction;
    destruct y as [[|]|[|]| |[|] m' e']; try contradiction; try exact (fun _ _ => I).
  intros _ _. apply signed_not_negative.
  unfold SF64mul, SFmul. cbn [xorb]. apply binary_round_aux_signed. lia.
Qed.

Lemma SF_not_negative_div x y :
  SF_not_negative x -> SF_not_negative y -> SFeqb y (S754_zero false) = false ->
  SF_not_negative (SF64div x y).
Proof.
  destruct x as [[|]|[|]| |[|] m e]; try contradiction;
    destruct y as [[|]|[|]| |[|] m' e']; try contradiction; try discriminate;
    try exact (fun _ _ _ => I).
  intros _ _ _. apply signed_not_negative.
  unfold SF64div, SFdiv. cbn [xorb].
  pose proof (SFdiv_core_binary_nonneg m e m' e') as H.
  destruct (SFdiv_core_binary _ _ _ _ _ _) as [[mz ez] lz]. cbn [fst] in H.
  now apply binary_round_aux_signed.
Qed.

Lemma not_negative_add x y :
  not_negative x -> not_negative y -> not_negative (x + y)%float.
Proof.
  rewrite !not_negative_spec, add_spec. apply SF_not_negative_add.
Qed.

Lemma not_negative_mul x y :
  not_negative x -> not_negative y -> not_negative (x * y)%float.
Proof.
  rewrite !not_negative_spec, mul_spec. apply SF_not_negative_mul.
Qed.

Lemma not_negative_div x y :
  not_negative x -> not_negative y -> (y =? 0)%float = false ->
  not_negative (x / y)%float.
Proof.
  rewrite !not_negative_spec, div_spec, FloatAxioms.eqb_spec.
  apply SF_not_negative_div.
Qed.

Lemma not_leb_not_negative x : (x <=? 0)%float = false -> not_negative x.
Proof.
  unfold not_negative. rewrite leb_spec, ltb_spec.
  change (Prim2SF 0) with (S754_zero false).
  destruct (Prim2SF x) as [[|]|[|]| |[|] m e]; cbn; intuition discriminate.
Qed.

Lemma Prim2SF_SF2Prim_signed s x :
  SF_signed s x -> SF_signed s (Prim2SF (SF2Prim x)).
Proof.
  destruct x as [s'|s'| |s' m e]; cbn [SF_signed]; try contradiction; intros ->.
  - destruct s; reflexivity.
  - destruct s; reflexivity.
  - cbn [SF2Prim].
    assert (H : SF_signed false (Prim2SF (Z.ldexp (of_uint63 (Uint63.of_Z (Zpos m))) e))).
    { unfold Z.ldexp. rewrite ldshiftexp_spec, of_uint63_spec.
      pose proof (Uint63.to_Z_bounded (Uint63.of_Z (Z.pos m))) as [Hb _].
      pose proof (binary_normalize_nonneg _ 0 Hb) as Hn.
      destruct (binary_normalize _ _ _ _ _) as [s'|s'| |s' m' e'];
        cbn [SF_signed SFldexp] in *; try assumption.
      subst s'. apply binary_round_signed. }
    destruct s; [|exact H]. rewrite opp_spec.
    destruct (Prim2SF _) as [s'|s'| |s' m' e']; cbn in *; try contradiction;
      now subst.
Qed.

Lemma not_negative_zero : not_negative 0.
Proof. reflexivity. Qed.

Lemma calc_cost_per_liter_not_negative ingredients_cost energy_cost
    batch_size_l yield_pct cost_per_liter :
  not_negative ingredients_cost -> not_negative energy_cost ->
  calc_cost_per_liter ingredients_cost energy_cost batch_size_l yield_pct
    = Ok cost_per_liter ->
  not_negative cost_per_liter.
Proof.
  intros Hi He. unfold calc_cost_per_liter, Py.truediv.
  destruct (batch_size_l <=? 0)%float eqn:Hb; cbn [orb].
  { intros [= <-]. exact not_negative_zero. }
  destruct (yield_pct <=? 0)%float eqn:Hy.
  { intros [= <-]. exact not_negative_zero. }
  destruct (PrimFloat.eqb _ 0) eqn:Hz; [discriminate|]. intros [= <-].
  apply not_negative_div; [now apply not_negative_add| |exact Hz].
  apply not_negative_mul; [now apply not_leb_not_negative|].
  apply not_negative_div; [now apply not_leb_not_negative|reflexivity|reflexivity].
Qed.

Lemma calc_cost_per_unit_not_negative cost_per_liter packaging :
  not_negative cost_per_liter -> non_negative_packaging packaging ->
  not_negative (calc_cost_per_unit cost_per_liter (pk_size_l packaging)
                  (pk_price_jar packaging) (pk_price_lid packaging)
                  (pk_price_label packaging)).
Proof.
  intros Hc (Hs & Hj & Hl & Hb). unfold calc_cost_per_unit.
  repeat apply not_negative_add; try assumption. now apply not_negative_mul.
Qed.

Lemma round_half_even_nonneg m e : 0 <= m -> 0 <= Py.round_half_even m e.
Proof.
  intros Hm. unfold Py.round_half_even. destruct (0 <=? e) eqn:He.
  - apply Z.mul_nonneg_nonneg; [exact Hm|]. apply Z.pow_nonneg. lia.
  - cbn zeta. assert (Hd : 0 < 2 ^ (- e)) by (apply Z.pow_pos_nonneg; lia).
    pose proof (Z.div_pos m (2 ^ (- e)) Hm Hd) as Hq.
    destruct (2 * (m mod 2 ^ (- e)) ?= 2 ^ (- e)); [|lia|lia].
    destruct (Z.even _); lia.
Qed.

Lemma round_not_negative x k :
  not_negative x -> Py.round x = Ok k -> 0 <= k.
Proof.
  rewrite not_negative_spec. unfold Py.round.
  destruct (Prim2SF x) as [s|s| |[|] m e]; try discriminate; try contradiction.
  - intros _ [= <-]. lia.
  - intros _ [= <-]. cbn [cond_Zopp]. apply round_half_even_nonneg. lia.
Qed.

(** A target price is never a NaN; it is not below zero when the cost
    per unit and the markup factor are not. *)
Lemma calc_target_price_signed cost_per_unit markup_factor target_price :
  calc_target_price cost_per_unit markup_factor = Ok target_price ->
  Prim2SF target_price <> S754_nan /\
  (not_negative cost_per_unit -> not_negative markup_factor ->
   SF_signed false (Prim2SF target_price)).
Proof.
  unfold calc_target_price, Py.int_truediv. cbn zeta.
  destruct (Py.round _) as [k|e] eqn:Hk; [|discriminate].
  change (20 =? 0) with false. cbn iota. intros [= <-].
  rewrite div_spec.
  change (Prim2SF (Py.float_of_int 20)) with (S754_finite false 5629499534213120 (-48)).
  assert (Hsign : exists s, SF_signed s (Prim2SF (Py.float_of_int k)) /\ (0 <= k -> s = false)).
  { unfold Py.float_of_int. destruct k as [|p|p].
    - exists false. split; [reflexivity|trivial].
    - exists false. split; [|trivial].
      apply Prim2SF_SF2Prim_signed, binary_round_signed.
    - exists true. split; [|lia].
      apply Prim2SF_SF2Prim_signed, binary_round_signed. }
  destruct Hsign as (s & Hs & Hpos).
  assert (Hdiv : SF_signed s (SF64div (Prim2SF (Py.float_of_int k))
                                (S754_finite false 5629499534213120 (-48)))).
  { destruct (Prim2SF (Py.float_of_int k)) as [s'|s'| |s' m e];
      cbn [SF_signed] in Hs; try contradiction; subst s'.
    - now destruct s.
    - now destruct s.
    - unfold SF64div, SFdiv.
      pose proof (SFdiv_core_binary_nonneg m e 5629499534213120 (-48)) as H.
      destruct (SFdiv_core_binary _ _ _ _ _ _) as [[mz ez] lz]. cbn [fst] in H.
      replace (xorb s false) with s by now destruct s.
      now apply binary_round_aux_signed. }
  split.
  - intros E. rewrite E in Hdiv. exact Hdiv.
  - intros Hc Hm.
    assert (Hnn : not_negative (cost_per_unit * markup_factor * 20))
      by (repeat apply not_negative_mul; auto; reflexivity).
    specialize (Hpos (round_not_negative _ _ Hnn Hk)). subst s. exact Hdiv.
Qed.

Lemma items_of_In db recipe_id item :
  In item (items_of db recipe_id) -> In item (recipe_items db).
Proof. unfold items_of. rewrite filter_In. tauto. Qed.

Lemma cost_of_not_negative db :
  non_negative_recipes db ->
  (forall recipe_id v,
      cost_of db recipe_id v ->
      not_negative (fst v) /\ details_not_negative (snd v)) /\
  (forall items a a',
      items_cost db items a a' ->
      (forall item, In item items -> In item (recipe_items db)) ->
      loop_not_negative a -> loop_not_negative a').
Proof.
  intros (Hprice & Henergy & Hamount).
  apply cost_of_items_cost_ind.
  - intros recipe_id recipe a cpl Hr _ IH Hcpl.
    destruct IH as (Ht & Hil & Hsl).
    { intros item. apply items_of_In. }
    { split; [exact not_negative_zero|split; constructor]. }
    pose proof (Henergy _ _ Hr) as He.
    pose proof (calc_cost_per_liter_not_negative _ _ _ _ _ Ht He Hcpl) as Hc.
    cbn [fst snd]. split; [exact Hc|].
    unfold details_not_negative, make_details;
      cbn [d_cost_per_liter d_total_material_cost d_total_cost d_ingredients
           d_sub_recipes].
    split; [exact Hc|]. split; [exact Ht|]. split; [now apply not_negative_add|].
    split; assumption.
  - intros a _ H. exact H.
  - intros item items a a' id ing Hi Hing _ IH Hin (Ht & Hil & Hsl).
    apply IH; [intros x Hx; apply Hin; now right|].
    assert (Hcost : not_negative (it_amount item * ing_price_per_unit ing)).
    { apply not_negative_mul; [apply Hamount, Hin; now left|eapply Hprice, Hing]. }
    unfold loop_not_negative, add_ingredient;
      cbn [total_material_cost ingredient_lines sub_recipe_lines].
    split; [now apply not_negative_add|]. split; [|exact Hsl].
    apply Forall_app. split; [exact Hil|]. constructor; [exact Hcost|constructor].
  - intros item items a a' id cpl d _ _ _ [Hc _] _ IH Hin (Ht & Hil & Hsl).
    cbn [fst] in Hc.
    apply IH; [intros x Hx; apply Hin; now right|].
    assert (Hcost : not_negative (it_amount item * cpl)).
    { apply not_negative_mul; [apply Hamount, Hin; now left|exact Hc]. }
    unfold loop_not_negative, add_sub_recipe;
      cbn [total_material_cost ingredient_lines sub_recipe_lines].
    split; [now apply not_negative_add|]. split; [exact Hil|].
    apply Forall_app. split; [exact Hsl|]. constructor; [|constructor].
    cbn [sl_cost_per_liter sl_cost]. now split.
  - intros item items a a' _ _ _ IH Hin Ha.
    apply IH; [intros x Hx; apply Hin; now right|exact Ha].
Qed.

(** X10.  On a store whose ingredient prices, energy costs and item
    amounts are not below zero, no cost a returned recipe resolution
    reports is below zero: the cost per litre, the total material cost,
    the total cost and the cost and cost per litre of every line of the
    details, whatever the batch size and the yield are.  A returned
    product calculation reports such a recipe cost; when moreover the
    packaging's size and prices and the markup factor are not below zero,
    its packaging cost and cost per unit are not below zero and its
    target price is strictly positive. *)
Theorem X10_costs_are_not_negative :
  forall db self,
    reachable db self ->
    non_negative_recipes db ->
    (forall recipe_id depth cost_per_liter recipe_details self',
        calculate_recipe_cost recipe_id depth self
        = (Ok (cost_per_liter, recipe_details), self') ->
        not_negative cost_per_liter /\ details_not_negative recipe_details) /\
    (forall product_id res self',
        calculate_product product_id self = (Ok res, self') ->
        not_negative (pc_recipe_cost_per_liter res) /\
        details_not_negative (pc_recipe_details res) /\
        (forall product packaging,
            products db !! product_id = Some product ->
            packaging_types db !! pr_packaging_id product = Some packaging ->
            non_negative_packaging packaging ->
            not_negative (pr_markup_factor product) ->
            not_negative (pc_packaging_cost res) /\
            not_negative (pc_cost_per_unit res) /\
            (0 <? pc_target_price res)%float = true)).
Proof.
  intros db self Hreach Hdb.
  pose proof (reachable_invariant _ _ Hreach) as Hinv.
  pose proof (cost_of_not_negative db Hdb) as [Hcost _].
  split.
  - intros recipe_id depth cpl rd self' H.
    destruct (returned_cost_invariant db _ _ _ _ _ Hinv H) as (_ & _ & Hc).
    exact (Hcost _ _ Hc).
  - intros product_id res self' H.
    apply calculate_product_returns in H
      as (product & pk & cpl & rd & s2 & t & ratio & Hp & Hcall & Hpk & Ht & Hratio & -> & ->).
    destruct (returned_cost_invariant db _ _ _ _ _
                (Hinv : invariant db (executed (SelectProduct product_id) self)) Hcall)
      as (_ & _ & Hc).
    destruct (Hcost _ _ Hc) as [Hcpl Hrd]. cbn [fst snd] in Hcpl, Hrd.
    assert (Hconn : conn self = db) by apply Hinv. rewrite Hconn in *.
    cbn [product_result pc_recipe_cost_per_liter pc_recipe_details pc_packaging_cost
         pc_cost_per_unit pc_target_price].
    split; [exact Hcpl|]. split; [exact Hrd|].
    intros product' pk' Hp' Hpk' Hnn Hm.
    assert (product' = product) as -> by congruence.
    assert (pk' = pk) as -> by congruence.
    pose proof (calc_cost_per_unit_not_negative cpl pk Hcpl Hnn) as Hcpu.
    split.
    { destruct Hnn as (_ & Hj & Hl & Hb). now repeat apply not_negative_add. }
    split; [exact Hcpu|].
    destruct (calc_target_price_signed _ _ _ Ht) as [_ Hsigned].
    specialize (Hsigned Hcpu Hm).
    unfold Py.truediv in Hratio.
    destruct (PrimFloat.eqb t 0) eqn:Hz; [discriminate|].
    rewrite FloatAxioms.eqb_spec in Hz. rewrite ltb_spec.
    change (Prim2SF 0) with (S754_zero false) in *.
    destruct (Prim2SF t) as [s|s| |s m e]; cbn [SF_signed] in Hsigned;
      try contradiction; subst s; try reflexivity.
    discriminate Hz.
Qed.

Lemma X10_costs_are_not_negative_witness :
  exists res self',
    calculate_product 4 (new_calculator Seed.db) = (Ok res, self') /\
    not_negative (pc_recipe_cost_per_liter res) /\
    details_not_negative (pc_recipe_details res) /\
    not_negative (pc_cost_per_unit res) /\
    (0 <? pc_target_price res)%float = true.
Proof.
  destruct (calculate_product 4 (new_calculator Seed.db)) as [[res|e] self'] eqn:E;
    [|vm_compute in E; discriminate].
  assert (Hdb : non_negative_recipes Seed.db).
  { split; [|split].
    - intros id ing H.
      refine (map_Forall_lookup_1
                (fun _ ing => not_negative (ing_price_per_unit ing)) _ _ _ _ H).
      apply map_Forall_to_list. vm_compute. repeat constructor.
    - intros id recipe H.
      refine (map_Forall_lookup_1
                (fun _ recipe => not_negative (rc_energy_cost_chf recipe)) _ _ _ _ H).
      apply map_Forall_to_list. vm_compute. repeat constructor.
    - apply (proj1 (List.Forall_forall
                      (fun item => not_negative (it_amount item))
                      (recipe_items Seed.db))).
      vm_compute. repeat constructor. }
  destruct (X10_costs_are_not_negative Seed.db (new_calculator Seed.db)
              (reachable_new Seed.db) Hdb) as [_ Hproduct].
  destruct (Hproduct 4 res self' E) as (Hcpl & Hd & Hpk).
  destruct (products Seed.db !! 4) as [product|] eqn:Hp; [|vm_compute in Hp; discriminate].
  destruct (packaging_types Seed.db !! pr_packaging_id product) as [pk|] eqn:Hk.
  2:{ vm_compute in Hp. injection Hp as <-. vm_compute in Hk. discriminate. }
  destruct (Hpk product pk eq_refl Hk) as (_ & Hcpu & Ht).
  - vm_compute in Hp. injection Hp as <-. vm_compute in Hk. injection Hk as <-.
    vm_compute. auto.
  - vm_compute in Hp. injection Hp as <-. reflexivity.
  - exists res, self'. auto.
Defined.

Lemma SFeqb_refl x : x <> S754_nan -> SFeqb x x = true.
Proof.
  unfold SFeqb. destruct x as [[|]|[|]| |[|] m e]; cbn; try reflexivity;
    try (intros H; now contradiction H);
    intros _; rewrite Z.compare_refl, Pos.compare_cont_refl; reflexivity.
Qed.

(** X11.  Whatever the store holds, the target price of a returned
    product calculation is a number (never a NaN) other than zero: [round]
    raises on a NaN and the margin's division raises on a zero; and the
    margin reported is the ratio [(target_price - cost_per_unit) /
    target_price] times 100. *)
Theorem X11_target_price_is_a_nonzero_number :
  forall product_id self res self',
    calculate_product product_id self = (Ok res, self') ->
    is_nan (pc_target_price res) = false /\
    (pc_target_price res =? 0)%float = false /\
    pc_brutto_margin_pct res
    = ((pc_target_price res - pc_cost_per_unit res) / pc_target_price res * 100)%float.
Proof.
  intros product_id self res self' H.
  apply calculate_product_returns in H
    as (product & pk & cpl & rd & s2 & t & ratio & Hp & Hcall & Hpk & Ht & Hratio & -> & ->).
  cbn [product_result pc_target_price pc_brutto_margin_pct pc_cost_per_unit].
  destruct (calc_target_price_signed _ _ _ Ht) as [Hnan _].
  unfold Py.truediv in Hratio.
  destruct (PrimFloat.eqb t 0) eqn:Hz; [discriminate|]. injection Hratio as <-.
  split; [|split; reflexivity].
  unfold is_nan. rewrite FloatAxioms.eqb_spec, SFeqb_refl by exact Hnan. reflexivity.
Qed.

Lemma X11_target_price_is_a_nonzero_number_witness :
  exists res,
    fst (calculate_product 1 (new_calculator Seed.db)) = Ok res /\
    is_nan (pc_target_price res) = false /\
    (pc_target_price res =? 0)%float = false.
Proof.
  destruct (calculate_product 1 (new_calculator Seed.db)) as [[res|e] self'] eqn:E;
    [|vm_compute in E; discriminate].
  exists res. split; [reflexivity|].
  destruct (X11_target_price_is_a_nonzero_number _ _ _ _ E) as (H1 & H2 & _).
  now split.
Defined.

Lemma closed_hops self n a b :
  cache_closed self -> hops (conn self) n a b ->
  is_Some (recipe_cache self !! a) -> is_Some (recipe_cache self !! b).
Proof.
  intros Hc. induction 1 as [a|n a a' b Hedge _ IH]; intros Ha; [exact Ha|].
  apply IH. exact (Hc a a' Ha Hedge).
Qed.

(** X12.  The invariant of the recipe cache.  On a calculator that has
    only run calls of the two methods on its store, whichever of them
    returned or raised, every cache entry is the result the store's
    records define for its recipe, so a later hit reports what a fresh
    resolution would; every recipe reached from a cached one by
    sub-recipe references is cached too; and a cached recipe is well
    formed and does not reach itself. *)
Theorem X12_cache_invariant :
  forall db self,
    reachable db self ->
    conn self = db /\
    forall recipe_id cost_per_liter recipe_details,
      recipe_cache self !! recipe_id = Some (cost_per_liter, recipe_details) ->
      cost_of db recipe_id (cost_per_liter, recipe_details) /\
      d_cost_per_liter recipe_details = cost_per_liter /\
      (forall n r, hops db n recipe_id r -> is_Some (recipe_cache self !! r)) /\
      (exists h, resolvable db h recipe_id = true) /\
      ~ reaches db recipe_id recipe_id /\
      (forall other depth v other',
          reachable db other ->
          calculate_recipe_cost recipe_id depth other = (Ok v, other') ->
          v = (cost_per_liter, recipe_details)).
Proof.
  intros db self Hreach.
  destruct (reachable_invariant _ _ Hreach) as (Hconn & Hsound & Hclosed).
  split; [exact Hconn|]. intros recipe_id cpl d Hc.
  pose proof (Hsound _ _ Hc) as Hcost. rewrite Hconn in Hcost.
  destruct (proj1 (cost_of_resolvable db) _ _ Hcost) as [h Hh].
  split; [exact Hcost|]. split.
  { inversion Hcost; subst. reflexivity. }
  split.
  { intros n r Hn. rewrite <- Hconn in Hn.
    apply (closed_hops self n recipe_id r Hclosed Hn). now rewrite Hc. }
  split; [now exists h|]. split; [now apply (resolvable_acyclic db h)|].
  intros other depth v other' Hother Hcall.
  destruct (returned_cost _ _ _ _ _ _ Hother Hcall) as (_ & _ & Hv).
  exact (cost_of_deterministic _ _ _ _ Hv Hcost).
Qed.

Lemma X12_cache_invariant_witness :
  exists cost_per_liter recipe_details,
    recipe_cache (snd (calculate_product 3 (new_calculator Seed.db))) !! 3
    = Some (cost_per_liter, recipe_details) /\
    cost_of Seed.db 3 (cost_per_liter, recipe_details) /\
    is_Some (recipe_cache (snd (calculate_product 3 (new_calculator Seed.db))) !! 1).
Proof.
  destruct (recipe_cache (snd (calculate_product 3 (new_calculator Seed.db))) !! 3)
    as [[cpl d]|] eqn:Hc; [|vm_compute in Hc; discriminate].
  destruct (X12_cache_invariant Seed.db _
              (reachable_product Seed.db _ 3 (reachable_new Seed.db)))
    as [_ H].
  destruct (H 3 cpl d Hc) as (Hcost & _ & Hhops & _).
  exists cpl, d. split; [reflexivity|]. split; [exact Hcost|].
  destruct (recipe_cache (snd (calculate_product 3 (new_calculator Seed.db))) !! 1)
    eqn:H1; [eauto|vm_compute in H1; discriminate].
Defined.

(** ** Chains of sub-recipe references and the depth cap *)

Lemma for_each_app {A B} (body : B -> A -> M B) l1 l2 :
  forall b self,
    for_each body (l1 ++ l2) b self =
    match for_each body l1 b self with
    | (Ok b', self') => for_each body l2 b' self'
    | (Raise e, self') => (Raise e, self')
    end.
Proof.
  induction l1 as [|x l1 IH]; intros b self; [reflexivity|].
  cbn [app]. rewrite !for_each_cons.
  destruct (body b x self) as [[b'|e] s1]; [apply IH|reflexivity].
Qed.

(** A call caches only recipes that sub-recipe references lead to from
    its own recipe. *)
Lemma caches_below n :
  forall recipe_id depth self r self' x,
    Z.to_nat (4 - depth) = n ->
    calculate_recipe_cost recipe_id depth self = (r, self') ->
    recipe_cache self !! x = None ->
    is_Some (recipe_cache self' !! x) ->
    exists k, hops (conn self) k recipe_id x.
Proof.
  induction n as [|n IH]; intros recipe_id depth self r self' x Hn;
    rewrite calculate_recipe_cost_unfold, calculate_recipe_cost_body_eq.
  { assert ((3 <? depth) = true) as -> by (apply Z.ltb_lt; lia).
    intros [= <- <-] Hx [v Hv]. congruence. }
  destruct (3 <? depth) eqn:Hd; [intros [= <- <-] Hx [v Hv]; congruence|].
  apply Z.ltb_ge in Hd.
  destruct (recipe_cache self !! recipe_id) as [w|] eqn:Hw;
    [intros [= <- <-] Hx [v Hv]; congruence|].
  cbn zeta. destruct (recipes (conn self) !! recipe_id) as [recipe|] eqn:Hr;
    [|destruct (sqlite_integer recipe_id); intros [= <- <-] Hx [v Hv];
      cbn [recipe_cache executed] in Hv; congruence].
  assert (Hloop : forall items a s r3 s3,
             (forall item, In item items -> In item (items_of (conn self) recipe_id)) ->
             conn s = conn self ->
             for_each (item_step calculate_recipe_cost depth) items a s = (r3, s3) ->
             recipe_cache s !! x = None ->
             is_Some (recipe_cache s3 !! x) ->
             exists k, hops (conn self) (S k) recipe_id x).
  { induction items as [|item items IHitems]; intros a s r3 s3 Hsub Hs H Hx Hx3.
    { injection H as <- <-. destruct Hx3 as [v Hv]. congruence. }
    assert (Hin : In item (items_of (conn self) recipe_id)) by (apply Hsub; now left).
    assert (Hsub' : forall i, In i items -> In i (items_of (conn self) recipe_id))
      by (intros i Hi; apply Hsub; now right).
    rewrite for_each_cons, item_step_eq in H.
    destruct (Py.truthy (it_ingredient_id item)) as [iid|] eqn:Hi.
    - destruct (ingredients (conn s) !! iid).
      + eapply (IHitems _ (executed (SelectIngredient iid) s)); eauto.
      + injection H as <- <-. destruct Hx3 as [v Hv].
        cbn [recipe_cache executed] in Hv. congruence.
    - destruct (Py.truthy (it_sub_recipe_id item)) as [sid|] eqn:Hsid;
        [|eapply IHitems; eauto].
      destruct (calculate_recipe_cost sid (depth + 1) s) as [[[cpl d]|e] s1] eqn:Hcall.
      + destruct (recipe_cache s1 !! x) as [v|] eqn:Hx1.
        * destruct (IH sid (depth + 1) s _ s1 x ltac:(lia) Hcall Hx ltac:(eauto))
            as [k Hk].
          exists k. econstructor; [exists item; eauto|]. now rewrite <- Hs.
        * apply extending_calculate_recipe_cost in Hcall as [Hconn _].
          eapply (IHitems _ s1); eauto. congruence.
      + injection H as <- <-.
        destruct (IH sid (depth + 1) s _ s1 x ltac:(lia) Hcall Hx Hx3) as [k Hk].
        exists k. econstructor; [exists item; eauto|]. now rewrite <- Hs. }
  destruct (for_each _ _ _ _) as [[a|e] s3] eqn:Hfor.
  all: pose proof (fun Hc => Hloop _ _ _ _ _ (fun _ H => H) Hc Hfor) as Hbelow;
    specialize (Hbelow eq_refl); clear Hloop.
  - destruct (calc_cost_per_liter _ _ _ _); intros [= <- <-] Hx Hx';
      cbn [recipe_cache cached] in Hx'.
    + destruct (decide (recipe_id = x)) as [<-|Hne]; [exists 0%nat; constructor|].
      rewrite lookup_insert_ne in Hx' by exact Hne.
      destruct (Hbelow Hx Hx') as [k Hk]. eauto.
    + destruct (Hbelow Hx Hx') as [k Hk]. eauto.
  - intros [= <- <-] Hx Hx'. destruct (Hbelow Hx Hx') as [k Hk]. eauto.
Qed.

(** The loop gets past items that [passes] describes, and leaves the
    recipes to avoid out of the cache. *)
Lemma passes_loop db depth avoid before :
  depth <= 3 ->
  Forall (passes db (Z.to_nat (3 - depth)) avoid) before ->
  forall a self,
    conn self = db ->
    exists a' self',
      for_each (item_step calculate_recipe_cost depth) before a self = (Ok a', self') /\
      conn self' = db /\
      forall x, In x avoid -> recipe_cache self !! x = None ->
                recipe_cache self' !! x = None.
Proof.
  intros Hd. induction 1 as [|item before Hitem _ IH]; intros a self Hconn.
  { exists a, self. auto. }
  rewrite for_each_cons, item_step_eq. unfold passes in Hitem.
  destruct (Py.truthy (it_ingredient_id item)) as [iid|].
  - rewrite Hconn. destruct Hitem as [ing ->].
    destruct (IH (add_ingredient a (it_amount item) ing)
                (executed (SelectIngredient iid) self) Hconn)
      as (a' & self' & Hrun & Hconn' & Hkeep).
    exists a', self'. auto.
  - destruct (Py.truthy (it_sub_recipe_id item)) as [sid|]; [|now apply IH].
    destruct Hitem as [Hres Havoid].
    pose proof (resolvable_returns _ sid (depth + 1) self
                  ltac:(rewrite Hconn; exact Hres) ltac:(lia)) as Hok.
    destruct (calculate_recipe_cost sid (depth + 1) self) as [[[cpl d]|e] s1] eqn:Hcall;
      [|discriminate].
    pose proof (extending_calculate_recipe_cost _ _ _ _ _ Hcall) as [Hconn1 _].
    destruct (IH (add_sub_recipe a (it_amount item) sid cpl d) s1 ltac:(congruence))
      as (a' & self' & Hrun & Hconn' & Hkeep).
    exists a', self'. split; [exact Hrun|split; [exact Hconn'|]].
    intros x Hx Hnone. apply Hkeep; [exact Hx|].
    destruct (recipe_cache s1 !! x) as [v|] eqn:Hx1; [|reflexivity].
    exfalso.
    destruct (caches_below _ _ _ _ _ _ x eq_refl Hcall Hnone ltac:(eauto)) as [k Hk].
    rewrite Hconn in Hk. exact (Havoid x k Hx Hk).
Qed.

(** Descending a chain that is followed, through recipes that are not
    cached, the call that starts [4 - depth] references above the end of
    the chain raises the [RecursionError] of the end. *)
Lemma followed_raises db depth root path last :
  followed db depth root path last ->
  forall self,
    conn self = db ->
    Forall (fun r => recipe_cache self !! r = None) path ->
    depth + Z.of_nat (length path) = 4 ->
    fst (calculate_recipe_cost root depth self) = Raise (RecursionError last).
Proof.
  induction 1 as [depth last
                 |depth root next path last recipe before item rest
                    Hr Hitems Hbefore Hi Hs _ IH];
    intros self Hconn Hpath Hlen.
  { cbn [length] in Hlen. rewrite depth_exceeded by lia. reflexivity. }
  cbn [length] in Hlen. inversion Hpath as [|? ? Hroot Hrest]; subst.
  rewrite calculate_recipe_cost_unfold, calculate_recipe_cost_body_eq.
  assert ((3 <? depth) = false) as -> by (apply Z.ltb_ge; lia).
  rewrite Hroot. cbn zeta. rewrite Hr, Hitems, for_each_app.
  destruct (passes_loop (conn self) depth path before ltac:(lia) Hbefore loop_init
              (executed (SelectRecipeItems root) (executed (SelectRecipe root) self))
              eq_refl) as (a' & s1 & -> & Hconn1 & Hkeep).
  rewrite for_each_cons, item_step_eq, Hi, Hs.
  assert (Hnext : fst (calculate_recipe_cost next (depth + 1) s1)
                  = Raise (RecursionError last)).
  { apply IH; [exact Hconn1| |lia].
    apply List.Forall_forall. intros x Hx. apply Hkeep; [exact Hx|].
    revert x Hx. now apply List.Forall_forall. }
  destruct (calculate_recipe_cost next (depth + 1) s1) as [[[cpl d]|e] s2];
    cbn [fst] in Hnext; [discriminate|]. now injection Hnext as ->.
Qed.

(** On the example stores a sub-recipe reference is an item
    [Seed.item a None (Some b) 1]. *)
Ltac reference a b :=
  exists (Seed.item a None (Some b) 1);
  split; [vm_compute; repeat (try (left; reflexivity); right)|split; reflexivity].

Ltac hop a b := eapply (hops_S _ _ a b); [reference a b|].

(** C2 fails as stated for the chain of five levels: on [shared_db] four
    sub-recipe references lead from recipe 1 down to recipe 3 (through
    recipes 5, 6 and 2), and the top-level resolution of recipe 1 on a new
    calculator returns: recipe 2 is resolved for the first item of recipe
    1 and answered from the cache when recipe 6 asks for it. *)
Lemma C2_counterexample : ~ C2_as_stated.
Proof.
  intros H.
  destruct (H Examples.shared_db 1 3) as (r & self' & E).
  - hop 1 5. hop 5 6. hop 6 2. hop 2 3. constructor.
  - vm_compute in E. discriminate.
Qed.

(** C2, amended.  The depth test raises a [RecursionError] naming its
    recipe whenever [depth > 3], whatever the cache holds and leaving the
    calculator as it is; a call with [depth <= 3] raises a
    [RecursionError] only for the recipe exactly [4 - depth] sub-recipe
    references below its own, whose call ran at depth 4.  It does raise
    it when a chain of [4 - depth] references is followed: the recipes of
    the chain above its end exist and are not cached, and in each the
    reference to the next comes after items the loop gets past without
    caching a recipe of the chain (ingredient items whose ingredient
    exists, items without reference, sub-recipes well formed within the
    cap from which the chain is not reached).  A recipe that is well
    formed at most [4 - depth] levels deep returns.  The cap never
    truncates a result: a call that returns on a reachable calculator
    returns the cost that the records define through all levels.  On
    [chain_db 5] the top-level call raises the error, naming recipe 5; on
    [chain_db 4] it returns. *)
Theorem C2_depth_cap :
  (forall self recipe_id depth,
      3 < depth ->
      calculate_recipe_cost recipe_id depth self
        = (Raise (RecursionError recipe_id), self)) /\
  (forall self recipe_id depth r self',
      depth <= 3 ->
      calculate_recipe_cost recipe_id depth self = (Raise (RecursionError r), self') ->
      hops (conn self) (Z.to_nat (4 - depth)) recipe_id r) /\
  (forall self depth root path last,
      followed (conn self) depth root path last ->
      Forall (fun r => recipe_cache self !! r = None) path ->
      depth + Z.of_nat (length path) = 4 ->
      fst (calculate_recipe_cost root depth self) = Raise (RecursionError last)) /\
  (forall self recipe_id depth h,
      resolvable (conn self) h recipe_id = true ->
      depth + Z.of_nat h <= 4 ->
      is_ok (fst (calculate_recipe_cost recipe_id depth self)) = true) /\
  (forall db self recipe_id depth v self',
      reachable db self ->
      calculate_recipe_cost recipe_id depth self = (Ok v, self') ->
      cost_of db recipe_id v) /\
  fst (calculate_recipe_cost 1 0 (new_calculator (Examples.chain_db 5)))
    = Raise (RecursionError 5) /\
  is_ok (fst (calculate_recipe_cost 1 0 (new_calculator (Examples.chain_db 4)))) = true.
Proof.
  split; [|split; [|split; [|split; [|split; [|split]]]]].
  - intros. now apply depth_exceeded.
  - intros self recipe_id depth r self' Hd H.
    apply recursion_error_origin in H as [[Hd' _]|[_ H]]; [lia|exact H].
  - intros self depth root path last H Hpath Hlen.
    now apply (followed_raises _ _ _ _ _ H).
  - intros self recipe_id depth h. apply resolvable_returns.
  - intros db self recipe_id depth v self' Hreach H.
    now destruct (returned_cost _ _ _ _ _ _ Hreach H) as (_ & _ & Hcost).
  - vm_compute. reflexivity.
  - vm_compute. reflexivity.
Qed.

Lemma later_db_side n x : hops Examples.later_db n 9 x -> x = 9.
Proof.
  inversion 1 as [|? ? b ? Hedge _]; subst; [reflexivity|].
  destruct Hedge as (item & Hin & Hi & _). vm_compute in Hin.
  destruct Hin as [<-|[]]. vm_compute in Hi. discriminate.
Qed.

Lemma C2_depth_cap_witness :
  calculate_recipe_cost 7 4 (new_calculator Seed.db)
    = (Raise (RecursionError 7), new_calculator Seed.db) /\
  hops Examples.later_db 4 1 5 /\
  followed Examples.later_db 0 1 [1; 2; 3; 4] 5 /\
  fst (calculate_recipe_cost 1 0 (new_calculator Examples.later_db))
    = Raise (RecursionError 5) /\
  is_ok (fst (calculate_recipe_cost 3 1 (new_calculator Seed.db))) = true /\
  (exists v, fst (calculate_recipe_cost 3 0 (new_calculator Seed.db)) = Ok v /\
             cost_of Seed.db 3 v).
Proof.
  assert (Hfollowed : followed Examples.later_db 0 1 [1; 2; 3; 4] 5).
  { eapply (followed_reference _ 0 1 2 _ _ _
              [Seed.item 1 (Some 1) None 1; Seed.item 1 None (Some 9) 1]);
      [reflexivity|reflexivity| |reflexivity|reflexivity|].
    { constructor; [vm_compute; eauto|constructor; [|constructor]].
      split; [vm_compute; reflexivity|].
      intros x n Hx Hn. apply later_db_side in Hn as ->.
      vm_compute in Hx. intuition discriminate. }
    eapply (followed_reference _ _ 2 3 _ _ _ [Seed.item 2 (Some 1) None 1]);
      [reflexivity|reflexivity|repeat constructor; vm_compute; eauto
      |reflexivity|reflexivity|].
    eapply (followed_reference _ _ 3 4 _ _ _ [Seed.item 3 (Some 1) None 1]);
      [reflexivity|reflexivity|repeat constructor; vm_compute; eauto
      |reflexivity|reflexivity|].
    eapply (followed_reference _ _ 4 5 _ _ _ [Seed.item 4 (Some 1) None 1]);
      [reflexivity|reflexivity|repeat constructor; vm_compute; eauto
      |reflexivity|reflexivity|].
    constructor. }
  destruct C2_depth_cap as (Hcap & Horigin & Hchain & Hreturns & Hfull & _).
  split; [|split; [|split; [|split; [|split]]]].
  - apply Hcap. lia.
  - apply (Horigin (new_calculator Examples.later_db) 1 0 5
             (snd (calculate_recipe_cost 1 0 (new_calculator Examples.later_db)))).
    + lia.
    + vm_compute. reflexivity.
  - exact Hfollowed.
  - apply (Hchain (new_calculator Examples.later_db) 0 1 [1; 2; 3; 4] 5 Hfollowed).
    + repeat constructor.
    + reflexivity.
  - apply (Hreturns (new_calculator Seed.db) 3 1 3%nat); [vm_compute; reflexivity|lia].
  - destruct (calculate_recipe_cost 3 0 (new_calculator Seed.db)) as [[v|e] self'] eqn:E;
      [|vm_compute in E; discriminate].
    exists v. split; [reflexivity|].
    exact (Hfull Seed.db _ 3 0 v self' (reachable_new _) E).
Defined.
